(** * JacquardSDK release scripts: [Scripts/release_readiness.py] and
      [Scripts/update_build_hash.py]

    A shallow embedding of the two release-engineering scripts and the
    properties of their natural-language specification.

    Text is modelled by [string], whose 8-bit characters are read as the
    code points U+0000 to U+00FF.  A subprocess is an oracle call: the
    answer may depend on every call made before it.  The interpreter's
    standard output, the working directory, the files the process writes
    and the global [release_ready] are threaded through a state and error
    monad; a failed [assert] and any other uncaught exception end the run. *)

From Stdlib Require Import String Ascii List ZArith Lia Bool.
From Stdlib Require Import PrimFloat FloatOps SpecFloat DecimalString.
From stdpp Require Import base strings gmap.
Import ListNotations.

Set Warnings "-inexact-float,-register-all".
Local Open Scope string_scope.

(** ** Characters and Python's string methods *)

Module Py.

Definition code (c : ascii) : N := N_of_ascii c.

Definition chr (n : N) : ascii := ascii_of_N n.

Definition dquote : string := String (chr 34) "".
Definition squote : string := String (chr 39) "".
Definition backslash : string := String (chr 92) "".
Definition nl : string := String (chr 10) "".

Definition between (lo hi : N) (c : ascii) : bool :=
  ((lo <=? code c) && (code c <=? hi))%N.

(** [str.isspace] on the code points below U+0100. *)
Definition isspace (c : ascii) : bool :=
  between 9 13 c || between 28 32 c || (code c =? 133)%N || (code c =? 160)%N.

(** The line boundaries of [str.splitlines] below U+0100. *)
Definition is_linebreak (c : ascii) : bool :=
  between 10 13 c || between 28 30 c || (code c =? 133)%N.

Definition is_digit (c : ascii) : bool := between 48 57 c.

Fixpoint lstrip (s : string) : string :=
  match s with
  | String c s' => if isspace c then lstrip s' else s
  | EmptyString => EmptyString
  end.

(** [s.rstrip()]: drop the trailing whitespace. *)
Fixpoint rstrip (s : string) : string :=
  match s with
  | String c s' =>
      match rstrip s' with
      | EmptyString => if isspace c then EmptyString else String c EmptyString
      | t => String c t
      end
  | EmptyString => EmptyString
  end.

Definition strip (s : string) : string := lstrip (rstrip s).

(** [s.splitlines()]: [cur] is the line read so far.  A carriage return
    directly followed by a line feed is one boundary; a last line with no
    terminator is kept unless it is empty. *)
Fixpoint splitlines_from (cur s : string) : list string :=
  match s with
  | EmptyString => if String.eqb cur "" then [] else [cur]
  | String c s' =>
      if is_linebreak c then
        cur :: match s' with
               | String c' s'' =>
                   if (code c =? 13)%N && (code c' =? 10)%N
                   then splitlines_from "" s''
                   else splitlines_from "" s'
               | EmptyString => []
               end
      else splitlines_from (cur +:+ String c "") s'
  end.

Definition splitlines (s : string) : list string := splitlines_from "" s.

Fixpoint contains (sub s : string) : bool :=
  String.prefix sub s ||
  match s with
  | String _ s' => contains sub s'
  | EmptyString => false
  end.

(** [s[len(lit):]] when [s.startswith(lit)]. *)
Fixpoint after_prefix (lit s : string) : option string :=
  match lit with
  | EmptyString => Some s
  | String c lit' =>
      match s with
      | String c' s' => if Ascii.eqb c c' then after_prefix lit' s' else None
      | EmptyString => None
      end
  end.

Definition hex_digit (n : N) : ascii :=
  if (n <? 10)%N then chr (48 + n) else chr (87 + n).

Definition hex2 (c : ascii) : string :=
  String (hex_digit (code c / 16)) (String (hex_digit (code c mod 16)) "").

(** [str.isprintable] for one character below U+0100. *)
Definition isprintable (c : ascii) : bool :=
  between 32 126 c || (between 161 255 c && negb (code c =? 173)%N).

Definition repr_char (quote : ascii) (c : ascii) : string :=
  if Ascii.eqb c quote || (code c =? 92)%N then backslash +:+ String c ""
  else if (code c =? 9)%N then backslash +:+ "t"
  else if (code c =? 10)%N then backslash +:+ "n"
  else if (code c =? 13)%N then backslash +:+ "r"
  else if isprintable c then String c ""
  else backslash +:+ "x" +:+ hex2 c.

Fixpoint repr_body (quote : ascii) (s : string) : string :=
  match s with
  | String c s' => repr_char quote c +:+ repr_body quote s'
  | EmptyString => EmptyString
  end.

(** [repr(s)] of a [str]: single quotes, unless the text has a single
    quote and no double quote. *)
Definition repr (s : string) : string :=
  let quote := if contains squote s && negb (contains dquote s)
               then chr 34 else chr 39 in
  String quote "" +:+ repr_body quote s +:+ String quote "".

(** Every character of [s] passes the test [p]. *)
Fixpoint all_chars (p : ascii -> bool) (s : string) : bool :=
  match s with
  | String c s' => p c && all_chars p s'
  | EmptyString => true
  end.

Definition not_newline (c : ascii) : bool := negb (code c =? 10)%N.

(** A character that [repr] shows as it is between single quotes. *)
Definition shown_as_is (c : ascii) : bool :=
  isprintable c && negb (code c =? 39)%N && negb (code c =? 92)%N.

(** [repr(n)] and [str(n)] of an [int]. *)
Definition repr_int (n : Z) : string := NilZero.string_of_int (Z.to_int n).

End Py.

(** ** Regular expressions

    The patterns of the scripts, matched as [re] does: leftmost, greedy,
    with backtracking.  A continuation receives the rest of the subject
    and the text of group 1. *)

Module Re.

Inductive regex : Type :=
| Lit (s : string)               (* literal text *)
| Dot                            (* [.]: any character but a line feed *)
| Range (lo hi : ascii)          (* [[lo-hi]] *)
| Seq (r1 r2 : regex)
| Star (r : regex)               (* [r*], greedy *)
| Bol                            (* [^] without re.MULTILINE *)
| Group (r : regex).             (* the capturing group 1 *)

(** [r+], greedy *)
Definition Plus (r : regex) : regex := Seq r (Star r).

Record rmatch : Type := MkMatch { group0 : string; group1 : option string }.

Definition consumed (s rest : string) : string :=
  String.substring 0 (String.length s - String.length rest) s.

Section Matcher.
Context {R : Type}.
(** Length of the whole subject: [^] holds only where nothing was read. *)
Variable subject_length : nat.

Fixpoint matches (r : regex) (s : string) (g : option string)
    (k : string -> option string -> option R) {struct r} : option R :=
  match r with
  | Lit l =>
      match Py.after_prefix l s with
      | Some rest => k rest g
      | None => None
      end
  | Dot =>
      match s with
      | String c s' => if (Py.code c =? 10)%N then None else k s' g
      | EmptyString => None
      end
  | Range lo hi =>
      match s with
      | String c s' =>
          if Py.between (Py.code lo) (Py.code hi) c then k s' g else None
      | EmptyString => None
      end
  | Seq r1 r2 => matches r1 s g (fun s' g' => matches r2 s' g' k)
  | Star r1 =>
      (fix loop (fuel : nat) (s : string) (g : option string) : option R :=
         match fuel with
         | O => k s g
         | S fuel' =>
             match matches r1 s g (fun s' g' =>
                     if Nat.ltb (String.length s') (String.length s)
                     then loop fuel' s' g' else None) with
             | Some res => Some res
             | None => k s g
             end
         end) (String.length s) s g
  | Bol => if Nat.eqb (String.length s) subject_length then k s g else None
  | Group r1 => matches r1 s g (fun s' _ => k s' (Some (consumed s s')))
  end.
End Matcher.

Definition match_here (subject_length : nat) (r : regex) (s : string)
    : option rmatch :=
  matches subject_length r s None
    (fun rest g => Some (MkMatch (consumed s rest) g)).

Fixpoint search_from (subject_length : nat) (r : regex) (s : string)
    : option rmatch :=
  match match_here subject_length r s with
  | Some m => Some m
  | None =>
      match s with
      | String _ s' => search_from subject_length r s'
      | EmptyString => None
      end
  end.

(** [r.search(s)] *)
Definition search (r : regex) (s : string) : option rmatch :=
  search_from (String.length s) r s.

End Re.

(** ** JSON documents as [json.loads] returns them *)

Module Json.

(** The Python objects [json.loads] builds: [None], [bool], [int],
    [float], [str], [list] and [dict] (an insertion-ordered map, kept as
    an association list without repeated keys). *)
Inductive value : Type :=
| JNull
| JBool (b : bool)
| JInt (n : Z)
| JFloat (f : float)
| JStr (s : string)
| JList (l : list value)
| JDict (d : list (string * value)).

Fixpoint dict_get (k : string) (d : list (string * value)) : option value :=
  match d with
  | (k', v) :: d' => if String.eqb k k' then Some v else dict_get k d'
  | [] => None
  end.

(** [d[k] = v]: a present key keeps its place and takes the new value. *)
Fixpoint dict_set (k : string) (v : value) (d : list (string * value))
    : list (string * value) :=
  match d with
  | (k', v') :: d' =>
      if String.eqb k k' then (k', v) :: d' else (k', v') :: dict_set k v d'
  | [] => [(k, v)]
  end.

Definition dict_of_pairs (ps : list (string * value)) : list (string * value) :=
  fold_left (fun d p => dict_set (fst p) (snd p) d) ps [].

(** The whitespace of the JSON grammar: space, tab, line feed, return. *)
Definition is_ws (c : ascii) : bool :=
  let n := Py.code c in ((n =? 32) || (n =? 9) || (n =? 10) || (n =? 13))%N.

Fixpoint skip_ws (s : string) : string :=
  match s with
  | String c s' => if is_ws c then skip_ws s' else s
  | EmptyString => EmptyString
  end.

(** The text after the literal [lit], when [s] starts with it. *)
Definition expect (lit s : string) : option string := Py.after_prefix lit s.

Definition hex_value (c : ascii) : option N :=
  let n := Py.code c in
  if Py.between 48 57 c then Some (n - 48)%N
  else if Py.between 97 102 c then Some (n - 87)%N
  else if Py.between 65 70 c then Some (n - 55)%N
  else None.

Definition hex4 (a b c d : ascii) : option N :=
  match hex_value a, hex_value b, hex_value c, hex_value d with
  | Some x, Some y, Some z, Some w => Some (((x * 16 + y) * 16 + z) * 16 + w)%N
  | _, _, _, _ => None
  end.

Definition unescape (c : ascii) : option ascii :=
  let n := Py.code c in
  if ((n =? 34) || (n =? 92) || (n =? 47))%N then Some c
  else if (n =? 98)%N then Some (Py.chr 8)
  else if (n =? 102)%N then Some (Py.chr 12)
  else if (n =? 110)%N then Some (Py.chr 10)
  else if (n =? 114)%N then Some (Py.chr 13)
  else if (n =? 116)%N then Some (Py.chr 9)
  else None.

Definition cons_char (c : ascii) (r : option (string * string))
    : option (string * string) :=
  match r with
  | Some (t, rest) => Some (String c t, rest)
  | None => None
  end.

(** The body of a string, read after its opening quote, in strict mode:
    the text and what follows the closing quote.  An escape [\uXXXX]
    above U+00FF has no 8-bit character and is not loaded. *)
Fixpoint scanstring (s : string) : option (string * string) :=
  match s with
  | EmptyString => None
  | String c s' =>
      if (Py.code c =? 34)%N then Some (EmptyString, s')
      else if (Py.code c =? 92)%N then
        match s' with
        | EmptyString => None
        | String e s'' =>
            if (Py.code e =? 117)%N then
              match s'' with
              | String h1 (String h2 (String h3 (String h4 s3))) =>
                  match hex4 h1 h2 h3 h4 with
                  | Some cp =>
                      if (cp <? 256)%N
                      then cons_char (Py.chr cp) (scanstring s3)
                      else None
                  | None => None
                  end
              | _ => None
              end
            else
              match unescape e with
              | Some ch => cons_char ch (scanstring s'')
              | None => None
              end
        end
      else if (Py.code c <? 32)%N then None
      else cons_char c (scanstring s')
  end.

(** The leading decimal digits of [s] and the rest. *)
Fixpoint span_digits (s : string) : string * string :=
  match s with
  | String c s' =>
      if Py.is_digit c
      then let (ds, rest) := span_digits s' in (String c ds, rest)
      else (EmptyString, s)
  | EmptyString => (EmptyString, EmptyString)
  end.

Fixpoint Z_of_digits_from (acc : Z) (ds : string) : Z :=
  match ds with
  | String c ds' => Z_of_digits_from (10 * acc + (Z.of_N (Py.code c) - 48)) ds'
  | EmptyString => acc
  end.

Definition Z_of_digits (ds : string) : Z := Z_of_digits_from 0 ds.

(** [float] of the decimal [m * 10^e], [m >= 0], with sign [neg]:
    the nearest binary64 value, ties to even. *)
Definition float_of_decimal (neg : bool) (m e : Z) : float :=
  match m with
  | Zpos p =>
      SF2Prim
        (if (0 <=? e)%Z
         then binary_normalize prec emax
                (if neg then Z.opp (m * 10 ^ e) else m * 10 ^ e)%Z 0%Z false
         else match (10 ^ (- e))%Z with
              | Zpos q =>
                  SFdiv prec emax (S754_finite neg p 0) (S754_finite false q 0)
              | _ => S754_nan
              end)
  | _ => if neg then neg_zero else zero
  end.

(** A number of the JSON grammar at the head of [s]: an [int] when it has
    neither fraction nor exponent, a [float] otherwise. *)
Definition scan_number (s : string) : option (value * string) :=
  let (neg, s1) := match expect "-" s with
                   | Some r => (true, r)
                   | None => (false, s)
                   end in
  let int_part :=
    match s1 with
    | String c s2 =>
        if (Py.code c =? 48)%N then Some (String c "", s2)
        else if Py.between 49 57 c
        then let (ds, r) := span_digits s2 in Some (String c ds, r)
        else None
    | EmptyString => None
    end in
  match int_part with
  | None => None
  | Some (ip, r1) =>
      let (frac, r2) :=
        match expect "." r1 with
        | Some r =>
            let (fd, r') := span_digits r in
            if String.eqb fd "" then (None, r1) else (Some fd, r')
        | None => (None, r1)
        end in
      let (expo, r3) :=
        match r2 with
        | String c r =>
            if ((Py.code c =? 101) || (Py.code c =? 69))%N then
              let (eneg, r') :=
                match expect "-" r, expect "+" r with
                | Some t, _ => (true, t)
                | None, Some t => (false, t)
                | None, None => (false, r)
                end in
              let (ed, r'') := span_digits r' in
              if String.eqb ed "" then (None, r2)
              else (Some (if eneg then Z.opp (Z_of_digits ed)
                          else Z_of_digits ed), r'')
            else (None, r2)
        | EmptyString => (None, r2)
        end in
      match frac, expo with
      | None, None =>
          Some (JInt (if neg then Z.opp (Z_of_digits ip) else Z_of_digits ip), r3)
      | _, _ =>
          let fd := match frac with Some d => d | None => EmptyString end in
          let ex := match expo with Some x => x | None => 0%Z end in
          Some (JFloat (float_of_decimal neg (Z_of_digits (ip +:+ fd))
                          (ex - Z.of_nat (String.length fd))), r3)
      end
  end.

Definition scan_constant (s : string) : option (value * string) :=
  match expect "null" s, expect "true" s, expect "false" s with
  | Some r, _, _ => Some (JNull, r)
  | _, Some r, _ => Some (JBool true, r)
  | _, _, Some r => Some (JBool false, r)
  | _, _, _ =>
      match expect "NaN" s, expect "Infinity" s, expect "-Infinity" s with
      | Some r, _, _ => Some (JFloat nan, r)
      | _, Some r, _ => Some (JFloat infinity, r)
      | _, _, Some r => Some (JFloat neg_infinity, r)
      | _, _, _ => scan_number s
      end
  end.

(** The scanner.  [members] reads an object from the opening quote of a
    key, [elements] an array from the start of an item.  Every call hands
    on one unit of [fuel] less; no level spends more than two units for a
    character it reads. *)
Fixpoint scan_once (fuel : nat) (s : string) : option (value * string) :=
  match fuel with
  | O => None
  | S fuel' =>
      match s with
      | EmptyString => None
      | String c s' =>
          if (Py.code c =? 34)%N then
            match scanstring s' with
            | Some (t, r) => Some (JStr t, r)
            | None => None
            end
          else if (Py.code c =? 123)%N then
            match expect "}" (skip_ws s') with
            | Some r => Some (JDict [], r)
            | None =>
                match members fuel' (skip_ws s') with
                | Some (ps, r) => Some (JDict (dict_of_pairs ps), r)
                | None => None
                end
            end
          else if (Py.code c =? 91)%N then
            match expect "]" (skip_ws s') with
            | Some r => Some (JList [], r)
            | None =>
                match elements fuel' (skip_ws s') with
                | Some (vs, r) => Some (JList vs, r)
                | None => None
                end
            end
          else scan_constant s
      end
  end
with members (fuel : nat) (s : string)
    : option (list (string * value) * string) :=
  match fuel with
  | O => None
  | S fuel' =>
      match expect Py.dquote s with
      | None => None
      | Some s1 =>
          match scanstring s1 with
          | None => None
          | Some (key, r) =>
              match expect ":" (skip_ws r) with
              | None => None
              | Some r1 =>
                  match scan_once fuel' (skip_ws r1) with
                  | None => None
                  | Some (v, r2) =>
                      match expect "}" (skip_ws r2), expect "," (skip_ws r2) with
                      | Some r3, _ => Some ([(key, v)], r3)
                      | None, Some r3 =>
                          match members fuel' (skip_ws r3) with
                          | Some (ps, r4) => Some ((key, v) :: ps, r4)
                          | None => None
                          end
                      | None, None => None
                      end
                  end
              end
          end
      end
  end
with elements (fuel : nat) (s : string) : option (list value * string) :=
  match fuel with
  | O => None
  | S fuel' =>
      match scan_once fuel' s with
      | None => None
      | Some (v, r) =>
          match expect "]" (skip_ws r), expect "," (skip_ws r) with
          | Some r1, _ => Some ([v], r1)
          | None, Some r1 =>
              match elements fuel' (skip_ws r1) with
              | Some (vs, r2) => Some (v :: vs, r2)
              | None => None
              end
          | None, None => None
          end
      end
  end.

(** [json.loads(s)]; [None] stands for the exception it raises. *)
Definition loads (s : string) : option value :=
  match scan_once (2 * String.length s + 2) (skip_ws s) with
  | Some (v, rest) =>
      if String.eqb (skip_ws rest) "" then Some v else None
  | None => None
  end.

End Json.

(** ** Exceptions and Python's operators on loaded values *)

Inductive exn : Type :=
| AssertionError (msg : string)
| TypeError
| KeyError
| IndexError
| JSONDecodeError
| OSError.

Inductive result (A : Type) : Type :=
| Val (a : A)
| Exc (e : exn).
Arguments Val {A} a.
Arguments Exc {A} e.

Definition rbind {A B} (r : result A) (f : A -> result B) : result B :=
  match r with
  | Val a => f a
  | Exc e => Exc e
  end.

Module Obj.
Import Json.

(** [len(v)] *)
Definition len (v : value) : result nat :=
  match v with
  | JList l => Val (List.length l)
  | JDict d => Val (List.length d)
  | JStr s => Val (String.length s)
  | _ => Exc TypeError
  end.

(** [v[0]] *)
Definition first (v : value) : result value :=
  match v with
  | JList (x :: _) => Val x
  | JList [] => Exc IndexError
  | JStr (String c _) => Val (JStr (String c ""))
  | JStr EmptyString => Exc IndexError
  | JDict _ => Exc KeyError
  | _ => Exc TypeError
  end.

(** [v[key]] for a [str] key *)
Definition item (v : value) (key : string) : result value :=
  match v with
  | JDict d =>
      match dict_get key d with
      | Some x => Val x
      | None => Exc KeyError
      end
  | _ => Exc TypeError
  end.

Fixpoint chars (s : string) : list value :=
  match s with
  | String c s' => JStr (String c "") :: chars s'
  | EmptyString => []
  end.

(** The items [for x in v] visits. *)
Definition iter (v : value) : result (list value) :=
  match v with
  | JList l => Val l
  | JDict d => Val (map (fun p => JStr (fst p)) d)
  | JStr s => Val (chars s)
  | _ => Exc TypeError
  end.

(** [n < f] for an [int] and a [float], compared as exact numbers. *)
Definition int_lt_float (n : Z) (f : float) : bool :=
  match Prim2SF f with
  | S754_nan => false
  | S754_infinity neg => negb neg
  | S754_zero _ => (n <? 0)%Z
  | S754_finite neg m e =>
      let v := if neg then Zneg m else Zpos m in
      if (0 <=? e)%Z then (n <? v * 2 ^ e)%Z else (n * 2 ^ (- e) <? v)%Z
  end.

(** [v < f] for a [float] on the right; a [bool] counts as 0 or 1. *)
Definition lt_float (v : value) (f : float) : result bool :=
  match v with
  | JFloat x => Val (PrimFloat.ltb x f)
  | JInt n => Val (int_lt_float n f)
  | JBool b => Val (int_lt_float (if b then 1 else 0)%Z f)
  | _ => Exc TypeError
  end.

End Obj.

(** ** The process and its surroundings *)

(** What [exec_cmd] returns: exit status, standard output, standard error. *)
Record CmdResult : Type := MkResult {
  returncode : Z;
  std_out : string;
  std_err : string
}.

(** A subprocess that was run: its command line and its result. *)
Definition call : Type := string * CmdResult.

(** What the scripts do not control.  Every answer may depend on the
    subprocesses run so far. *)
Record Env : Type := MkEnv {
  (** the result of running a shell command *)
  popen : list call -> string -> CmdResult;
  (** whether [os.chdir] to an absolute path succeeds *)
  isdir : list call -> string -> bool;
  (** whether [open(path, "w")] succeeds for an absolute path *)
  writable : list call -> string -> bool;
  (** [repr] of a [float] *)
  float_repr : float -> string
}.

Record State : Type := MkState {
  (** the global of [release_readiness.py] *)
  release_ready : bool;
  (** the working directory *)
  cwd : string;
  (** everything printed so far *)
  console : string;
  (** the files, by absolute path *)
  files : gmap string string;
  (** the subprocesses run so far, oldest first *)
  calls : list call
}.

Inductive outcome (A : Type) : Type :=
| Ok (a : A) (s : State)
| Raise (e : exn) (s : State).
Arguments Ok {A} a s.
Arguments Raise {A} e s.

Definition M (A : Type) : Type := State -> outcome A.

Definition ret {A} (a : A) : M A := fun s => Ok a s.

Definition bind {A B} (m : M A) (f : A -> M B) : M B :=
  fun s => match m s with
           | Ok a s' => f a s'
           | Raise e s' => Raise e s'
           end.

Notation "'do' x <- m ; k" := (bind m (fun x => k))
  (at level 10, x name, m at level 100, k at level 200).

Definition raise {A} (e : exn) : M A := fun s => Raise e s.

Definition lift {A} (r : result A) : M A :=
  match r with
  | Val a => ret a
  | Exc e => raise e
  end.

(** [assert cond, msg] *)
Definition assert (cond : bool) (msg : string) : M unit :=
  if cond then ret tt else raise (AssertionError msg).

(** [s] with [text] printed. *)
Definition printed (text : string) (s : State) : State :=
  MkState (release_ready s) (cwd s) (console s +:+ text) (files s) (calls s).

(** [print(text, end="", flush=True)] *)
Definition print_flush (text : string) : M unit :=
  fun s => Ok tt (printed text s).

(** [print(text)] *)
Definition print (text : string) : M unit := print_flush (text +:+ Py.nl).

(** [global release_ready; release_ready = False] *)
Definition set_not_ready : M unit :=
  fun s => Ok tt (MkState false (cwd s) (console s) (files s) (calls s)).

Definition get_release_ready : M bool := fun s => Ok (release_ready s) s.

(** A path as the system resolves it against the working directory. *)
Definition resolve (dir path : string) : string :=
  if String.prefix "/" path then path else dir +:+ "/" +:+ path.

Section Process.
Variable env : Env.

(** [exec_cmd(cmd)] of both scripts. *)
Definition exec_cmd (cmd : string) : M CmdResult :=
  fun s =>
    let r := popen env (calls s) cmd in
    Ok r (MkState (release_ready s) (cwd s) (console s) (files s)
            (calls s ++ [(cmd, r)])).

(** [os.chdir(path)] *)
Definition chdir (path : string) : M unit :=
  fun s =>
    if negb (String.eqb path "") && isdir env (calls s) (resolve (cwd s) path)
    then Ok tt (MkState (release_ready s) (resolve (cwd s) path) (console s)
                  (files s) (calls s))
    else Raise OSError s.

(** [open(path, "w")]: the file is created or emptied; the handle is
    its absolute path. *)
Definition open_w (path : string) : M string :=
  fun s =>
    let p := resolve (cwd s) path in
    if writable env (calls s) p
    then Ok p (MkState (release_ready s) (cwd s) (console s)
                 (<[p := EmptyString]> (files s)) (calls s))
    else Raise OSError s.

(** [file.write(text)] *)
Definition write (handle text : string) : M unit :=
  fun s =>
    let old := default EmptyString (files s !! handle) in
    Ok tt (MkState (release_ready s) (cwd s) (console s)
             (<[handle := old +:+ text]> (files s)) (calls s)).

Definition git_root_cmd : string := "git rev-parse --show-toplevel".

(** [cd_to_git_root()], the same in both scripts. *)
Definition cd_to_git_root : M unit :=
  do r <- exec_cmd git_root_cmd;
  do _ <- assert (returncode r =? 0)%Z
            ("ERROR: You don't seem to be in a subdirectory of the repository ("
             +:+ Py.repr_int (returncode r) +:+ ")" +:+ Py.nl
             +:+ Py.repr (std_err r));
  chdir (Py.rstrip (std_out r)).

End Process.

(** The root query at [s]: the log once it has run, and whether
    [cd_to_git_root] gets through. *)
Definition root_answer (env : Env) (s : State) : CmdResult :=
  popen env (calls s) git_root_cmd.

Definition after_root (env : Env) (s : State) : list call :=
  (calls s ++ [(git_root_cmd, root_answer env s)])%list.

Definition root_dir (env : Env) (s : State) : string :=
  Py.rstrip (std_out (root_answer env s)).

Definition root_found (env : Env) (s : State) : bool :=
  (returncode (root_answer env s) =? 0)%Z
  && (negb (String.eqb (root_dir env s) "")
      && isdir env (after_root env s) (resolve (cwd s) (root_dir env s))).

(** The state [cd_to_git_root] leaves when it gets through. *)
Definition at_root (env : Env) (s : State) : State :=
  MkState (release_ready s) (resolve (cwd s) (root_dir env s)) (console s)
          (files s) (after_root env s).

Notation "'try' x <- r ; k" := (rbind r (fun x => k))
  (at level 10, x name, r at level 100, k at level 200).

(** ** [Scripts/release_readiness.py] *)

Module ReleaseReadiness.
Import Json.

(** The script's opening [assert sys.version_info >= (3, 8)] is taken to
    hold: the embedding follows the semantics of Python 3.8 and later. *)

(** Code coverage constants. *)
Definition minimum_code_coverage : float := 0.8%float.

Definition untestable_files : list string :=
  [ "JacquardSDK/Classes/CentralManagerImplementation.swift";
    "JacquardSDK/Classes/Internal/Transport/PeripheralImplementation.swift";
    "JacquardSDK/Classes/Internal/Transport/Peripheral.swift";
    "JacquardSDK/Protobuf/jacquard.pb.swift";
    "JacquardSDK/Protobuf/publicSdk.pb.swift" ].

(** [^([0-9]+)% documentation coverage] *)
Definition percentage_re : Re.regex :=
  Re.Seq Re.Bol
    (Re.Seq (Re.Group (Re.Plus (Re.Range "0" "9")))
       (Re.Lit "% documentation coverage")).

(** [JacquardSDK/.*] *)
Definition path_re : Re.regex := Re.Seq (Re.Lit "JacquardSDK/") (Re.Star Re.Dot).

(** [NoBlockComments] *)
Definition ignore_re : Re.regex := Re.Lit "NoBlockComments".

(** [/.*\.xcresult]; the pattern has no anchor, so re.MULTILINE changes
    nothing. *)
Definition xcresult_re : Re.regex :=
  Re.Seq (Re.Lit "/") (Re.Seq (Re.Star Re.Dot) (Re.Lit ".xcresult")).

Definition jazzy_cmd : string := "jazzy --config jazzy.yaml".

Definition swift_format_cmd : string :=
  "swift-format lint --recursive JacquardSDK/Classes".

Definition pod_install_cmd : string := "pod install".

Definition xcodebuild_cmd : string :=
  "xcodebuild -workspace JacquardSDK.xcworkspace -scheme JacquardSDK-Unit-Tests -enableCodeCoverage YES clean build test CODE_SIGN_IDENTITY= CODE_SIGNING_REQUIRED=NO |grep .xcresult".

Definition xccov_cmd (xcresult : string) : string :=
  "xcrun xccov view --report --files-for-target JacquardSDK.framework --json "
  +:+ Py.repr xcresult.

Definition pre_commit_cmd : string := "./Scripts/pre_commit.sh".

Definition todo_without_bug_cmd (pattern : string) : string :=
  "find . -name " +:+ Py.repr pattern
  +:+ " -type f -print0|xargs -0 grep -i TODO|egrep -v 'b/'|wc -l".

Definition todo_with_bug_cmd (pattern : string) : string :=
  "find . -name " +:+ Py.repr pattern
  +:+ " -type f -print0|xargs -0 grep -i TODO|egrep 'b/'|wc -l".

(** [path in untestable_files] *)
Definition untestable (path : string) : bool :=
  existsb (String.eqb path) untestable_files.

(** The loop of [check_code_coverage] over the report's files;
    [bad_files] is the list built so far. *)
Fixpoint scan_files (files : list value) (bad_files : list (string * value))
    : result (list (string * value)) :=
  match files with
  | [] => Val bad_files
  | file :: rest =>
      try p <- Obj.item file "path";
      match p with
      | JStr file_path =>
          match Re.search path_re file_path with
          | None =>
              Exc (AssertionError
                     ("Unexpected file path: " +:+ Py.repr file_path))
          | Some m =>
              let path := Re.group0 m in
              if untestable path
              then scan_files rest bad_files
              else
                try coverage <- Obj.item file "lineCoverage";
                try low <- Obj.lt_float coverage minimum_code_coverage;
                if low
                then scan_files rest (bad_files ++ [(path, coverage)])
                else scan_files rest bad_files
          end
      | _ => Exc TypeError
      end
  end.

(** [check_code_coverage] from [json.loads] to the end of its first loop,
    where it reads and writes nothing but its own variables: from the
    output of xccov to [bad_files]. *)
Definition coverage_bad_files (xccov_out : string)
    : result (list (string * value)) :=
  try report <- match loads xccov_out with
                | Some v => Val v
                | None => Exc JSONDecodeError
                end;
  try products <- Obj.len report;
  if negb (products =? 1)%nat
  then Exc (AssertionError "Expecting only one product in coverage report json")
  else
    try product <- Obj.first report;
    try files <- Obj.item product "files";
    try count <- Obj.len files;
    if negb (5 <? count)%nat
    then Exc (AssertionError "Expecting some files in coverage report json")
    else
      try entries <- Obj.iter files;
      scan_files entries [].

Section Script.
Variable env : Env.

(** The loop of [check_documentation_percentage] over the lines of the
    jazzy output; [out] is the whole output, for the last message. *)
Fixpoint documentation_lines (out : string) (lines : list string) : M unit :=
  match lines with
  | [] =>
      raise (AssertionError
               ("ERROR: Documentation percentage could not be found in jazzy output: "
                +:+ Py.repr out))
  | line :: rest =>
      match Re.search percentage_re line with
      | Some m =>
          let percentage := Re.group1 m in
          if negb (bool_decide (percentage = Some "100"))
          then
            do _ <- print ("ERROR: Documentation incomplete: "
                           +:+ Py.repr line);
            set_not_ready
          else print "ok"
      | None => documentation_lines out rest
      end
  end.

Definition check_documentation_percentage : M unit :=
  do _ <- print_flush "Documentation coverage: ";
  do _ <- cd_to_git_root env;
  do r <- exec_cmd env jazzy_cmd;
  do _ <- assert (returncode r =? 0)%Z
            ("ERROR: jazzy returned non-zero exit code ("
             +:+ Py.repr_int (returncode r) +:+ ")" +:+ Py.nl
             +:+ Py.repr (std_err r));
  documentation_lines (std_out r) (Py.splitlines (std_out r)).

(** The loop of [check_swift_format] over the lines of the linter's
    standard error; the result is [swift_format_success]. *)
Fixpoint swift_format_lines (err : string) (lines : list string)
    (swift_format_success : bool) : M bool :=
  match lines with
  | [] => ret swift_format_success
  | line :: rest =>
      match Re.search ignore_re line with
      | Some _ => swift_format_lines err rest swift_format_success
      | None =>
          match Re.search path_re line with
          | None =>
              raise (AssertionError
                       ("Unexpected swift-format output: " +:+ Py.repr err))
          | Some m =>
              do _ <- print (" * " +:+ Re.group0 m);
              swift_format_lines err rest false
          end
      end
  end.

Definition check_swift_format : M unit :=
  do _ <- print_flush "Checking swift-format lint: ";
  do _ <- cd_to_git_root env;
  do r <- exec_cmd env swift_format_cmd;
  do swift_format_success <-
    (if negb (String.eqb (std_err r) "")
     then swift_format_lines (std_err r) (Py.splitlines (std_err r)) true
     else ret true);
  if swift_format_success
  then print "ok"
  else do _ <- set_not_ready; print "swift-format lint failed".

Definition pod_install : M unit :=
  do _ <- print_flush "Pod update: ";
  do _ <- cd_to_git_root env;
  do _ <- chdir env "Example";
  do r <- exec_cmd env pod_install_cmd;
  do _ <- assert (returncode r =? 0)%Z
            ("Failed to pod install " +:+ Py.repr (std_err r));
  print "ok".

(** [str(v)] of a coverage value that passed the comparison. *)
Definition str_coverage (v : value) : string :=
  match v with
  | JFloat f => float_repr env f
  | JInt n => Py.repr_int n
  | JBool true => "True"
  | JBool false => "False"
  | _ => EmptyString
  end.

(** The loop of [check_code_coverage] over [bad_files]. *)
Fixpoint report_bad_files (bad_files : list (string * value)) : M unit :=
  match bad_files with
  | [] => ret tt
  | file :: rest =>
      do _ <- print (" * " +:+ fst file +:+ " : " +:+ str_coverage (snd file));
      do _ <- set_not_ready;
      report_bad_files rest
  end.

Definition check_code_coverage : M unit :=
  do _ <- print_flush "Code coverage: ";
  do _ <- cd_to_git_root env;
  do _ <- chdir env "Example";
  do r <- exec_cmd env xcodebuild_cmd;
  do _ <- assert (returncode r =? 0)%Z
            ("xcodebuild failed: " +:+ Py.repr (std_err r));
  match Re.search xcresult_re (std_out r) with
  | Some m =>
      let xcresult := Re.group0 m in
      do r' <- exec_cmd env (xccov_cmd xcresult);
      do bad_files <- lift (coverage_bad_files (std_out r'));
      if (0 <? List.length bad_files)%nat
      then
        do _ <- print ("Minimum code coverage of "
                       +:+ float_repr env minimum_code_coverage
                       +:+ " not met by the following files:");
        report_bad_files bad_files
      else ret tt
  | None =>
      raise (AssertionError
               "ERROR: Couldn't find .xcresult archive path in xcodebuild output")
  end.

Definition check_pre_commit : M unit :=
  do _ <- print_flush "Pre_commit check: ";
  do _ <- cd_to_git_root env;
  do r <- exec_cmd env pre_commit_cmd;
  if negb (returncode r =? 0)%Z
  then
    do _ <- print "pre_commit.sh failed";
    do _ <- print (std_out r);
    set_not_ready
  else print "ok".

Definition check_todo_count (pattern : string) : M unit :=
  do _ <- print_flush ("TODO count (" +:+ Py.repr pattern +:+ "): ");
  do _ <- cd_to_git_root env;
  do _ <- print (todo_without_bug_cmd pattern);
  do r <- exec_cmd env (todo_without_bug_cmd pattern);
  do _ <- print_flush ("without bug: " +:+ Py.strip (std_out r));
  do r' <- exec_cmd env (todo_with_bug_cmd pattern);
  print ("; with bug: " +:+ Py.strip (std_out r')).

(** The seven calls at the top level of the script. *)
Definition run_checks : M unit :=
  do _ <- check_pre_commit;
  do _ <- check_swift_format;
  do _ <- pod_install;
  do _ <- check_documentation_percentage;
  do _ <- check_code_coverage;
  do _ <- check_todo_count "*.swift";
  check_todo_count "*.md".

(** The script from its first call to its end; the value is the status
    it hands to [exit], 0 when it runs off its last line. *)
Definition main : M Z :=
  do _ <- run_checks;
  do ready <- get_release_ready;
  if ready
  then
    do _ <- print "Congratulations, the repository is release ready!";
    ret 0%Z
  else
    do _ <- print "The repository is not release ready. See errors above.";
    ret 1%Z.

End Script.

(** The state the interpreter starts the script in: [release_ready = True],
    nothing printed, no subprocess run. *)
Definition initial (dir : string) (fs : gmap string string) : State :=
  MkState true dir EmptyString fs [].

(** The exit status of the process: an uncaught exception ends it with
    status 1. *)
Definition exit_status (o : outcome Z) : Z :=
  match o with
  | Ok status _ => status
  | Raise _ _ => 1%Z
  end.

End ReleaseReadiness.

(** ** [Scripts/update_build_hash.py] *)

Module UpdateBuildHash.

Definition which_git_cmd : string := "xcrun which git".

Definition build_hash_path : string := "Example/JacquardSDK/BuildHash.json".

(** The text the script writes, an f-string over [sha] and [date]. *)
Definition build_hash_text (sha date : string) : string :=
  "{" +:+ Py.nl
  +:+ "  " +:+ Py.dquote +:+ "buildHash" +:+ Py.dquote +:+ ": "
  +:+ Py.dquote +:+ sha +:+ Py.dquote +:+ "," +:+ Py.nl
  +:+ "  " +:+ Py.dquote +:+ "buildDate" +:+ Py.dquote +:+ ": "
  +:+ Py.dquote +:+ date +:+ Py.dquote +:+ Py.nl
  +:+ "}" +:+ Py.nl.

Section Script.
Variable env : Env.

Definition which_git : M string :=
  do r <- exec_cmd env which_git_cmd;
  do _ <- assert (returncode r =? 0)%Z "Couldn't find git";
  ret (Py.rstrip (std_out r)).

Definition git_sha (git : string) : M string :=
  do r <- exec_cmd env (git +:+ " rev-parse --short HEAD");
  do _ <- assert (returncode r =? 0)%Z "Getting git sha failed";
  ret (Py.rstrip (std_out r)).

Definition git_date (git : string) : M string :=
  do r <- exec_cmd env (git +:+ " show -s --format=%ci HEAD");
  do _ <- assert (returncode r =? 0)%Z "Getting git commit datetime failed";
  ret (Py.rstrip (std_out r)).

(** The script's top level.  A file object is true, so the
    [assert file] after [open] holds whenever [open] returns. *)
Definition main : M unit :=
  do git <- which_git;
  do sha <- git_sha git;
  do date <- git_date git;
  do _ <- cd_to_git_root env;
  do file <- open_w env build_hash_path;
  do _ <- assert true
            "Couldn't open Example/JacquardSDK/BuildHash.json for writing";
  write file (build_hash_text sha date).

End Script.

End UpdateBuildHash.

(** ** Sample surroundings

    Concrete tool answers on which the scripts are run below. *)

Module Sample.
Import ReleaseReadiness.

Definition quoted (s : string) : string := Py.dquote +:+ s +:+ Py.dquote.

(** One file of an xccov report. *)
Definition entry (path coverage : string) : string :=
  "{" +:+ quoted "path" +:+ ":" +:+ quoted path +:+ ","
  +:+ quoted "lineCoverage" +:+ ":" +:+ coverage +:+ "}".

Fixpoint joined (items : list string) : string :=
  match items with
  | [] => EmptyString
  | [x] => x
  | x :: rest => x +:+ "," +:+ joined rest
  end.

(** An xccov report with one product. *)
Definition report (entries : list string) : string :=
  "[{" +:+ quoted "files" +:+ ":[" +:+ joined entries +:+ "],"
  +:+ quoted "name" +:+ ":" +:+ quoted "JacquardSDK.framework" +:+ "}]" +:+ Py.nl.

Definition root : string := "/Users/dev/JacquardSDKiOS".

Definition covered : list string :=
  [ entry (root +:+ "/JacquardSDK/Classes/API/Component.swift") "0.93";
    entry (root +:+ "/JacquardSDK/Classes/API/Gesture.swift") "1";
    entry (root +:+ "/JacquardSDK/Classes/API/Tag.swift") "0.8";
    entry (root +:+ "/JacquardSDK/Classes/Internal/Logger.swift") "0.8125";
    entry (root +:+ "/JacquardSDK/Classes/Internal/Transport/Peripheral.swift") "0.1" ].

(** Six files, all at or above the threshold or exempt. *)
Definition good_report : string :=
  report (covered ++
          [entry (root +:+ "/JacquardSDK/Classes/API/Firmware.swift") "0.9"]).

(** Six files, one of them just below the threshold. *)
Definition low_report : string :=
  report (covered ++
          [entry (root +:+ "/JacquardSDK/Classes/API/Firmware.swift") "0.79999"]).

(** Five files, all passing. *)
Definition short_report : string := report covered.

Definition xcresult_path : string :=
  "/Users/dev/Library/Developer/Xcode/DerivedData/Logs/Test/Run-JacquardSDK.xcresult".

Definition ok_result (out : string) : CmdResult := MkResult 0 out EmptyString.

(** A tool installation as a table from command lines to results; a
    command that is not listed is not found by the shell. *)
Definition answers (table : list call) (cmd : string) : CmdResult :=
  match find (fun c => String.eqb (fst c) cmd) table with
  | Some c => snd c
  | None => MkResult 127 EmptyString "command not found"
  end.

(** [repr] of the floats that occur in the reports above. *)
Definition sample_float_repr (f : float) : string :=
  if PrimFloat.eqb f 0.8%float then "0.8"
  else if PrimFloat.eqb f 0.79999%float then "0.79999"
  else if PrimFloat.eqb f 0.1%float then "0.1"
  else if PrimFloat.eqb f 0.93%float then "0.93"
  else if PrimFloat.eqb f 0.9%float then "0.9"
  else "0.8125".

Definition table_env (table : list call) : Env :=
  MkEnv (fun _ => answers table) (fun _ _ => true) (fun _ _ => true)
        sample_float_repr.

Definition todo_calls : list call :=
  [ (todo_without_bug_cmd "*.swift", ok_result ("      12" +:+ Py.nl));
    (todo_with_bug_cmd "*.swift", ok_result ("       3" +:+ Py.nl));
    (todo_without_bug_cmd "*.md", ok_result ("       0" +:+ Py.nl));
    (todo_with_bug_cmd "*.md", ok_result ("       1" +:+ Py.nl)) ].

(** A repository in which every gate passes. *)
Definition ready_table : list call :=
  [ (git_root_cmd, ok_result (root +:+ Py.nl));
    (pre_commit_cmd, ok_result EmptyString);
    (swift_format_cmd,
     MkResult 0 EmptyString
       ("JacquardSDK/Classes/API/Tag.swift:17:1: warning: [NoBlockComments] replace block comment"
        +:+ Py.nl));
    (pod_install_cmd, ok_result ("Pod installation complete!" +:+ Py.nl));
    (jazzy_cmd,
     ok_result ("building site" +:+ Py.nl
                +:+ "100% documentation coverage with 0 undocumented symbols"
                +:+ Py.nl));
    (xcodebuild_cmd, ok_result ("    " +:+ xcresult_path +:+ Py.nl));
    (xccov_cmd xcresult_path, ok_result good_report) ] ++ todo_calls.

(** The same repository with a lint warning, 99% documentation and one
    file below the coverage threshold. *)
Definition failing_table : list call :=
  [ (git_root_cmd, ok_result (root +:+ Py.nl));
    (pre_commit_cmd, MkResult 1 ("license header missing" +:+ Py.nl) EmptyString);
    (swift_format_cmd,
     MkResult 0 EmptyString
       ("JacquardSDK/Classes/API/Tag.swift:17:1: warning: [NoBlockComments] replace block comment"
        +:+ Py.nl
        +:+ root +:+ "/JacquardSDK/Classes/API/Tag.swift:20:3: warning: [Indentation] unindent by 2 spaces"
        +:+ Py.nl));
    (pod_install_cmd, ok_result ("Pod installation complete!" +:+ Py.nl));
    (jazzy_cmd,
     ok_result ("building site" +:+ Py.nl
                +:+ "99% documentation coverage with 4 undocumented symbols"
                +:+ Py.nl));
    (xcodebuild_cmd, ok_result ("    " +:+ xcresult_path +:+ Py.nl));
    (xccov_cmd xcresult_path, ok_result low_report) ] ++ todo_calls.

(** Outside any repository: git fails. *)
Definition no_repository_table : list call :=
  [ (git_root_cmd,
     MkResult 128 EmptyString
       ("fatal: not a git repository (or any of the parent directories): .git"
        +:+ Py.nl));
    (UpdateBuildHash.which_git_cmd, ok_result ("/usr/bin/git" +:+ Py.nl));
    ("/usr/bin/git rev-parse --short HEAD", MkResult 128 EmptyString "fatal");
    ("/usr/bin/git show -s --format=%ci HEAD", MkResult 128 EmptyString "fatal") ].

(** The answers of git to the build stamper. *)
Definition stamp_table (sha date : string) : list call :=
  [ (UpdateBuildHash.which_git_cmd, ok_result ("/usr/bin/git" +:+ Py.nl));
    ("/usr/bin/git rev-parse --short HEAD", ok_result (sha +:+ Py.nl));
    ("/usr/bin/git show -s --format=%ci HEAD", ok_result (date +:+ Py.nl));
    (git_root_cmd, ok_result (root +:+ Py.nl)) ].

Definition start : State := initial (root +:+ "/Scripts") ∅.

End Sample.

(** ** The verdict of each gate, as the specification words it

    These definitions follow the specification, not the script: a gate
    is judged on the result of its command alone. *)

Module Gate.
Import Json ReleaseReadiness.

(** The result of the first call of [cmd] in a log of subprocesses. *)
Definition result_of (cmd : string) (log : list call) : option CmdResult :=
  match find (fun c => String.eqb (fst c) cmd) log with
  | Some c => Some (snd c)
  | None => None
  end.

(** The pre-commit script passes when it exits with status 0. *)
Definition pre_commit_passes (r : CmdResult) : bool := (returncode r =? 0)%Z.

(** A diagnostic line of the linter that names the benign rule. *)
Definition ignored (line : string) : bool :=
  match Re.search ignore_re line with
  | Some _ => true
  | None => false
  end.

(** A diagnostic line that holds a [JacquardSDK/] path. *)
Definition has_path (line : string) : bool :=
  match Re.search path_re line with
  | Some _ => true
  | None => false
  end.

(** The lines of the linter that are not ignored. *)
Definition offending (lines : list string) : list string :=
  List.filter (fun line => negb (ignored line)) lines.

(** What is shown of an offending line: its text from [JacquardSDK/] on. *)
Definition reported (line : string) : string :=
  match Re.search path_re line with
  | Some m => Re.group0 m
  | None => EmptyString
  end.

(** The bullet list of offending lines, one line of output each. *)
Fixpoint listing (lines : list string) : string :=
  match lines with
  | [] => EmptyString
  | line :: rest => " * " +:+ reported line +:+ Py.nl +:+ listing rest
  end.

(** The linter passes when every line of its diagnostics is ignored. *)
Definition swift_format_passes (r : CmdResult) : bool :=
  forallb ignored (Py.splitlines (std_err r)).

(** The first line that reports a documentation percentage, with the
    match of the pattern on it. *)
Fixpoint first_percentage (lines : list string) : option (string * Re.rmatch) :=
  match lines with
  | [] => None
  | line :: rest =>
      match Re.search percentage_re line with
      | Some m => Some (line, m)
      | None => first_percentage rest
      end
  end.

(** The documentation passes when the reported percentage is 100. *)
Definition documentation_passes (r : CmdResult) : bool :=
  match first_percentage (Py.splitlines (std_out r)) with
  | Some (_, m) => bool_decide (Re.group1 m = Some "100")
  | None => false
  end.

(** A report entry's path from [JacquardSDK/] on. *)
Definition sdk_path (file : value) : option string :=
  match Obj.item file "path" with
  | Val (JStr p) =>
      match Re.search path_re p with
      | Some m => Some (Re.group0 m)
      | None => None
      end
  | _ => None
  end.

(** The entry's line coverage is strictly below the threshold. *)
Definition below_threshold (file : value) : bool :=
  match Obj.item file "lineCoverage" with
  | Val c =>
      match Obj.lt_float c minimum_code_coverage with
      | Val b => b
      | Exc _ => false
      end
  | Exc _ => false
  end.

(** An entry passes when it is exempt or not below the threshold. *)
Definition file_passes (file : value) : bool :=
  match sdk_path file with
  | Some p => untestable p || negb (below_threshold file)
  | None => false
  end.

(** The files of a report with a single product. *)
Definition report_files (xccov_out : string) : option (list value) :=
  match loads xccov_out with
  | Some (JList [product]) =>
      match Obj.item product "files" with
      | Val (JList files) => Some files
      | _ => None
      end
  | _ => None
  end.

(** The coverage gate passes when every file of the report passes. *)
Definition coverage_passes (r : CmdResult) : bool :=
  match report_files (std_out r) with
  | Some files => forallb file_passes files
  | None => false
  end.

Definition gate (cmd : string) (passes : CmdResult -> bool) (log : list call)
    : bool :=
  match result_of cmd log with
  | Some r => passes r
  | None => false
  end.

(** The coverage report is asked for the result bundle that the build
    printed. *)
Definition coverage_gate (log : list call) : bool :=
  match result_of xcodebuild_cmd log with
  | Some r =>
      match Re.search xcresult_re (std_out r) with
      | Some m => gate (xccov_cmd (Re.group0 m)) coverage_passes log
      | None => false
      end
  | None => false
  end.

(** The entry of the failing-files list that a report entry gives:
    its path and coverage, when it is not exempt and is below the
    threshold. *)
Definition failing_entry (file : value) : list (string * value) :=
  match sdk_path file, Obj.item file "lineCoverage" with
  | Some p, Val c =>
      if negb (untestable p) && below_threshold file then [(p, c)] else []
  | _, _ => []
  end.

(** Every gate of a run passed. *)
Definition all_gates_pass (log : list call) : bool :=
  gate pre_commit_cmd pre_commit_passes log
  && gate swift_format_cmd swift_format_passes log
  && gate jazzy_cmd documentation_passes log
  && coverage_gate log.

End Gate.

(** The state an outcome ends in. *)
Definition final {A} (o : outcome A) : State :=
  match o with
  | Ok _ s => s
  | Raise _ s => s
  end.


(** What a finished step did: [s'] is [s] after the subprocesses [more],
    with no file touched and the flag kept when [ok], cleared otherwise. *)
Definition ran (s : State) (more : list call) (ok : bool) (s' : State) : Prop :=
  calls s' = (calls s ++ more)%list
  /\ files s' = files s
  /\ release_ready s' = release_ready s && ok.

(** An operation that never turns a false flag into a true one. *)
Definition never_restores {A} (m : M A) : Prop :=
  forall s, release_ready s = false -> release_ready (final (m s)) = false.

(** An operation that leaves the flag as it found it, however it ends. *)
Definition keeps_flag {A} (m : M A) : Prop :=
  forall s, release_ready (final (m s)) = release_ready s.

(** Operations run one after the other. *)
Fixpoint sequence (ms : list (M unit)) : M unit :=
  match ms with
  | [] => ret tt
  | m :: rest => do _ <- m; sequence rest
  end.

(** The checks of [release_readiness.py], in the order of the script. *)
Definition checks (env : Env) : list (M unit) :=
  [ ReleaseReadiness.check_pre_commit env;
    ReleaseReadiness.check_swift_format env;
    ReleaseReadiness.pod_install env;
    ReleaseReadiness.check_documentation_percentage env;
    ReleaseReadiness.check_code_coverage env;
    ReleaseReadiness.check_todo_count env "*.swift";
    ReleaseReadiness.check_todo_count env "*.md" ].

(** A character that a JSON string holds as it is: no control character,
    no double quote, no backslash. *)
Definition json_plain (c : ascii) : bool :=
  negb (Py.code c <? 32)%N && negb (Py.code c =? 34)%N
  && negb (Py.code c =? 92)%N.

(** A text of such characters only. *)
Definition json_safe (s : string) : bool := Py.all_chars json_plain s.

(** The output of xccov that [check_code_coverage] reads when it starts
    in [s], if it gets that far: the root is found, [Example] is a
    directory, the build exits with status 0 and prints a result bundle. *)
Definition coverage_report (env : Env) (s : State) : option string :=
  let r := popen env (after_root env s) ReleaseReadiness.xcodebuild_cmd in
  if root_found env s
     && isdir env (after_root env s)
          (resolve (resolve (cwd s) (root_dir env s)) "Example")
     && (returncode r =? 0)%Z
  then
    match Re.search ReleaseReadiness.xcresult_re (std_out r) with
    | Some m =>
        Some (std_out
                (popen env
                   (after_root env s ++ [(ReleaseReadiness.xcodebuild_cmd, r)])
                   (ReleaseReadiness.xccov_cmd (Re.group0 m))))
    | None => None
    end
  else None.

(** ** Further notions used in the properties below *)

(** The lines [check_code_coverage] prints for its failing files. *)
Fixpoint bad_files_listing (env : Env) (bad_files : list (string * Json.value))
    : string :=
  match bad_files with
  | [] => EmptyString
  | file :: rest =>
      " * " +:+ fst file +:+ " : "
      +:+ ReleaseReadiness.str_coverage env (snd file) +:+ Py.nl
      +:+ bad_files_listing env rest
  end.

(** A report entry that the loop of [check_code_coverage] gets past: it
    has a text [path] with [JacquardSDK/] in it and, unless it is exempt,
    a [lineCoverage] that compares with a number. *)
Definition readable_entry (file : Json.value) : bool :=
  match Obj.item file "path" with
  | Val (Json.JStr p) =>
      match Re.search ReleaseReadiness.path_re p with
      | Some m =>
          ReleaseReadiness.untestable (Re.group0 m)
          || match Obj.item file "lineCoverage" with
             | Val c =>
                 match Obj.lt_float c ReleaseReadiness.minimum_code_coverage with
                 | Val _ => true
                 | Exc _ => false
                 end
             | Exc _ => false
             end
      | None => false
      end
  | _ => false
  end.

(** [s[s.find(lit):]] when [lit] occurs in [s]: the text from the first
    occurrence of [lit] on. *)
Fixpoint from_first (lit s : string) : option string :=
  match Py.after_prefix lit s with
  | Some _ => Some s
  | None =>
      match s with
      | String _ s' => from_first lit s'
      | EmptyString => None
      end
  end.

(** A character other than the slash. *)
Definition not_slash (c : ascii) : bool := negb (Py.code c =? 47)%N.

(** What the checker finds where the tools answer the same whatever was
    asked before: [tools] gives the result of every command line, [dirs]
    tells the directories. *)
Module Steady.
Import Json ReleaseReadiness.

Section Tools.
Variable tools : string -> CmdResult.
Variable dirs : string -> bool.

(** The repository root that git names. *)
Definition named_root : string := Py.rstrip (std_out (tools git_root_cmd)).

(** Git names a root, and it is a directory. *)
Definition root_ok : bool :=
  (returncode (tools git_root_cmd) =? 0)%Z && dirs named_root.









End Tools.
End Steady.



(** ** Reasoning about runs *)

Section Runs.
Variable env : Env.

Lemma bind_Ok {A B} (m : M A) (f : A -> M B) s b s' :
  bind m f s = Ok b s' -> exists a s1, m s = Ok a s1 /\ f a s1 = Ok b s'.
Proof.
  unfold bind. destruct (m s) as [a s1|e s1]; [eauto | discriminate].
Qed.

Lemma bind_step {A B} (m : M A) (f : A -> M B) s a s1 :
  m s = Ok a s1 -> bind m f s = f a s1.
Proof. unfold bind. now intros ->. Qed.

Lemma bind_abort {A B} (m : M A) (f : A -> M B) s e s1 :
  m s = Raise e s1 -> bind m f s = Raise e s1.
Proof. unfold bind. now intros ->. Qed.

Lemma cd_to_git_root_found s :
  root_found env s = true -> cd_to_git_root env s = Ok tt (at_root env s).
Proof.
  unfold root_found, cd_to_git_root, exec_cmd, assert, chdir, bind, ret.
  intros [E1 E2]%andb_true_iff. fold (root_answer env s). rewrite E1. simpl.
  fold (root_answer env s). fold (root_dir env s). fold (after_root env s).
  now rewrite E2.
Qed.

Lemma cd_to_git_root_lost s :
  returncode (root_answer env s) <> 0%Z ->
  exists msg,
    cd_to_git_root env s =
    Raise (AssertionError msg)
      (MkState (release_ready s) (cwd s) (console s) (files s)
               (after_root env s)).
Proof.
  unfold cd_to_git_root, exec_cmd, assert, bind, raise.
  intros E%Z.eqb_neq. fold (root_answer env s). rewrite E. simpl. eauto.
Qed.

Lemma cd_to_git_root_Ok s u s' :
  cd_to_git_root env s = Ok u s' ->
  root_found env s = true /\ s' = at_root env s.
Proof.
  unfold root_found, cd_to_git_root, exec_cmd, assert, chdir, bind, ret, raise.
  fold (root_answer env s).
  destruct (returncode _ =? 0)%Z; simpl; [|discriminate].
  fold (root_answer env s). fold (root_dir env s). fold (after_root env s).
  destruct (_ && _); [|discriminate].
  now intros [= _ <-].
Qed.

Lemma ran_trans s m1 ok1 s1 m2 ok2 s2 :
  ran s m1 ok1 s1 -> ran s1 m2 ok2 s2 -> ran s (m1 ++ m2) (ok1 && ok2) s2.
Proof.
  intros (C1 & F1 & R1) (C2 & F2 & R2). unfold ran.
  rewrite C2, C1, F2, F1, R2, R1, app_assoc, andb_assoc. auto.
Qed.

Lemma ran_same s s' :
  calls s' = calls s -> files s' = files s ->
  release_ready s' = release_ready s -> ran s [] true s'.
Proof. unfold ran. rewrite app_nil_r, andb_true_r. auto. Qed.

Lemma ran_eq s m ok s' m' ok' :
  ran s m ok s' -> m = m' -> ok = ok' -> ran s m' ok' s'.
Proof. now intros H <- <-. Qed.

Lemma print_flush_ran text s u s' : print_flush text s = Ok u s' -> ran s [] true s'.
Proof. intros [= _ <-]. now apply ran_same. Qed.

Lemma print_ran text s u s' : print text s = Ok u s' -> ran s [] true s'.
Proof. intros [= _ <-]. now apply ran_same. Qed.

Lemma set_not_ready_ran s u s' : set_not_ready s = Ok u s' -> ran s [] false s'.
Proof.
  intros [= _ <-]. unfold ran. simpl. rewrite app_nil_r, andb_false_r. auto.
Qed.

Lemma ret_ran {A} (a : A) s b s' : ret a s = Ok b s' -> b = a /\ ran s [] true s'.
Proof. intros [= <- <-]. split; [reflexivity | now apply ran_same]. Qed.

Lemma exec_cmd_ran cmd s r s' :
  exec_cmd env cmd s = Ok r s' -> ran s [(cmd, r)] true s'.
Proof. intros [= <- <-]. unfold ran. simpl. rewrite andb_true_r. auto. Qed.

Lemma assert_ran c msg s u s' :
  assert c msg s = Ok u s' -> c = true /\ ran s [] true s'.
Proof.
  destruct c; [|discriminate]. intros [= _ <-].
  split; [reflexivity | now apply ran_same].
Qed.

Lemma chdir_ran p s u s' : chdir env p s = Ok u s' -> ran s [] true s'.
Proof.
  unfold chdir. destruct (_ && _); [|discriminate]. intros [= _ <-].
  now apply ran_same.
Qed.

Lemma lift_ran {A} (r : result A) s a s' :
  lift r s = Ok a s' -> r = Val a /\ ran s [] true s'.
Proof.
  destruct r; [|discriminate]. intros [= <- <-].
  split; [reflexivity | now apply ran_same].
Qed.

Lemma cd_to_git_root_ran s u s' :
  cd_to_git_root env s = Ok u s' ->
  exists r0, ran s [(git_root_cmd, r0)] true s'.
Proof.
  intros [_ ->]%cd_to_git_root_Ok. eexists. unfold ran, at_root, after_root.
  simpl. rewrite andb_true_r. auto.
Qed.

End Runs.

(** Turn the equation of one finished primitive into its [ran] fact. *)
Ltac ran_step H :=
  first
    [ apply print_flush_ran in H
    | apply print_ran in H
    | apply set_not_ready_ran in H
    | apply exec_cmd_ran in H
    | apply chdir_ran in H
    | apply cd_to_git_root_ran in H; destruct H as [? H]
    | apply assert_ran in H; destruct H as [? H]
    | apply lift_ran in H; destruct H as [? H]
    | apply ret_ran in H; destruct H as [? H] ].

(** Split a finished sequence into its steps, one fact for each. *)
Ltac ran_split H :=
  repeat
    (let H1 := fresh "Hstep" in
     apply bind_Ok in H; destruct H as (? & ? & H1 & H); ran_step H1).

(** Chain the facts of consecutive steps. *)
Ltac ran_chain :=
  repeat match goal with
    | H1 : ran ?s _ _ ?s1, H2 : ran ?s1 _ _ ?s2 |- _ =>
        pose proof (ran_trans _ _ _ _ _ _ _ H1 H2); clear H1 H2
    end.

Ltac ran_close_by tac :=
  ran_chain;
  match goal with
  | H : ran ?s _ _ ?s' |- ran ?s _ _ ?s' =>
      eapply (ran_eq _ _ _ _ _ _ H);
      [ reflexivity
      | cbn [andb]; rewrite ?andb_true_r, ?andb_false_r; tac ]
  end.

Ltac ran_close :=
  ran_close_by ltac:(first [reflexivity | assumption | symmetry; assumption]).

(** ** What each check does when it returns *)

Section Checks.
Import Json ReleaseReadiness.
Variable env : Env.

Lemma check_pre_commit_Ok s u s' :
  check_pre_commit env s = Ok u s' ->
  exists r0 r,
    ran s [(git_root_cmd, r0); (pre_commit_cmd, r)]
        (Gate.pre_commit_passes r) s'.
Proof.
  unfold check_pre_commit. intros H. ran_split H.
  unfold Gate.pre_commit_passes. do 2 eexists.
  destruct (returncode _ =? 0)%Z eqn:E; simpl in H; ran_split H; ran_step H;
    ran_close.
Qed.
Lemma pod_install_Ok s u s' :
  pod_install env s = Ok u s' ->
  exists r0 r, ran s [(git_root_cmd, r0); (pod_install_cmd, r)] true s'.
Proof.
  unfold pod_install. intros H. ran_split H. ran_step H.
  do 2 eexists. ran_close.
Qed.

Lemma check_todo_count_Ok pattern s u s' :
  check_todo_count env pattern s = Ok u s' ->
  exists r0 r r',
    ran s [(git_root_cmd, r0); (todo_without_bug_cmd pattern, r);
           (todo_with_bug_cmd pattern, r')] true s'.
Proof.
  unfold check_todo_count. intros H. ran_split H. ran_step H.
  do 3 eexists. ran_close.
Qed.

Lemma swift_format_lines_Ok err lines acc s b s' :
  swift_format_lines err lines acc s = Ok b s' ->
  b = acc && forallb Gate.ignored lines /\ ran s [] true s'.
Proof.
  revert acc s. induction lines as [|line rest IH]; intros acc s; simpl.
  - intros [-> H]%ret_ran. now rewrite andb_true_r.
  - unfold Gate.ignored at 1.
    destruct (Re.search ignore_re line); simpl; [apply IH|].
    destruct (Re.search path_re line); [|discriminate].
    intros H. ran_split H. apply IH in H as [-> H].
    rewrite andb_false_r. split; [reflexivity | ran_close].
Qed.

Lemma check_swift_format_Ok s u s' :
  check_swift_format env s = Ok u s' ->
  exists r0 r,
    ran s [(git_root_cmd, r0); (swift_format_cmd, r)]
        (Gate.swift_format_passes r) s'.
Proof.
  unfold check_swift_format. intros H.
  apply bind_Ok in H as (? & s1 & H1 & H). apply bind_Ok in H as (? & s2 & H2 & H).
  apply bind_Ok in H as (r & s3 & H3 & H). apply bind_Ok in H as (b & s4 & HL & H).
  ran_step H1. ran_step H2. ran_step H3.
  assert (b = Gate.swift_format_passes r /\ ran s3 [] true s4) as [-> HL'].
  { unfold Gate.swift_format_passes. destruct (negb _) eqn:E.
    - now apply swift_format_lines_Ok in HL.
    - apply ret_ran in HL as [-> HL].
      apply negb_false_iff, String.eqb_eq in E. now rewrite E. }
  do 2 eexists.
  destruct (Gate.swift_format_passes r) eqn:E;
    [ran_step H | ran_split H; ran_step H]; ran_close.
Qed.

Lemma documentation_lines_eq out lines s :
  documentation_lines out lines s =
  match Gate.first_percentage lines with
  | Some (line, m) =>
      if bool_decide (Re.group1 m = Some "100")
      then print "ok" s
      else (do _ <- print ("ERROR: Documentation incomplete: " +:+ Py.repr line);
            set_not_ready) s
  | None =>
      Raise (AssertionError
               ("ERROR: Documentation percentage could not be found in jazzy output: "
                +:+ Py.repr out)) s
  end.
Proof.
  induction lines as [|line rest IH]; simpl; [reflexivity|].
  destruct (Re.search percentage_re line); [|exact IH].
  now destruct (bool_decide _).
Qed.


Lemma check_documentation_percentage_Ok s u s' :
  check_documentation_percentage env s = Ok u s' ->
  exists r0 r,
    ran s [(git_root_cmd, r0); (jazzy_cmd, r)]
        (Gate.documentation_passes r) s'.
Proof.
  unfold check_documentation_percentage. intros H. ran_split H.
  rewrite documentation_lines_eq in H. do 2 eexists.
  destruct (Gate.first_percentage _) as [[line m]|] eqn:F; [|discriminate].
  destruct (bool_decide _) eqn:D; [ran_step H | ran_split H; ran_step H];
    ran_close_by ltac:(unfold Gate.documentation_passes; now rewrite F, D).
Qed.

Lemma scan_files_step file rest bad bad' :
  scan_files (file :: rest) bad = Val bad' ->
  scan_files rest (bad ++ Gate.failing_entry file) = Val bad'
  /\ (Gate.file_passes file = true <-> Gate.failing_entry file = []).
Proof.
  simpl. unfold Gate.failing_entry, Gate.file_passes, Gate.sdk_path,
    Gate.below_threshold.
  destruct (Obj.item file "path") as [[| | | |p| |]|]; simpl; try discriminate.
  destruct (Re.search path_re p) as [m|]; [|discriminate].
  destruct (untestable _); simpl.
  - destruct (Obj.item file "lineCoverage"); rewrite app_nil_r; intuition.
  - destruct (Obj.item file "lineCoverage") as [c|]; simpl; [|discriminate].
    destruct (Obj.lt_float c minimum_code_coverage) as [[|]|]; simpl;
      rewrite ?app_nil_r; try discriminate; intros H; (split; [exact H|]);
      split; auto; discriminate.
Qed.

Lemma scan_files_Val files bad bad' :
  scan_files files bad = Val bad' ->
  bad' = (bad ++ flat_map Gate.failing_entry files)%list
  /\ (forallb Gate.file_passes files = true <->
      flat_map Gate.failing_entry files = []).
Proof.
  revert bad. induction files as [|file rest IH]; intros bad.
  - simpl. intros [= <-]. now rewrite app_nil_r.
  - intros [H E]%scan_files_step. apply IH in H as [-> IH'].
    cbn [flat_map forallb]. rewrite <- app_assoc. split; [reflexivity|].
    rewrite andb_true_iff, E, IH'. split.
    + now intros [-> ->].
    + now intros [-> ->]%app_eq_nil.
Qed.


Lemma report_bad_files_ran bad s u s' :
  report_bad_files env bad s = Ok u s' ->
  ran s [] (match bad with [] => true | _ => false end) s'.
Proof.
  revert s. induction bad as [|file rest IH]; intros s; cbn [report_bad_files].
  - now intros [_ H]%ret_ran.
  - intros H. ran_split H. apply IH in H. ran_close_by ltac:(reflexivity).
Qed.

Lemma coverage_bad_files_Val out bad :
  coverage_bad_files out = Val bad ->
  exists files,
    Gate.report_files out = Some files /\ 5 < List.length files
    /\ scan_files files [] = Val bad.
Proof.
  unfold coverage_bad_files, Gate.report_files.
  destruct (loads out) as [report|]; simpl; [|discriminate].
  destruct report as [| | | |t|l|d]; simpl; try discriminate.
  - destruct (String.length t =? 1)%nat; simpl; [|discriminate].
    destruct t; simpl; discriminate.
  - destruct l as [|product [|]]; simpl; try discriminate.
    destruct (Obj.item product "files") as [files|]; simpl; [|discriminate].
    destruct files as [| | | |t|l|d]; simpl; try discriminate.
    + destruct (5 <? String.length t)%nat eqn:E; simpl; [|discriminate].
      destruct t; simpl; discriminate.
    + destruct (5 <? List.length l)%nat eqn:E; simpl; [|discriminate].
      intros H. exists l. apply Nat.ltb_lt in E. auto.
    + destruct (5 <? List.length d)%nat eqn:E; simpl; [|discriminate].
      destruct d as [|[k v] d]; simpl; [discriminate E | discriminate].
  - destruct (List.length d =? 1)%nat; simpl; discriminate.
Qed.

Lemma coverage_bad_files_passes r bad :
  coverage_bad_files (std_out r) = Val bad ->
  Gate.coverage_passes r = match bad with [] => true | _ => false end.
Proof.
  intros (files & F & _ & S)%coverage_bad_files_Val.
  unfold Gate.coverage_passes. rewrite F.
  apply scan_files_Val in S as [-> S]. simpl.
  destruct (flat_map _ _) eqn:E.
  - now apply S.
  - destruct (forallb _ _); [|reflexivity].
    now destruct S as [S _]; specialize (S eq_refl).
Qed.


Lemma check_code_coverage_Ok s u s' :
  check_code_coverage env s = Ok u s' ->
  exists r0 r m r' bad,
    Re.search xcresult_re (std_out r) = Some m
    /\ coverage_bad_files (std_out r') = Val bad
    /\ Gate.coverage_passes r' = match bad with [] => true | _ => false end
    /\ ran s [(git_root_cmd, r0); (xcodebuild_cmd, r);
              (xccov_cmd (Re.group0 m), r')]
           (Gate.coverage_passes r') s'.
Proof.
  unfold check_code_coverage. intros H. ran_split H.
  destruct (Re.search xcresult_re _) as [m|] eqn:X; [|discriminate].
  apply bind_Ok in H as (r' & s5 & H5 & H). ran_step H5.
  apply bind_Ok in H as (bad & s6 & H6 & H). ran_step H6.
  match goal with
  | B : coverage_bad_files _ = Val _ |- _ =>
      pose proof (coverage_bad_files_passes _ _ B) as P; rename B into V
  end.
  do 5 eexists. split; [exact X|]. split; [exact V|]. split; [exact P|].
  rewrite P. destruct bad as [|b bs]; simpl in H.
  - ran_step H. ran_close.
  - ran_split H. apply report_bad_files_ran in H. ran_close.
Qed.

End Checks.

(** Turn the equation of one finished check into its [ran] fact. *)
Ltac check_step H :=
  first
    [ apply check_pre_commit_Ok in H; destruct H as (? & ? & H)
    | apply check_swift_format_Ok in H; destruct H as (? & ? & H)
    | apply pod_install_Ok in H; destruct H as (? & ? & H)
    | apply check_documentation_percentage_Ok in H; destruct H as (? & ? & H)
    | apply check_code_coverage_Ok in H; destruct H as (? & ? & ? & ? & ? & ? & _ & _ & H)
    | apply check_todo_count_Ok in H; destruct H as (? & ? & ? & H) ].

Section RunOfChecks.
Import Json ReleaseReadiness.
Variable env : Env.

Lemma run_checks_Ok s u s' :
  run_checks env s = Ok u s' ->
  exists g1 r1 g2 r2 g3 r3 g4 r4 g5 r5 m r6 g6 t1 t2 g7 t3 t4,
    Re.search xcresult_re (std_out r5) = Some m
    /\ ran s [ (git_root_cmd, g1); (pre_commit_cmd, r1);
               (git_root_cmd, g2); (swift_format_cmd, r2);
               (git_root_cmd, g3); (pod_install_cmd, r3);
               (git_root_cmd, g4); (jazzy_cmd, r4);
               (git_root_cmd, g5); (xcodebuild_cmd, r5);
               (xccov_cmd (Re.group0 m), r6);
               (git_root_cmd, g6); (todo_without_bug_cmd "*.swift", t1);
               (todo_with_bug_cmd "*.swift", t2);
               (git_root_cmd, g7); (todo_without_bug_cmd "*.md", t3);
               (todo_with_bug_cmd "*.md", t4) ]
           (Gate.pre_commit_passes r1 && Gate.swift_format_passes r2
            && Gate.documentation_passes r4 && Gate.coverage_passes r6) s'.
Proof.
  unfold run_checks. intros H.
  repeat (let H1 := fresh "Hstep" in
          apply bind_Ok in H; destruct H as (? & ? & H1 & H); check_step H1).
  check_step H.
  do 18 eexists. split; [eassumption|].
  ran_close_by ltac:(now rewrite !andb_assoc).
Qed.

Lemma all_gates_pass_log g1 r1 g2 r2 g3 r3 g4 r4 g5 r5 m r6 rest :
  Re.search xcresult_re (std_out r5) = Some m ->
  Gate.all_gates_pass
    ([ (git_root_cmd, g1); (pre_commit_cmd, r1);
       (git_root_cmd, g2); (swift_format_cmd, r2);
       (git_root_cmd, g3); (pod_install_cmd, r3);
       (git_root_cmd, g4); (jazzy_cmd, r4);
       (git_root_cmd, g5); (xcodebuild_cmd, r5);
       (xccov_cmd (Re.group0 m), r6) ] ++ rest)
  = Gate.pre_commit_passes r1 && Gate.swift_format_passes r2
    && Gate.documentation_passes r4 && Gate.coverage_passes r6.
Proof.
  intros X. set (log := (_ ++ rest)%list).
  unfold Gate.all_gates_pass, Gate.coverage_gate, Gate.gate.
  assert (Gate.result_of pre_commit_cmd log = Some r1) as -> by reflexivity.
  assert (Gate.result_of swift_format_cmd log = Some r2) as -> by reflexivity.
  assert (Gate.result_of jazzy_cmd log = Some r4) as -> by reflexivity.
  assert (Gate.result_of xcodebuild_cmd log = Some r5) as -> by reflexivity.
  rewrite X.
  assert (Gate.result_of (xccov_cmd (Re.group0 m)) log = Some r6) as ->;
    [|reflexivity].
  unfold Gate.result_of, log. cbn [app find fst snd].
  replace (String.eqb git_root_cmd (xccov_cmd (Re.group0 m)))
    with false by reflexivity.
  replace (String.eqb pre_commit_cmd (xccov_cmd (Re.group0 m)))
    with false by reflexivity.
  replace (String.eqb swift_format_cmd (xccov_cmd (Re.group0 m)))
    with false by reflexivity.
  replace (String.eqb pod_install_cmd (xccov_cmd (Re.group0 m)))
    with false by reflexivity.
  replace (String.eqb jazzy_cmd (xccov_cmd (Re.group0 m)))
    with false by reflexivity.
  replace (String.eqb xcodebuild_cmd (xccov_cmd (Re.group0 m)))
    with false by reflexivity.
  now rewrite String.eqb_refl.
Qed.

End RunOfChecks.

(** ** The flag over a run *)

Section Flag.
Import ReleaseReadiness.
Variable env : Env.

Lemma never_restores_bind {A B} (m : M A) (f : A -> M B) :
  never_restores m -> (forall a, never_restores (f a)) ->
  never_restores (bind m f).
Proof.
  intros Hm Hf s Hs. unfold bind. specialize (Hm s Hs).
  destruct (m s) as [a s1|e s1]; simpl in *; [now apply Hf | assumption].
Qed.

Lemma keeps_flag_bind {A B} (m : M A) (f : A -> M B) :
  keeps_flag m -> (forall a, keeps_flag (f a)) -> keeps_flag (bind m f).
Proof.
  intros Hm Hf s. unfold bind. specialize (Hm s).
  destruct (m s) as [a s1|e s1]; simpl in *; [now rewrite Hf | assumption].
Qed.

Lemma keeps_flag_never_restores {A} (m : M A) : keeps_flag m -> never_restores m.
Proof. intros H s Hs. now rewrite H. Qed.

Lemma keeps_flag_print_flush text : keeps_flag (print_flush text).
Proof. now intros s. Qed.

Lemma keeps_flag_print text : keeps_flag (print text).
Proof. now intros s. Qed.

Lemma keeps_flag_ret {A} (a : A) : keeps_flag (ret a).
Proof. now intros s. Qed.

Lemma keeps_flag_raise {A} e : keeps_flag (@raise A e).
Proof. now intros s. Qed.

Lemma keeps_flag_get : keeps_flag get_release_ready.
Proof. now intros s. Qed.

Lemma keeps_flag_exec_cmd cmd : keeps_flag (exec_cmd env cmd).
Proof. now intros s. Qed.

Lemma keeps_flag_assert c msg : keeps_flag (assert c msg).
Proof. intros s. now destruct c. Qed.

Lemma keeps_flag_lift {A} (r : result A) : keeps_flag (lift r).
Proof. intros s. now destruct r. Qed.

Lemma keeps_flag_chdir p : keeps_flag (chdir env p).
Proof. intros s. unfold chdir. now destruct (_ && _). Qed.

Lemma keeps_flag_open_w p : keeps_flag (open_w env p).
Proof. intros s. unfold open_w. now destruct (writable _ _ _). Qed.

Lemma keeps_flag_write h text : keeps_flag (write h text).
Proof. now intros s. Qed.

Lemma never_restores_set_not_ready : never_restores set_not_ready.
Proof. now intros s. Qed.

End Flag.

Create HintDb flag discriminated.

#[export] Hint Resolve keeps_flag_print_flush keeps_flag_print keeps_flag_ret
  keeps_flag_raise keeps_flag_get keeps_flag_exec_cmd keeps_flag_assert
  keeps_flag_lift keeps_flag_chdir keeps_flag_open_w keeps_flag_write
  never_restores_set_not_ready : flag.

(** Walk through a definition, one operation at a time. *)
Ltac flag_walk :=
  repeat match goal with
    | |- keeps_flag (bind _ _) => apply keeps_flag_bind; [| intro]
    | |- never_restores (bind _ _) => apply never_restores_bind; [| intro]
    | |- keeps_flag (match ?x with _ => _ end) => destruct x
    | |- never_restores (match ?x with _ => _ end) => destruct x
    | |- keeps_flag _ => solve [auto with flag]
    | |- never_restores _ =>
        solve [auto with flag | apply keeps_flag_never_restores; auto with flag]
    end.

Section FlagOfChecks.
Import ReleaseReadiness.
Variable env : Env.

Lemma keeps_flag_cd_to_git_root : keeps_flag (cd_to_git_root env).
Proof. unfold cd_to_git_root. flag_walk. Qed.
Hint Resolve keeps_flag_cd_to_git_root : flag.

Lemma keeps_flag_check_todo_count pattern :
  keeps_flag (check_todo_count env pattern).
Proof. unfold check_todo_count. flag_walk. Qed.

Lemma keeps_flag_pod_install : keeps_flag (pod_install env).
Proof. unfold pod_install. flag_walk. Qed.

Lemma never_restores_check_pre_commit : never_restores (check_pre_commit env).
Proof. unfold check_pre_commit. flag_walk. Qed.

Lemma never_restores_swift_format_lines err lines acc :
  never_restores (swift_format_lines err lines acc).
Proof.
  revert acc. induction lines as [|line rest IH]; intros acc; simpl; flag_walk.
Qed.
Hint Resolve never_restores_swift_format_lines : flag.

Lemma never_restores_check_swift_format : never_restores (check_swift_format env).
Proof. unfold check_swift_format. flag_walk. Qed.

Lemma never_restores_documentation_lines out lines :
  never_restores (documentation_lines out lines).
Proof. induction lines as [|line rest IH]; simpl; flag_walk. Qed.
Hint Resolve never_restores_documentation_lines : flag.

Lemma never_restores_check_documentation_percentage :
  never_restores (check_documentation_percentage env).
Proof. unfold check_documentation_percentage. flag_walk. Qed.

Lemma never_restores_report_bad_files bad :
  never_restores (report_bad_files env bad).
Proof. induction bad as [|file rest IH]; simpl; flag_walk. Qed.
Hint Resolve never_restores_report_bad_files : flag.

Lemma never_restores_check_code_coverage :
  never_restores (check_code_coverage env).
Proof. unfold check_code_coverage. flag_walk. Qed.

Lemma never_restores_sequence ms :
  Forall never_restores ms -> never_restores (sequence ms).
Proof.
  induction 1 as [|m rest Hm _ IH]; simpl; flag_walk.
Qed.

Lemma never_restores_checks : Forall never_restores (checks env).
Proof.
  unfold checks.
  repeat constructor;
    auto using never_restores_check_pre_commit,
      never_restores_check_swift_format, never_restores_check_documentation_percentage,
      never_restores_check_code_coverage, keeps_flag_never_restores,
      keeps_flag_pod_install, keeps_flag_check_todo_count.
Qed.

Lemma run_checks_sequence s :
  final (run_checks env s) = final (sequence (checks env) s)
  /\ (forall u s', run_checks env s = Ok u s' <->
                   sequence (checks env) s = Ok tt s').
Proof.
  unfold run_checks, checks, sequence, bind, ret.
  repeat match goal with
    | |- context [match ?m ?t with Ok _ _ => _ | Raise _ _ => _ end] =>
        destruct (m t) as [[] ?|? ?]; simpl
    end;
    (split; [reflexivity | intros [] ?; split; congruence]).
Qed.

Lemma sequence_app before after s :
  sequence (before ++ after) s = (do _ <- sequence before; sequence after) s.
Proof.
  revert s. induction before as [|m rest IH]; intros s; simpl.
  - reflexivity.
  - unfold bind in *. destruct (m s) as [a s1|e s1]; [apply IH | reflexivity].
Qed.

End FlagOfChecks.

(** ** The release-readiness checker as a whole *)

Section Readiness.
Import ReleaseReadiness.
Variable env : Env.

Lemma main_flag s :
  release_ready (final (main env s)) = release_ready (final (run_checks env s)).
Proof.
  unfold main, bind, get_release_ready.
  destruct (run_checks env s) as [u s1|e s1]; [|reflexivity].
  now destruct (release_ready s1).
Qed.

Lemma never_restores_run_checks : never_restores (run_checks env).
Proof.
  intros s Hs. destruct (run_checks_sequence env s) as [-> _].
  now apply (never_restores_sequence _ (never_restores_checks env)).
Qed.

Lemma never_restores_main : never_restores (main env).
Proof. intros s Hs. rewrite main_flag. now apply never_restores_run_checks. Qed.

Lemma main_Ok s status s' :
  main env s = Ok status s' ->
  exists s1,
    run_checks env s = Ok tt s1
    /\ calls s' = calls s1 /\ release_ready s' = release_ready s1
    /\ files s' = files s1
    /\ status = (if release_ready s1 then 0 else 1)%Z.
Proof.
  unfold main. intros H.
  apply bind_Ok in H as ([] & s1 & H1 & H).
  apply bind_Ok in H as (ready & s2 & [= <- <-] & H).
  exists s1. split; [exact H1|].
  destruct (release_ready s1) eqn:E;
    apply bind_Ok in H as (? & ? & [= _ <-] & [= <- <-]);
    simpl; rewrite ?E; auto.
Qed.

End Readiness.

Lemma append_assoc (a b c : string) : (a +:+ b) +:+ c = a +:+ b +:+ c.
Proof.
  induction a as [|x a IH]; [reflexivity|].
  change (String x ((a +:+ b) +:+ c) = String x (a +:+ b +:+ c)). now f_equal.
Qed.

Lemma append_empty_r (a : string) : a +:+ "" = a.
Proof.
  induction a as [|x a IH]; [reflexivity|].
  change (String x (a +:+ "") = String x a). now f_equal.
Qed.

Lemma printed_printed a b s : printed a (printed b s) = printed (b +:+ a) s.
Proof. unfold printed. simpl. now rewrite append_assoc. Qed.

(** ** What the patterns match and what [repr] shows *)

Section Patterns.
Import ReleaseReadiness.
Local Arguments String.append !_ _ / : simpl nomatch.

Lemma after_prefix_append lit rest : Py.after_prefix lit (lit +:+ rest) = Some rest.
Proof.
  induction lit as [|c lit IH]; [reflexivity|].
  cbn [String.append Py.after_prefix]. now rewrite Ascii.eqb_refl.
Qed.

Lemma consumed_all s : Re.consumed s "" = s.
Proof.
  unfold Re.consumed. cbn [String.length]. rewrite Nat.sub_0_r.
  induction s as [|c s IH]; [reflexivity|].
  cbn [String.length String.substring]. now rewrite IH.
Qed.

Lemma length_append s rest :
  String.length (s +:+ rest) = String.length s + String.length rest.
Proof.
  induction s as [|c s IH]; cbn [String.append String.length Nat.add];
    [reflexivity | now rewrite IH].
Qed.

Lemma consumed_append s rest : Re.consumed (s +:+ rest) rest = s.
Proof.
  unfold Re.consumed.
  assert (String.length (s +:+ rest) - String.length rest = String.length s) as ->
    by (rewrite length_append; lia).
  induction s as [|c s IH]; cbn [String.append String.length String.substring].
  - now destruct rest.
  - now rewrite IH.
Qed.

Lemma matches_Seq {R} n r1 r2 s g (k : string -> option string -> option R) :
  Re.matches n (Re.Seq r1 r2) s g k
  = Re.matches n r1 s g (fun s' g' => Re.matches n r2 s' g' k).
Proof. reflexivity. Qed.

Lemma matches_Lit {R} n l s g (k : string -> option string -> option R) :
  Re.matches n (Re.Lit l) s g k
  = match Py.after_prefix l s with
    | Some rest => k rest g
    | None => None
    end.
Proof. reflexivity. Qed.

(** [.*] runs to the end of a text without line feed. *)
Lemma star_dot_all {R} n s g (k : string -> option string -> option R) v :
  Py.all_chars Py.not_newline s = true ->
  k "" g = Some v ->
  Re.matches n (Re.Star Re.Dot) s g k = Some v.
Proof.
  intros Hs Hk. induction s as [|c s IH].
  - exact Hk.
  - cbn [Py.all_chars] in Hs. apply andb_true_iff in Hs as [Hc Hs].
    unfold Py.not_newline in Hc. apply negb_true_iff in Hc.
    specialize (IH Hs).
    cbn [Re.matches String.length] in *. rewrite Hc.
    assert (Nat.ltb (String.length s) (S (String.length s)) = true) as ->
      by (apply Nat.ltb_lt; lia).
    now rewrite IH.
Qed.

Lemma search_path_re_at_start rest :
  Py.all_chars Py.not_newline rest = true ->
  Re.search path_re ("JacquardSDK/" +:+ rest)
  = Some (Re.MkMatch ("JacquardSDK/" +:+ rest) None).
Proof.
  intros H.
  assert (forall n, Re.match_here n path_re ("JacquardSDK/" +:+ rest)
                    = Some (Re.MkMatch ("JacquardSDK/" +:+ rest) None)) as E.
  { intros n. unfold Re.match_here, path_re.
    rewrite matches_Seq, matches_Lit, after_prefix_append.
    erewrite star_dot_all; [reflexivity | exact H |].
    now rewrite consumed_all. }
  unfold Re.search.
  generalize (String.length ("JacquardSDK/" +:+ rest)). intros n.
  specialize (E n). revert E. generalize ("JacquardSDK/" +:+ rest).
  intros line E. destruct line; cbn [Re.search_from]; now rewrite E.
Qed.

Lemma matches_Range {R} n lo hi c s g (k : string -> option string -> option R) :
  Re.matches n (Re.Range lo hi) (String c s) g k
  = if Py.between (Py.code lo) (Py.code hi) c then k s g else None.
Proof. reflexivity. Qed.

Lemma matches_Group {R} n r s g (k : string -> option string -> option R) :
  Re.matches n (Re.Group r) s g k
  = Re.matches n r s g (fun s' _ => k s' (Some (Re.consumed s s'))).
Proof. reflexivity. Qed.

Lemma matches_Bol {R} n s g (k : string -> option string -> option R) :
  Re.matches n Re.Bol s g k
  = if Nat.eqb (String.length s) n then k s g else None.
Proof. reflexivity. Qed.

(** [[0-9]*] takes every leading digit when the rest of the pattern
    matches after them. *)
Lemma star_digits_all {R} n ds c tail g
    (k : string -> option string -> option R) v :
  Py.all_chars Py.is_digit ds = true ->
  Py.is_digit c = false ->
  k (String c tail) g = Some v ->
  Re.matches n (Re.Star (Re.Range "0" "9")) (ds +:+ String c tail) g k = Some v.
Proof.
  intros Hds Hc Hk. induction ds as [|d ds IH].
  - cbn [String.append Re.matches String.length].
    change (Py.between (Py.code "0") (Py.code "9") c) with (Py.is_digit c).
    now rewrite Hc.
  - cbn [Py.all_chars] in Hds. apply andb_true_iff in Hds as [Hd Hds].
    specialize (IH Hds).
    cbn [String.append Re.matches String.length] in *.
    change (Py.between (Py.code "0") (Py.code "9") d) with (Py.is_digit d).
    rewrite Hd.
    assert (Nat.ltb (String.length (ds +:+ String c tail))
              (S (String.length (ds +:+ String c tail))) = true) as ->
      by (apply Nat.ltb_lt; lia).
    now rewrite IH.
Qed.

Lemma search_percentage_re digits rest :
  Py.all_chars Py.is_digit digits = true ->
  digits <> EmptyString ->
  Re.search percentage_re (digits +:+ "% documentation coverage" +:+ rest)
  = Some (Re.MkMatch (digits +:+ "% documentation coverage") (Some digits)).
Proof.
  intros Hd Hne. destruct digits as [|d ds]; [contradiction|].
  cbn [Py.all_chars] in Hd. apply andb_true_iff in Hd as [Hd Hds].
  set (tail := "% documentation coverage" +:+ rest).
  set (line := String d ds +:+ tail).
  assert (Re.match_here (String.length line) percentage_re line
          = Some (Re.MkMatch (Re.consumed line rest)
                    (Some (Re.consumed line tail)))) as E.
  { unfold Re.match_here, percentage_re, Re.Plus.
    rewrite matches_Seq, matches_Bol, Nat.eqb_refl.
    rewrite matches_Seq, matches_Group, matches_Seq.
    change line with (String d (ds +:+ String "%" (" documentation coverage" +:+ rest)))
      at 2.
    rewrite matches_Range.
    change (Py.between (Py.code "0") (Py.code "9") d) with (Py.is_digit d).
    rewrite Hd.
    erewrite (star_digits_all _ ds "%"); [reflexivity | exact Hds | reflexivity |].
    rewrite matches_Lit.
    change (String "%" (" documentation coverage" +:+ rest))
      with ("% documentation coverage" +:+ rest).
    rewrite after_prefix_append. reflexivity. }
  unfold Re.search. fold tail line.
  replace (Re.MkMatch (String d ds +:+ "% documentation coverage") (Some (String d ds)))
    with (Re.MkMatch (Re.consumed line rest) (Some (Re.consumed line tail))).
  - destruct line; cbn [Re.search_from]; now rewrite E.
  - f_equal.
    + unfold line, tail. rewrite <- append_assoc. apply consumed_append.
    + f_equal. apply consumed_append.
Qed.

Lemma contains_squote_plain s :
  Py.all_chars Py.shown_as_is s = true -> Py.contains Py.squote s = false.
Proof.
  induction s as [|c s IH]; intros H; [reflexivity|].
  cbn [Py.all_chars] in H. apply andb_true_iff in H as [Hc Hs].
  unfold Py.shown_as_is in Hc. apply andb_true_iff in Hc as [Hc _].
  apply andb_true_iff in Hc as [_ Hq]. apply negb_true_iff, N.eqb_neq in Hq.
  cbn [Py.contains]. rewrite (IH Hs), orb_false_r.
  unfold Py.squote. cbn [String.prefix].
  destruct (ascii_dec (Py.chr 39) c) as [<-|]; [|reflexivity].
  now contradiction Hq.
Qed.

Lemma repr_char_plain c : Py.shown_as_is c = true -> Py.repr_char (Py.chr 39) c = String c "".
Proof.
  unfold Py.shown_as_is, Py.repr_char. intros H.
  apply andb_true_iff in H as [H H92]. apply andb_true_iff in H as [Hp H39].
  apply negb_true_iff in H92, H39. rewrite H92, Hp.
  assert (Ascii.eqb c (Py.chr 39) = false) as ->.
  { apply Ascii.eqb_neq. intros ->. now apply N.eqb_neq in H39. }
  unfold Py.isprintable, Py.between in Hp.
  assert (32 <= Py.code c)%N as Hge.
  { apply orb_true_iff in Hp as [Hp|Hp]; apply andb_true_iff in Hp as [Hp _].
    - now apply N.leb_le in Hp.
    - apply andb_true_iff in Hp as [Hp _]. apply N.leb_le in Hp. lia. }
  cbn [orb].
  assert ((Py.code c =? 9)%N = false) as -> by (apply N.eqb_neq; lia).
  assert ((Py.code c =? 10)%N = false) as -> by (apply N.eqb_neq; lia).
  assert ((Py.code c =? 13)%N = false) as -> by (apply N.eqb_neq; lia).
  reflexivity.
Qed.

(** [repr] puts a text of printable characters, without single quote or
    backslash, between single quotes as it is. *)
Lemma repr_plain s :
  Py.all_chars Py.shown_as_is s = true -> Py.repr s = "'" +:+ s +:+ "'".
Proof.
  intros H. unfold Py.repr. rewrite (contains_squote_plain s H). cbn [andb].
  change (String (Py.chr 39) "") with "'". f_equal.
  induction s as [|c s IH]; [reflexivity|].
  cbn [Py.all_chars] in H. apply andb_true_iff in H as [Hc Hs].
  cbn [Py.repr_body]. rewrite (repr_char_plain c Hc).
  cbn [String.append]. f_equal. exact (IH Hs).
Qed.
End Patterns.

(** ** The checks run forward *)

Section Forward.
Import Json ReleaseReadiness.
Variable env : Env.

Lemma first_percentage_found before line after m :
  Forall (fun l => Re.search percentage_re l = None) before ->
  Re.search percentage_re line = Some m ->
  Gate.first_percentage (before ++ line :: after) = Some (line, m).
Proof.
  intros Hb Hl. induction Hb as [|l ls E _ IH]; simpl.
  - now rewrite Hl.
  - now rewrite E.
Qed.

Lemma first_percentage_none lines :
  Forall (fun l => Re.search percentage_re l = None) lines ->
  Gate.first_percentage lines = None.
Proof. induction 1 as [|l ls E _ IH]; simpl; [reflexivity | now rewrite E]. Qed.

(** The documentation check up to its loop. *)
Lemma check_documentation_percentage_run s :
  root_found env s = true ->
  let r := popen env (after_root env s) jazzy_cmd in
  returncode r = 0%Z ->
  check_documentation_percentage env s
  = documentation_lines (std_out r) (Py.splitlines (std_out r))
      (MkState (release_ready s) (resolve (cwd s) (root_dir env s))
         (console s +:+ "Documentation coverage: ") (files s)
         (after_root env s ++ [(jazzy_cmd, r)])).
Proof.
  intros Hroot r Hr. unfold check_documentation_percentage.
  erewrite bind_step by reflexivity.
  erewrite bind_step by (apply cd_to_git_root_found; exact Hroot).
  erewrite bind_step by reflexivity.
  fold r. replace (returncode (popen env _ jazzy_cmd) =? 0)%Z with true
    by (symmetry; apply Z.eqb_eq; exact Hr).
  reflexivity.
Qed.

Lemma offending_cons line rest :
  Gate.offending (line :: rest)
  = if Gate.ignored line then Gate.offending rest
    else line :: Gate.offending rest.
Proof. unfold Gate.offending. simpl. destruct (Gate.ignored line); reflexivity. Qed.

Lemma swift_format_lines_run err lines acc s :
  Forall (fun l => Gate.ignored l = true \/ Re.search path_re l <> None) lines ->
  swift_format_lines err lines acc s
  = Ok (acc && match Gate.offending lines with [] => true | _ => false end)
       (printed (Gate.listing (Gate.offending lines)) s).
Proof.
  intros H. revert acc s. induction H as [|line rest Hl _ IH]; intros acc s.
  - simpl. unfold ret, printed. rewrite andb_true_r, append_empty_r.
    now destruct s.
  - rewrite offending_cons. cbn [swift_format_lines]. unfold Gate.ignored in *.
    destruct (Re.search ignore_re line).
    + apply IH.
    + destruct Hl as [Hl|Hl]; [discriminate|].
      cbn [Gate.listing]. unfold Gate.reported.
      destruct (Re.search path_re line) as [m|]; [|contradiction].
      erewrite bind_step by reflexivity. rewrite IH.
      unfold print, print_flush. rewrite printed_printed, andb_false_r.
      now rewrite !append_assoc.
Qed.

(** The lint check up to its loop. *)
Lemma check_swift_format_run s :
  root_found env s = true ->
  let r := popen env (after_root env s) swift_format_cmd in
  let lines := Py.splitlines (std_err r) in
  Forall (fun l => Gate.ignored l = true \/ Re.search path_re l <> None) lines ->
  check_swift_format env s
  = Ok tt
      (MkState
         (release_ready s
          && match Gate.offending lines with [] => true | _ => false end)
         (resolve (cwd s) (root_dir env s))
         (console s +:+ "Checking swift-format lint: "
          +:+ Gate.listing (Gate.offending lines)
          +:+ match Gate.offending lines with
              | [] => "ok"
              | _ => "swift-format lint failed"
              end +:+ Py.nl)
         (files s) (after_root env s ++ [(swift_format_cmd, r)])).
Proof.
  intros Hroot r lines Hlines. unfold check_swift_format.
  erewrite bind_step by reflexivity.
  erewrite bind_step by (apply cd_to_git_root_found; exact Hroot).
  erewrite bind_step by reflexivity.
  unfold at_root, printed. cbn [calls release_ready cwd console files].
  change (popen env _ swift_format_cmd) with r.
  change (root_dir env _) with (root_dir env s).
  change (after_root env _) with (after_root env s).
  destruct (negb (String.eqb (std_err r) "")) eqn:E.
  - erewrite bind_step by (apply swift_format_lines_run; exact Hlines).
    fold lines. destruct (Gate.offending lines) as [|l ls]; cbn [andb].
    + unfold print, print_flush, printed; cbn. rewrite andb_true_r.
      now rewrite !append_assoc.
    + erewrite bind_step by reflexivity.
      unfold print, print_flush, printed; cbn. rewrite andb_false_r.
      now rewrite !append_assoc.
  - apply negb_false_iff, String.eqb_eq in E.
    assert (lines = []) as -> by (unfold lines; now rewrite E).
    erewrite bind_step by reflexivity.
    unfold print, print_flush, printed; cbn. rewrite andb_true_r.
    now rewrite !append_assoc.
Qed.
(** The coverage check up to its reading of the report. *)
Lemma check_code_coverage_run s out :
  coverage_report env s = Some out ->
  exists s1,
    release_ready s1 = release_ready s /\ files s1 = files s
    /\ console s1 = console s +:+ "Code coverage: "
    /\ check_code_coverage env s
       = (do bad_files <- lift (coverage_bad_files out);
          if (0 <? List.length bad_files)%nat
          then
            do _ <- print ("Minimum code coverage of "
                           +:+ float_repr env minimum_code_coverage
                           +:+ " not met by the following files:");
            report_bad_files env bad_files
          else ret tt) s1.
Proof.
  unfold coverage_report.
  destruct (root_found env s) eqn:Hroot; [|discriminate].
  destruct (isdir env _ _) eqn:Hdir; [|discriminate].
  destruct (returncode _ =? 0)%Z eqn:Hr; [|discriminate]. cbn [andb].
  destruct (Re.search xcresult_re _) as [m|] eqn:X; [|discriminate].
  intros [= <-]. eexists. split; [|split; [|split]]; cycle 3.
  - unfold check_code_coverage.
    erewrite bind_step by reflexivity.
    erewrite bind_step by (apply cd_to_git_root_found; exact Hroot).
    erewrite bind_step.
    2:{ unfold chdir, at_root, printed.
        cbn [calls release_ready cwd console files String.eqb negb andb].
        change (after_root env _) with (after_root env s).
        change (root_dir env _) with (root_dir env s).
        rewrite Hdir. reflexivity. }
    erewrite bind_step by reflexivity.
    cbn [calls]. rewrite Hr.
    erewrite bind_step by reflexivity.
    rewrite X.
    erewrite bind_step by reflexivity.
    reflexivity.
  - reflexivity.
  - reflexivity.
  - reflexivity.
Qed.

Lemma assert_Ok c msg (s : State) u s' :
  assert c msg s = Ok u s' -> c = true /\ s' = s.
Proof. destruct c; [now intros [= _ <-] | discriminate]. Qed.

Lemma lift_Ok {A} (r : result A) (s : State) a s' :
  lift r s = Ok a s' -> r = Val a /\ s' = s.
Proof. destruct r; simpl; [now intros [= <- <-] | discriminate]. Qed.

(** A coverage check that returns has read a report, and has cleared
    the flag exactly when its list of failing files is not empty. *)
Lemma check_code_coverage_report s u s' :
  check_code_coverage env s = Ok u s' ->
  exists out bad,
    coverage_report env s = Some out
    /\ coverage_bad_files out = Val bad
    /\ release_ready s'
       = release_ready s && match bad with [] => true | _ => false end.
Proof.
  unfold check_code_coverage. intros H.
  apply bind_Ok in H as (? & s1 & H1 & H). injection H1 as _ <-.
  apply bind_Ok in H as (? & s2 & H2 & H).
  apply cd_to_git_root_Ok in H2 as [Hroot ->].
  apply bind_Ok in H as (? & s3 & H3 & H). unfold chdir in H3.
  destruct (_ && _) eqn:Hdir in H3; [|discriminate]. injection H3 as _ <-.
  apply bind_Ok in H as (r & s4 & H4 & H). injection H4 as <- <-.
  apply bind_Ok in H as (? & s5 & H5 & H). apply assert_Ok in H5 as [Hr ->].
  destruct (Re.search xcresult_re _) as [m|] eqn:X; [|discriminate].
  apply bind_Ok in H as (r' & s6 & H6 & H). injection H6 as <- <-.
  apply bind_Ok in H as (bad & s7 & H7 & H). apply lift_Ok in H7 as [V ->].
  unfold at_root, printed in *.
  cbn [calls release_ready cwd console files String.eqb negb andb] in *.
  change (after_root env _) with (after_root env s) in *.
  change (root_dir env _) with (root_dir env s) in *.
  change (root_found env _) with (root_found env s) in *.
  eexists _, bad. split; [|split; [exact V|]].
  - unfold coverage_report. rewrite Hroot, Hdir, Hr. cbn [andb]. rewrite X.
    reflexivity.
  - destruct bad as [|b bs]; cbn [List.length Nat.ltb Nat.leb] in H.
    + injection H as _ <-. cbn [release_ready]. now rewrite andb_true_r.
    + ran_split H. apply report_bad_files_ran in H. ran_chain.
      match goal with R : ran _ _ _ s' |- _ => destruct R as (_ & _ & ->) end.
      cbn [release_ready andb]. now rewrite andb_false_r.
Qed.

Lemma in_failing_entry file path coverage :
  In (path, coverage) (Gate.failing_entry file)
  <-> Gate.sdk_path file = Some path /\ untestable path = false
      /\ Obj.item file "lineCoverage" = Val coverage
      /\ Obj.lt_float coverage minimum_code_coverage = Val true.
Proof.
  unfold Gate.failing_entry, Gate.below_threshold.
  destruct (Gate.sdk_path file) as [p|]; [|simpl; intuition discriminate].
  destruct (Obj.item file "lineCoverage") as [c|]; [|simpl; intuition discriminate].
  destruct (untestable p) eqn:U; cbn [negb andb].
  - simpl. intuition congruence.
  - destruct (Obj.lt_float c minimum_code_coverage) as [[|]|] eqn:L; simpl.
    + split.
      * intros [[= <- <-]|[]]. auto.
      * intros ([= <-] & _ & [= <-] & _). now left.
    + intuition congruence.
    + intuition congruence.
Qed.

(** The failing-files list holds exactly the entries that are not exempt
    and are below the threshold. *)
Lemma in_bad_files files bad path coverage :
  scan_files files [] = Val bad ->
  In (path, coverage) bad
  <-> exists file,
        In file files /\ Gate.sdk_path file = Some path
        /\ untestable path = false
        /\ Obj.item file "lineCoverage" = Val coverage
        /\ Obj.lt_float coverage minimum_code_coverage = Val true.
Proof.
  intros [-> _]%scan_files_Val. cbn [app]. rewrite in_flat_map.
  split; intros (file & Hin & H); exists file; (split; [exact Hin|]);
    now apply in_failing_entry.
Qed.

End Forward.

(** ** The build stamper *)

Section Stamp.
Import Json UpdateBuildHash.
Variable env : Env.
Local Arguments String.append !_ _ / : simpl nomatch.

Lemma scanstring_safe s rest :
  json_safe s = true ->
  scanstring (s +:+ String "034" rest) = Some (s, rest).
Proof.
  induction s as [|c s IH]; intros H.
  - reflexivity.
  - unfold json_safe in *. cbn [Py.all_chars] in H.
    apply andb_true_iff in H as [Hc Hs]. unfold json_plain in Hc.
    apply andb_true_iff in Hc as [Hc H92].
    apply andb_true_iff in Hc as [H32 H34].
    apply negb_true_iff in H32, H34, H92.
    cbn [String.append scanstring]. rewrite H34, H92, H32, (IH Hs).
    reflexivity.
Qed.

(** The text of the stamp is the JSON object of its two strings when
    both hold only plain characters. *)
Lemma loads_build_hash_text sha date :
  json_safe sha = true -> json_safe date = true ->
  loads (build_hash_text sha date)
  = Some (JDict [("buildHash", JStr sha); ("buildDate", JStr date)]).
Proof.
  intros Hsha Hdate. unfold loads.
  assert (exists k, 2 * String.length (build_hash_text sha date) + 2
                    = S (S (S (S k)))) as [k ->].
  { unfold build_hash_text. cbn [String.append String.length].
    eexists. rewrite Nat.add_comm. cbn [Nat.add Nat.mul]. reflexivity. }
  unfold build_hash_text. cbn [String.append Py.nl Py.dquote].
  simpl. rewrite (scanstring_safe sha _ Hsha).
  simpl. rewrite (scanstring_safe date _ Hdate).
  reflexivity.
Qed.

(** The stamper, once git has answered: it writes the stamp text to the
    build-hash file under the repository root and touches no other file. *)
Lemma main_writes s git s1 sha s2 date s3 u s4 :
  which_git env s = Ok git s1 ->
  git_sha env git s1 = Ok sha s2 ->
  git_date env git s2 = Ok date s3 ->
  cd_to_git_root env s3 = Ok u s4 ->
  writable env (calls s4) (resolve (cwd s4) build_hash_path) = true ->
  exists s',
    main env s = Ok tt s'
    /\ files s'
       = <[resolve (cwd s4) build_hash_path := build_hash_text sha date]>
           (files s).
Proof.
  intros H1 H2 H3 H4 Hw. unfold main.
  erewrite bind_step by exact H1. erewrite bind_step by exact H2.
  erewrite bind_step by exact H3. erewrite bind_step by exact H4.
  assert (files s4 = files s) as <-.
  { unfold which_git in H1. unfold git_sha in H2. unfold git_date in H3.
    ran_split H1. ran_step H1. ran_split H2. ran_step H2.
    ran_split H3. ran_step H3. ran_step H4. ran_chain.
    match goal with R : ran s _ _ s4 |- _ => now destruct R as (_ & F & _) end. }
  unfold open_w, write, assert, bind, ret. rewrite Hw.
  cbn [files calls cwd release_ready console].
  eexists. split; [reflexivity|]. cbn [files].
  rewrite lookup_insert_eq, insert_insert_eq. reflexivity.
Qed.

End Stamp.

(** * The properties of the specification *)

(** C1.  Whatever the tools answer, when the checker reaches its last
    line the flag is true exactly when the pre-commit script, the linter,
    the documentation percentage and the per-file coverage all passed,
    each judged on the result of its own command; the exit status is 0
    for a true flag and 1 for a false one; and the TODO count leaves the
    flag as it found it, however it ends. *)
Theorem readiness_flag_iff_all_gates_pass
    (env : Env) (dir : string) (fs : gmap string string)
    (status : Z) (s : State) :
  ReleaseReadiness.main env (ReleaseReadiness.initial dir fs) = Ok status s ->
  (release_ready s = true <-> Gate.all_gates_pass (calls s) = true)
  /\ status = (if release_ready s then 0 else 1)%Z
  /\ ReleaseReadiness.exit_status
       (ReleaseReadiness.main env (ReleaseReadiness.initial dir fs)) = status
  /\ (forall pattern t,
        release_ready (final (ReleaseReadiness.check_todo_count env pattern t))
        = release_ready t).
Proof.
  intros H. pose proof H as H'.
  apply main_Ok in H' as (s1 & R & Hc & Hr & _ & Hs).
  apply run_checks_Ok in R
    as (g1 & r1 & g2 & r2 & g3 & r3 & g4 & r4 & g5 & r5 & m & r6 & g6 & t1
        & t2 & g7 & t3 & t4 & X & C & _ & F).
  simpl in C, F. rewrite Hr, Hc, C, F.
  change [(git_root_cmd, g1); (ReleaseReadiness.pre_commit_cmd, r1);
          (git_root_cmd, g2); (ReleaseReadiness.swift_format_cmd, r2);
          (git_root_cmd, g3); (ReleaseReadiness.pod_install_cmd, r3);
          (git_root_cmd, g4); (ReleaseReadiness.jazzy_cmd, r4);
          (git_root_cmd, g5); (ReleaseReadiness.xcodebuild_cmd, r5);
          (ReleaseReadiness.xccov_cmd (Re.group0 m), r6);
          (git_root_cmd, g6);
          (ReleaseReadiness.todo_without_bug_cmd "*.swift", t1);
          (ReleaseReadiness.todo_with_bug_cmd "*.swift", t2);
          (git_root_cmd, g7);
          (ReleaseReadiness.todo_without_bug_cmd "*.md", t3);
          (ReleaseReadiness.todo_with_bug_cmd "*.md", t4)]
    with ([(git_root_cmd, g1); (ReleaseReadiness.pre_commit_cmd, r1);
           (git_root_cmd, g2); (ReleaseReadiness.swift_format_cmd, r2);
           (git_root_cmd, g3); (ReleaseReadiness.pod_install_cmd, r3);
           (git_root_cmd, g4); (ReleaseReadiness.jazzy_cmd, r4);
           (git_root_cmd, g5); (ReleaseReadiness.xcodebuild_cmd, r5);
           (ReleaseReadiness.xccov_cmd (Re.group0 m), r6)]
          ++ [(git_root_cmd, g6);
              (ReleaseReadiness.todo_without_bug_cmd "*.swift", t1);
              (ReleaseReadiness.todo_with_bug_cmd "*.swift", t2);
              (git_root_cmd, g7);
              (ReleaseReadiness.todo_without_bug_cmd "*.md", t3);
              (ReleaseReadiness.todo_with_bug_cmd "*.md", t4)])%list.
  rewrite (all_gates_pass_log _ _ _ _ _ _ _ _ _ _ _ _ _ X).
  repeat split; try tauto.
  - now rewrite Hs, F.
  - rewrite H. simpl. now rewrite Hs, F.
  - intros pattern t. apply keeps_flag_check_todo_count.
Qed.

(** C1 on two sample repositories: one where every gate passes, one
    where the pre-commit script, the linter, the documentation and the
    coverage all fail. *)
Lemma readiness_flag_iff_all_gates_pass_witness :
  let ready := ReleaseReadiness.main (Sample.table_env Sample.ready_table)
                 Sample.start in
  let failing := ReleaseReadiness.main (Sample.table_env Sample.failing_table)
                   Sample.start in
  (release_ready (final ready) = true
   /\ Gate.all_gates_pass (calls (final ready)) = true
   /\ ReleaseReadiness.exit_status ready = 0%Z)
  /\ (release_ready (final failing) = false
      /\ Gate.all_gates_pass (calls (final failing)) = false
      /\ ReleaseReadiness.exit_status failing = 1%Z).
Proof.
  intros ready failing.
  assert (ready = Ok 0%Z (final ready)) as E1 by (vm_compute; reflexivity).
  assert (failing = Ok 1%Z (final failing)) as E2 by (vm_compute; reflexivity).
  destruct (readiness_flag_iff_all_gates_pass _ _ _ _ _ E1) as ([G1 _] & _ & X1 & _).
  destruct (readiness_flag_iff_all_gates_pass _ _ _ _ _ E2) as ([_ G2] & _ & X2 & _).
  assert (release_ready (final ready) = true) as R1 by (vm_compute; reflexivity).
  assert (release_ready (final failing) = false) as R2 by (vm_compute; reflexivity).
  split; (split; [assumption | split; [| assumption]]).
  - exact (G1 R1).
  - destruct (Gate.all_gates_pass (calls (final failing))); [|reflexivity].
    specialize (G2 eq_refl). congruence.
Defined.

(** C6.  The flag starts true; no check and no run of the script ever
    turns a false flag into a true one, so the only change a check can
    make is from true to false; and when the flag is false after any
    prefix of the check sequence, it is false when the script ends,
    however it ends. *)
Theorem readiness_flag_monotonic (env : Env) :
  (forall dir fs, release_ready (ReleaseReadiness.initial dir fs) = true)
  /\ Forall never_restores (checks env)
  /\ never_restores (ReleaseReadiness.main env)
  /\ (forall before after s s_mid,
        checks env = (before ++ after)%list ->
        sequence before s = Ok tt s_mid ->
        release_ready s_mid = false ->
        release_ready (final (ReleaseReadiness.main env s)) = false).
Proof.
  split; [reflexivity|].
  split; [apply never_restores_checks|].
  split; [apply never_restores_main|].
  intros before after s s_mid Hsplit Hrun Hmid.
  rewrite main_flag. destruct (run_checks_sequence env s) as [-> _].
  rewrite Hsplit, sequence_app. unfold bind. rewrite Hrun.
  apply never_restores_sequence; [|exact Hmid].
  pose proof (never_restores_checks env) as F. rewrite Hsplit in F.
  now apply Forall_app in F.
Qed.

(** C6 on the failing sample: the pre-commit check clears the flag, and
    the six checks after it leave it cleared. *)
Lemma readiness_flag_monotonic_witness :
  let env := Sample.table_env Sample.failing_table in
  let s_mid := final (ReleaseReadiness.check_pre_commit env Sample.start) in
  release_ready Sample.start = true
  /\ release_ready s_mid = false
  /\ release_ready (final (ReleaseReadiness.main env Sample.start)) = false.
Proof.
  intros env s_mid.
  assert (release_ready s_mid = false) as Hmid by (vm_compute; reflexivity).
  split; [reflexivity | split; [exact Hmid|]].
  destruct (readiness_flag_monotonic env) as (_ & _ & _ & H).
  apply (H [ReleaseReadiness.check_pre_commit env]
           (tl (checks env)) Sample.start s_mid).
  - reflexivity.
  - vm_compute; reflexivity.
  - exact Hmid.
Defined.

(** C7.  When the query for the repository root exits with a status other
    than 0, the checker stops on a failed assertion with that query as
    its only subprocess and no file changed, and the build stamper stops
    on a failed assertion with every file as it was: it never opens its
    output file. *)
Theorem no_repository_aborts (env : Env) :
  (forall log, returncode (popen env log git_root_cmd) <> 0%Z) ->
  (forall dir fs, exists msg s',
      ReleaseReadiness.main env (ReleaseReadiness.initial dir fs)
      = Raise (AssertionError msg) s'
      /\ files s' = fs
      /\ calls s' = [(git_root_cmd, popen env [] git_root_cmd)]
      /\ console s' = "Pre_commit check: ")
  /\ (forall s, exists msg s',
      UpdateBuildHash.main env s = Raise (AssertionError msg) s'
      /\ files s' = files s
      /\ files s' !! resolve (cwd s') UpdateBuildHash.build_hash_path
         = files s !! resolve (cwd s') UpdateBuildHash.build_hash_path).
Proof.
  intros Hroot. split.
  - intros dir fs.
    destruct (cd_to_git_root_lost env
                (printed "Pre_commit check: " (ReleaseReadiness.initial dir fs))
                (Hroot _)) as (msg & E).
    exists msg. eexists. split.
    + unfold ReleaseReadiness.main, ReleaseReadiness.run_checks,
        ReleaseReadiness.check_pre_commit.
      do 2 (erewrite bind_abort; [reflexivity|]).
      erewrite bind_step by reflexivity.
      erewrite bind_abort; [reflexivity|]. exact E.
    + repeat split.
  - intros s. unfold UpdateBuildHash.main, UpdateBuildHash.which_git,
      UpdateBuildHash.git_sha, UpdateBuildHash.git_date, bind, exec_cmd, assert,
      ret, raise.
    cbn [calls].
    destruct (returncode _ =? 0)%Z; [|do 2 eexists; repeat split].
    cbn [calls]. destruct (returncode _ =? 0)%Z; [|do 2 eexists; repeat split].
    cbn [calls]. destruct (returncode _ =? 0)%Z; [|do 2 eexists; repeat split].
    match goal with
    | |- context [cd_to_git_root env ?t] =>
        destruct (cd_to_git_root_lost env t (Hroot _)) as (msg & ->)
    end.
    do 2 eexists; repeat split.
Qed.

(** C7 outside any repository: both scripts stop on the assertion and
    the build-hash file that was there keeps its content. *)
Lemma no_repository_aborts_witness :
  let env := Sample.table_env Sample.no_repository_table in
  let path := (Sample.root +:+ "/Example/JacquardSDK/BuildHash.json") in
  let s := MkState true (Sample.root +:+ "/Scripts") EmptyString
             (<[path := "old"]> ∅) [] in
  (exists msg s', ReleaseReadiness.main env Sample.start
                  = Raise (AssertionError msg) s' /\ files s' = ∅)
  /\ (exists msg s', UpdateBuildHash.main env s = Raise (AssertionError msg) s'
                     /\ files s' !! path = Some "old").
Proof.
  intros env path s.
  assert (forall log, returncode (popen env log git_root_cmd) <> 0%Z) as Hroot
    by (intros log; vm_compute; discriminate).
  destruct (no_repository_aborts env Hroot) as [H1 H2]. split.
  - destruct (H1 (Sample.root +:+ "/Scripts") ∅) as (msg & s' & E & F & _).
    exists msg, s'. split; [exact E | exact F].
  - destruct (H2 s) as (msg & s' & E & F & _).
    exists msg, s'. split; [exact E|]. rewrite F. vm_compute; reflexivity.
Defined.

(** C3.  With the repository root found and jazzy run with status 0: on
    the first line of its output that matches the percentage pattern,
    the check prints [ok] and leaves the flag when the number is exactly
    [100], and for any other number prints the diagnostic, which shows
    the line as [repr] writes it, and clears the flag; when no line
    matches, the check stops on a failed assertion.  A line that starts
    with a number followed by [% documentation coverage] matches, with
    that number; and [repr] shows a line of printable characters without
    quote or backslash as it is, between single quotes. *)
Theorem documentation_check (env : Env) (s : State) :
  root_found env s = true ->
  let r := popen env (after_root env s) ReleaseReadiness.jazzy_cmd in
  returncode r = 0%Z ->
  (forall before line after m,
      Py.splitlines (std_out r) = (before ++ line :: after)%list ->
      Forall (fun l => Re.search ReleaseReadiness.percentage_re l = None) before ->
      Re.search ReleaseReadiness.percentage_re line = Some m ->
      exists s',
        ReleaseReadiness.check_documentation_percentage env s = Ok tt s'
        /\ (Re.group1 m = Some "100" ->
            release_ready s' = release_ready s
            /\ console s'
               = console s +:+ "Documentation coverage: " +:+ "ok" +:+ Py.nl)
        /\ (Re.group1 m <> Some "100" ->
            release_ready s' = false
            /\ console s'
               = console s +:+ "Documentation coverage: "
                 +:+ "ERROR: Documentation incomplete: " +:+ Py.repr line
                 +:+ Py.nl))
  /\ (Forall (fun l => Re.search ReleaseReadiness.percentage_re l = None)
        (Py.splitlines (std_out r)) ->
      exists msg s',
        ReleaseReadiness.check_documentation_percentage env s
        = Raise (AssertionError msg) s'
        /\ release_ready s' = release_ready s)
  /\ (forall number rest,
        Py.all_chars Py.is_digit number = true ->
        number <> EmptyString ->
        Re.search ReleaseReadiness.percentage_re
          (number +:+ "% documentation coverage" +:+ rest)
        = Some (Re.MkMatch (number +:+ "% documentation coverage")
                  (Some number)))
  /\ (forall line,
        Py.all_chars Py.shown_as_is line = true ->
        Py.repr line = "'" +:+ line +:+ "'").
Proof.
  intros Hroot r Hr.
  pose proof (check_documentation_percentage_run env s Hroot Hr) as E.
  fold r in E. rewrite documentation_lines_eq in E.
  refine (conj _ (conj _ (conj search_percentage_re repr_plain))).
  - intros before line after m Hsplit Hbefore Hline.
    rewrite Hsplit, (first_percentage_found _ _ _ _ Hbefore Hline) in E.
    cbv [print print_flush printed set_not_ready bind] in E.
    cbn [release_ready cwd console files calls] in E.
    destruct (bool_decide (Re.group1 m = Some "100")) eqn:D.
    + apply bool_decide_eq_true in D. eexists. split; [exact E|].
      split; [|intros N; contradiction].
      intros _. cbn [release_ready console]. now rewrite !append_assoc.
    + apply bool_decide_eq_false in D. eexists. split; [exact E|].
      split; [intros N; contradiction|].
      intros _. cbn [release_ready console]. now rewrite !append_assoc.
  - intros Hnone. rewrite (first_percentage_none _ Hnone) in E.
    do 2 eexists. split; [exact E | reflexivity].
Qed.

(** C3 on the two sample repositories: 100% passes, 99% is reported. *)
Lemma documentation_check_witness :
  (exists s',
      ReleaseReadiness.check_documentation_percentage
        (Sample.table_env Sample.ready_table) Sample.start = Ok tt s'
      /\ release_ready s' = true
      /\ console s' = "Documentation coverage: ok" +:+ Py.nl)
  /\ (exists s',
      ReleaseReadiness.check_documentation_percentage
        (Sample.table_env Sample.failing_table) Sample.start = Ok tt s'
      /\ release_ready s' = false
      /\ console s'
         = "Documentation coverage: ERROR: Documentation incomplete: '99% documentation coverage with 4 undocumented symbols'"
           +:+ Py.nl).
Proof.
  split.
  - destruct (documentation_check (Sample.table_env Sample.ready_table)
                Sample.start eq_refl eq_refl) as [H _].
    destruct (H ["building site"]
                "100% documentation coverage with 0 undocumented symbols" []
                (Re.MkMatch "100% documentation coverage" (Some "100")))
      as (s' & E & P & _).
    + vm_compute; reflexivity.
    + repeat constructor.
    + vm_compute; reflexivity.
    + exists s'. destruct (P eq_refl) as [R C]. rewrite R, C.
      split; [exact E | split; [reflexivity | vm_compute; reflexivity]].
  - destruct (documentation_check (Sample.table_env Sample.failing_table)
                Sample.start eq_refl eq_refl) as [H _].
    destruct (H ["building site"]
                "99% documentation coverage with 4 undocumented symbols" []
                (Re.MkMatch "99% documentation coverage" (Some "99")))
      as (s' & E & _ & P).
    + vm_compute; reflexivity.
    + repeat constructor.
    + vm_compute; reflexivity.
    + exists s'. destruct P as [R C]; [discriminate|]. rewrite R, C.
      split; [exact E | split; [reflexivity | vm_compute; reflexivity]].
Defined.

(** C8.  With the repository root found and every line of the linter's
    standard error either ignored (it names [NoBlockComments]) or
    holding a [JacquardSDK/] path: the check returns; it clears the flag
    exactly when some line is not ignored, and then prints one bullet for
    each such line, in order, showing the line from its path on, which
    is the whole line when it starts with the path; with no such line, in
    particular with an empty standard error, it prints [ok] and leaves
    the flag. *)
Theorem swift_format_check (env : Env) (s : State) :
  root_found env s = true ->
  let r := popen env (after_root env s) ReleaseReadiness.swift_format_cmd in
  let lines := Py.splitlines (std_err r) in
  forallb (fun l => Gate.ignored l || Gate.has_path l) lines = true ->
  exists s',
    ReleaseReadiness.check_swift_format env s = Ok tt s'
    /\ (Gate.offending lines = [] ->
        release_ready s' = release_ready s
        /\ console s'
           = console s +:+ "Checking swift-format lint: " +:+ "ok" +:+ Py.nl)
    /\ (Gate.offending lines <> [] ->
        release_ready s' = false
        /\ console s'
           = console s +:+ "Checking swift-format lint: "
             +:+ Gate.listing (Gate.offending lines)
             +:+ "swift-format lint failed" +:+ Py.nl)
    /\ (std_err r = EmptyString -> Gate.offending lines = [])
    /\ (forall l, In l (Gate.offending lines)
                  <-> In l lines
                      /\ Re.search ReleaseReadiness.ignore_re l = None)
    /\ (forall rest,
          Py.all_chars Py.not_newline rest = true ->
          Gate.reported ("JacquardSDK/" +:+ rest) = "JacquardSDK/" +:+ rest).
Proof.
  intros Hroot r lines Hlines.
  assert (Forall (fun l => Gate.ignored l = true
                           \/ Re.search ReleaseReadiness.path_re l <> None)
            lines) as Hall.
  { apply List.Forall_forall. intros l Hl.
    apply (proj1 (forallb_forall _ _) Hlines) in Hl.
    apply orb_true_iff in Hl as [Hl|Hl]; [now left | right].
    unfold Gate.has_path in Hl.
    now destruct (Re.search ReleaseReadiness.path_re l). }
  pose proof (check_swift_format_run env s Hroot Hall) as E.
  fold r lines in E. eexists. split; [exact E|].
  cbn [release_ready console]. refine (conj _ (conj _ (conj _ (conj _ _)))).
  - intros H. rewrite H. split; [apply andb_true_r | reflexivity].
  - intros H. destruct (Gate.offending lines); [contradiction|].
    split; [apply andb_false_r | reflexivity].
  - intros H. unfold lines. now rewrite H.
  - intros l. unfold Gate.offending. rewrite filter_In. unfold Gate.ignored.
    destruct (Re.search ReleaseReadiness.ignore_re l); simpl; intuition congruence.
  - intros rest H. unfold Gate.reported.
    now rewrite (search_path_re_at_start rest H).
Qed.

(** C8 on the failing sample, whose linter reports one ignored line and
    one indentation warning. *)
Lemma swift_format_check_witness :
  exists s',
    ReleaseReadiness.check_swift_format
      (Sample.table_env Sample.failing_table) Sample.start = Ok tt s'
    /\ release_ready s' = false
    /\ console s'
       = "Checking swift-format lint:  * JacquardSDK/Classes/API/Tag.swift:20:3: warning: [Indentation] unindent by 2 spaces"
         +:+ Py.nl +:+ "swift-format lint failed" +:+ Py.nl.
Proof.
  destruct (swift_format_check (Sample.table_env Sample.failing_table)
              Sample.start eq_refl) as (s' & E & _ & P & _).
  - vm_compute; reflexivity.
  - exists s'. destruct P as [R C]; [vm_compute; discriminate|].
    rewrite R, C.
    split; [exact E | split; [reflexivity | vm_compute; reflexivity]].
Defined.

(** C5.  The failing-files list of the coverage check holds an entry
    exactly when the entry is not exempt and its [lineCoverage] is
    strictly below the threshold; a check that returns clears the flag
    exactly when that list is not empty.  The report value [0.8] is not
    below the threshold and [0.79999] is: a non-exempt entry at 0.8 is
    passed over and one at 0.79999 is added to the list. *)
Theorem coverage_threshold (file : Json.value) (path : string) :
  Gate.sdk_path file = Some path ->
  ReleaseReadiness.untestable path = false ->
  (forall files bad coverage,
      ReleaseReadiness.scan_files files [] = Val bad ->
      In file files ->
      Obj.item file "lineCoverage" = Val coverage ->
      (In (path, coverage) bad
       <-> Obj.lt_float coverage ReleaseReadiness.minimum_code_coverage
           = Val true))
  /\ (forall env s u s',
        ReleaseReadiness.check_code_coverage env s = Ok u s' ->
        exists out bad,
          coverage_report env s = Some out
          /\ ReleaseReadiness.coverage_bad_files out = Val bad
          /\ (release_ready s' = false
              <-> release_ready s = false \/ bad <> []))
  /\ (Json.loads "0.8" = Some (Json.JFloat 0.8%float)
      /\ (Obj.item file "lineCoverage" = Val (Json.JFloat 0.8%float) ->
          forall rest bad,
            ReleaseReadiness.scan_files (file :: rest) bad
            = ReleaseReadiness.scan_files rest bad))
  /\ (Json.loads "0.79999" = Some (Json.JFloat 0.79999%float)
      /\ (Obj.item file "lineCoverage" = Val (Json.JFloat 0.79999%float) ->
          forall rest bad,
            ReleaseReadiness.scan_files (file :: rest) bad
            = ReleaseReadiness.scan_files rest
                (bad ++ [(path, Json.JFloat 0.79999%float)]))).
Proof.
  intros Hpath Hexempt.
  assert (forall c low rest bad,
            Obj.item file "lineCoverage" = Val c ->
            Obj.lt_float c ReleaseReadiness.minimum_code_coverage = Val low ->
            ReleaseReadiness.scan_files (file :: rest) bad
            = ReleaseReadiness.scan_files rest
                (if low then bad ++ [(path, c)] else bad)) as Hstep.
  { intros c low rest bad Hc Hlow. cbn [ReleaseReadiness.scan_files].
    unfold Gate.sdk_path in Hpath.
    destruct (Obj.item file "path") as [[| | | |p| |]|]; try discriminate.
    cbn [rbind].
    destruct (Re.search ReleaseReadiness.path_re p) as [m|]; [|discriminate].
    injection Hpath as <-. rewrite Hexempt, Hc. cbn [rbind]. rewrite Hlow.
    cbn [rbind]. now destruct low. }
  refine (conj _ (conj _ (conj (conj _ _) (conj _ _)))).
  - intros files bad coverage Hscan Hin Hc.
    rewrite (in_bad_files _ _ _ _ Hscan). split.
    + intros (file' & _ & _ & _ & _ & L). exact L.
    + intros L. exists file. auto.
  - intros env s u s' H.
    apply check_code_coverage_report in H as (out & bad & R & V & F).
    exists out, bad. split; [exact R | split; [exact V|]]. rewrite F.
    destruct (release_ready s), bad; cbn [andb]; intuition congruence.
  - vm_compute; reflexivity.
  - intros Hc rest bad. now rewrite (Hstep _ false rest bad Hc eq_refl).
  - vm_compute; reflexivity.
  - intros Hc rest bad. now rewrite (Hstep _ true rest bad Hc eq_refl).
Qed.

(** C5 on the samples: [Tag.swift] at exactly 0.8 is not reported, and
    [Firmware.swift] at 0.79999 is the one failing file. *)
Lemma coverage_threshold_witness :
  let tag := Json.JDict
               [("path", Json.JStr (Sample.root +:+ "/JacquardSDK/Classes/API/Tag.swift"));
                ("lineCoverage", Json.JFloat 0.8%float)] in
  ReleaseReadiness.coverage_bad_files Sample.good_report = Val []
  /\ ReleaseReadiness.coverage_bad_files Sample.low_report
     = Val [("JacquardSDK/Classes/API/Firmware.swift", Json.JFloat 0.79999%float)]
  /\ forall rest bad,
       ReleaseReadiness.scan_files (tag :: rest) bad
       = ReleaseReadiness.scan_files rest bad.
Proof.
  intros tag.
  split; [vm_compute; reflexivity | split; [vm_compute; reflexivity|]].
  destruct (coverage_threshold tag "JacquardSDK/Classes/API/Tag.swift")
    as (_ & _ & [_ H] & _).
  - vm_compute; reflexivity.
  - vm_compute; reflexivity.
  - apply H. reflexivity.
Defined.

(** C4.  An entry whose path from [JacquardSDK/] on is in the untestable
    allow-list is passed over by the loop whatever its [lineCoverage]
    is, never stands in the failing-files list, and is never the reason
    the flag is cleared: a check that returns with the flag cleared, from
    a set flag, read a report with an entry that is not exempt and is
    below the threshold. *)
Theorem untestable_files_excluded (file : Json.value) (path : string) :
  Gate.sdk_path file = Some path ->
  ReleaseReadiness.untestable path = true ->
  (forall rest bad,
      ReleaseReadiness.scan_files (file :: rest) bad
      = ReleaseReadiness.scan_files rest bad)
  /\ (forall files bad coverage,
        ReleaseReadiness.scan_files files [] = Val bad ->
        ~ In (path, coverage) bad)
  /\ (forall env s u s',
        ReleaseReadiness.check_code_coverage env s = Ok u s' ->
        release_ready s = true -> release_ready s' = false ->
        exists out files other path' coverage,
          coverage_report env s = Some out
          /\ Gate.report_files out = Some files
          /\ In other files
          /\ Gate.sdk_path other = Some path'
          /\ ReleaseReadiness.untestable path' = false
          /\ Obj.item other "lineCoverage" = Val coverage
          /\ Obj.lt_float coverage ReleaseReadiness.minimum_code_coverage
             = Val true).
Proof.
  intros Hpath Hexempt. refine (conj _ (conj _ _)).
  - intros rest bad. cbn [ReleaseReadiness.scan_files].
    unfold Gate.sdk_path in Hpath.
    destruct (Obj.item file "path") as [[| | | |p| |]|]; try discriminate.
    cbn [rbind].
    destruct (Re.search ReleaseReadiness.path_re p) as [m|]; [|discriminate].
    injection Hpath as <-. now rewrite Hexempt.
  - intros files bad coverage Hscan Hin.
    apply (in_bad_files _ _ _ _ Hscan) in Hin as (other & _ & _ & U & _).
    congruence.
  - intros env s u s' H Hs Hs'.
    apply check_code_coverage_report in H as (out & bad & R & V & F).
    rewrite Hs, Hs' in F.
    destruct bad as [|[path' coverage] bad]; [discriminate|].
    apply coverage_bad_files_Val in V as (files & RF & _ & Hscan).
    assert (In (path', coverage) ((path', coverage) :: bad)) as Hin by now left.
    apply (in_bad_files _ _ _ _ Hscan) in Hin as (other & I & P & U & C & L).
    exists out, files, other, path', coverage. auto 10.
Qed.

(** C4 on the samples: [Peripheral.swift] is on the allow-list and
    reports a coverage of 0.1; it is passed over, and the report that
    holds it has an empty failing-files list. *)
Lemma untestable_files_excluded_witness :
  let peripheral :=
    Json.JDict
      [("path", Json.JStr (Sample.root
                           +:+ "/JacquardSDK/Classes/Internal/Transport/Peripheral.swift"));
       ("lineCoverage", Json.JFloat 0.1%float)] in
  (forall rest bad,
      ReleaseReadiness.scan_files (peripheral :: rest) bad
      = ReleaseReadiness.scan_files rest bad)
  /\ ReleaseReadiness.coverage_bad_files Sample.good_report = Val []
  /\ Obj.lt_float (Json.JFloat 0.1%float) ReleaseReadiness.minimum_code_coverage
     = Val true.
Proof.
  intros peripheral.
  destruct (untestable_files_excluded peripheral
              "JacquardSDK/Classes/Internal/Transport/Peripheral.swift")
    as (H & _ & _).
  - vm_compute; reflexivity.
  - vm_compute; reflexivity.
  - split; [exact H | split; vm_compute; reflexivity].
Defined.

(** C10.  A report with a single product that lists five files or fewer
    stops the coverage check on the assertion about the number of files,
    whatever the coverage of those files, with the flag as it was; the
    loop over the files is reached only by a report with more than five. *)
Theorem short_report_aborts (out : string) (product : Json.value)
    (files : list Json.value) :
  Json.loads out = Some (Json.JList [product]) ->
  Obj.item product "files" = Val (Json.JList files) ->
  List.length files <= 5 ->
  ReleaseReadiness.coverage_bad_files out
  = Exc (AssertionError "Expecting some files in coverage report json")
  /\ (forall env s,
        coverage_report env s = Some out ->
        exists s',
          ReleaseReadiness.check_code_coverage env s
          = Raise (AssertionError "Expecting some files in coverage report json") s'
          /\ release_ready s' = release_ready s
          /\ console s' = console s +:+ "Code coverage: ")
  /\ (forall out' bad,
        ReleaseReadiness.coverage_bad_files out' = Val bad ->
        exists files',
          Gate.report_files out' = Some files'
          /\ 5 < List.length files'
          /\ ReleaseReadiness.scan_files files' [] = Val bad).
Proof.
  intros Hloads Hfiles Hlen.
  assert (ReleaseReadiness.coverage_bad_files out
          = Exc (AssertionError "Expecting some files in coverage report json"))
    as Habort.
  { unfold ReleaseReadiness.coverage_bad_files. rewrite Hloads.
    cbn [rbind Obj.len List.length Nat.eqb negb Obj.first]. rewrite Hfiles.
    cbn [rbind Obj.len].
    destruct (5 <? List.length files)%nat eqn:E; [|reflexivity].
    apply Nat.ltb_lt in E. lia. }
  refine (conj Habort (conj _ _)).
  - intros env s R.
    destruct (check_code_coverage_run env s out R) as (s1 & F & _ & C & ->).
    rewrite Habort. exists s1. auto.
  - intros out' bad. apply coverage_bad_files_Val.
Qed.

(** C10 on the sample report of five files, all at or above the
    threshold or exempt. *)
Lemma short_report_aborts_witness :
  ReleaseReadiness.coverage_bad_files Sample.short_report
  = Exc (AssertionError "Expecting some files in coverage report json").
Proof.
  destruct (Json.loads Sample.short_report) as [[| | | | |[|product []]|]|] eqn:L;
    try (vm_compute in L; discriminate L).
  destruct (Obj.item product "files") as [[| | | | |files|]|] eqn:F;
    try (vm_compute in L; injection L as <-; vm_compute in F; discriminate F).
  apply (short_report_aborts Sample.short_report product files L F).
  vm_compute in L. injection L as <-. vm_compute in F. injection F as <-.
  simpl. lia.
Defined.

(** C2.  When version control gives the short hash [abc1234] and the
    commit date [2021-01-01 00:00:00 +0000], the stamper writes, at the
    build-hash path under the repository root, a text that [json.loads]
    reads as the object with exactly the fields [buildHash] and
    [buildDate], holding those two strings as they came; no other file
    changes. *)
Theorem stamp_of_abc1234 (env : Env) (s : State) (git : string)
    (s1 s2 s3 s4 : State) :
  UpdateBuildHash.which_git env s = Ok git s1 ->
  UpdateBuildHash.git_sha env git s1 = Ok "abc1234" s2 ->
  UpdateBuildHash.git_date env git s2 = Ok "2021-01-01 00:00:00 +0000" s3 ->
  cd_to_git_root env s3 = Ok tt s4 ->
  writable env (calls s4) (resolve (cwd s4) UpdateBuildHash.build_hash_path)
  = true ->
  exists s' text,
    UpdateBuildHash.main env s = Ok tt s'
    /\ files s' !! resolve (cwd s4) UpdateBuildHash.build_hash_path = Some text
    /\ Json.loads text
       = Some (Json.JDict
                 [("buildHash", Json.JStr "abc1234");
                  ("buildDate", Json.JStr "2021-01-01 00:00:00 +0000")])
    /\ (forall other,
          other <> resolve (cwd s4) UpdateBuildHash.build_hash_path ->
          files s' !! other = files s !! other).
Proof.
  intros H1 H2 H3 H4 Hw.
  destruct (main_writes env _ _ _ _ _ _ _ _ _ H1 H2 H3 H4 Hw) as (s' & E & F).
  exists s', (UpdateBuildHash.build_hash_text "abc1234" "2021-01-01 00:00:00 +0000").
  split; [exact E|]. rewrite F. split; [apply lookup_insert_eq|].
  split; [vm_compute; reflexivity|].
  intros other Hother. now apply lookup_insert_ne.
Qed.

(** C2 with git answering [abc1234] and that date. *)
Lemma stamp_of_abc1234_witness :
  exists s' text,
    UpdateBuildHash.main
      (Sample.table_env
         (Sample.stamp_table "abc1234" "2021-01-01 00:00:00 +0000"))
      Sample.start = Ok tt s'
    /\ files s' !! (Sample.root +:+ "/Example/JacquardSDK/BuildHash.json")
       = Some text
    /\ Json.loads text
       = Some (Json.JDict
                 [("buildHash", Json.JStr "abc1234");
                  ("buildDate", Json.JStr "2021-01-01 00:00:00 +0000")]).
Proof.
  set (env := Sample.table_env
                (Sample.stamp_table "abc1234" "2021-01-01 00:00:00 +0000")).
  set (s1 := final (UpdateBuildHash.which_git env Sample.start)).
  set (s2 := final (UpdateBuildHash.git_sha env "/usr/bin/git" s1)).
  set (s3 := final (UpdateBuildHash.git_date env "/usr/bin/git" s2)).
  set (s4 := final (cd_to_git_root env s3)).
  destruct (stamp_of_abc1234 env Sample.start "/usr/bin/git" s1 s2 s3 s4)
    as (s' & text & E & F & L & _); [vm_compute; reflexivity .. |].
  exists s', text. split; [exact E | split; [exact F | exact L]].
Defined.

(** C9.  Whatever version control answers, the stamper writes the stamp
    text of the hash and the date.  When both strings hold no control
    character, no double quote and no backslash, [json.loads] reads that
    text as the object with exactly the two fields holding them; for a
    hash with a double quote in it the text is not JSON, since the
    strings are put between the quotes as they are. *)
Theorem stamp_is_json_when_plain (env : Env) (s : State) (git sha date : string)
    (s1 s2 s3 s4 : State) :
  UpdateBuildHash.which_git env s = Ok git s1 ->
  UpdateBuildHash.git_sha env git s1 = Ok sha s2 ->
  UpdateBuildHash.git_date env git s2 = Ok date s3 ->
  cd_to_git_root env s3 = Ok tt s4 ->
  writable env (calls s4) (resolve (cwd s4) UpdateBuildHash.build_hash_path)
  = true ->
  (exists s',
      UpdateBuildHash.main env s = Ok tt s'
      /\ files s' !! resolve (cwd s4) UpdateBuildHash.build_hash_path
         = Some (UpdateBuildHash.build_hash_text sha date))
  /\ (json_safe sha = true -> json_safe date = true ->
      Json.loads (UpdateBuildHash.build_hash_text sha date)
      = Some (Json.JDict [("buildHash", Json.JStr sha);
                          ("buildDate", Json.JStr date)]))
  /\ (sha = "abc" +:+ Py.dquote +:+ "1234" ->
      Py.contains Py.dquote sha = true
      /\ Json.loads (UpdateBuildHash.build_hash_text sha "2021-01-01 00:00:00 +0000")
         = None).
Proof.
  intros H1 H2 H3 H4 Hw.
  destruct (main_writes env _ _ _ _ _ _ _ _ _ H1 H2 H3 H4 Hw) as (s' & E & F).
  split; [|split].
  - exists s'. split; [exact E|]. rewrite F. apply lookup_insert_eq.
  - apply loads_build_hash_text.
  - intros ->. split; vm_compute; reflexivity.
Qed.

(** C9 with a hash that holds a double quote: the file is written and
    its text is rejected by [json.loads]. *)
Lemma stamp_is_json_when_plain_witness :
  let sha := "abc" +:+ Py.dquote +:+ "1234" in
  let date := "2021-01-01 00:00:00 +0000" in
  exists s',
    UpdateBuildHash.main (Sample.table_env (Sample.stamp_table sha date))
      Sample.start = Ok tt s'
    /\ files s' !! (Sample.root +:+ "/Example/JacquardSDK/BuildHash.json")
       = Some (UpdateBuildHash.build_hash_text sha date)
    /\ Json.loads (UpdateBuildHash.build_hash_text sha date) = None.
Proof.
  intros sha date.
  set (env := Sample.table_env (Sample.stamp_table sha date)).
  set (s1 := final (UpdateBuildHash.which_git env Sample.start)).
  set (s2 := final (UpdateBuildHash.git_sha env "/usr/bin/git" s1)).
  set (s3 := final (UpdateBuildHash.git_date env "/usr/bin/git" s2)).
  set (s4 := final (cd_to_git_root env s3)).
  destruct (stamp_is_json_when_plain env Sample.start "/usr/bin/git" sha date
              s1 s2 s3 s4)
    as ((s' & E & F) & _ & N); [vm_compute; reflexivity .. |].
  exists s'. split; [exact E | split; [exact F|]].
  now destruct (N eq_refl).
Defined.

(** * Further properties of the scripts *)

(** ** More on text *)

Section Text.
Local Arguments String.append !_ _ / : simpl nomatch.

Lemma rstrip_spaces ws : Py.all_chars Py.isspace ws = true -> Py.rstrip ws = "".
Proof.
  induction ws as [|c ws IH]; [reflexivity|]. cbn [Py.all_chars Py.rstrip].
  intros [Hc Hs]%andb_true_iff. now rewrite (IH Hs), Hc.
Qed.

(** Trailing whitespace does not count for [rstrip]. *)
Lemma rstrip_append s ws :
  Py.all_chars Py.isspace ws = true -> Py.rstrip (s +:+ ws) = Py.rstrip s.
Proof.
  intros H. induction s as [|c s IH]; cbn [String.append Py.rstrip].
  - now apply rstrip_spaces.
  - now rewrite IH.
Qed.

Lemma rstrip_newline s : Py.rstrip s = s -> Py.rstrip (s +:+ Py.nl) = s.
Proof. intros H. now rewrite rstrip_append. Qed.

Lemma lstrip_append ws s :
  Py.all_chars Py.isspace ws = true -> Py.lstrip (ws +:+ s) = Py.lstrip s.
Proof.
  induction ws as [|c ws IH]; [reflexivity|]. cbn [Py.all_chars String.append Py.lstrip].
  intros [Hc Hs]%andb_true_iff. now rewrite Hc, IH.
Qed.

Lemma after_prefix_Some lit s rest :
  Py.after_prefix lit s = Some rest -> s = lit +:+ rest.
Proof.
  revert s. induction lit as [|c lit IH]; intros s; cbn [Py.after_prefix String.append].
  - now intros [= ->].
  - destruct s as [|c' s]; [discriminate|].
    destruct (Ascii.eqb c c') eqn:E; [|discriminate].
    apply Ascii.eqb_eq in E as <-. intros H. now rewrite (IH _ H).
Qed.

Lemma all_chars_append p a b :
  Py.all_chars p (a +:+ b) = Py.all_chars p a && Py.all_chars p b.
Proof.
  induction a as [|c a IH]; cbn [String.append Py.all_chars]; [reflexivity|].
  now rewrite IH, andb_assoc.
Qed.

Lemma rstrip_keeps_front a b :
  Py.rstrip b <> "" -> Py.rstrip (a +:+ b) = a +:+ Py.rstrip b.
Proof.
  intros H. induction a as [|c a IH]; cbn [String.append Py.rstrip]; [reflexivity|].
  rewrite IH. destruct a; cbn [String.append]; [|reflexivity].
  now destruct (Py.rstrip b).
Qed.

(** [strip] gives the text between the whitespace around it. *)
Lemma strip_padded pad body tail :
  Py.all_chars Py.isspace pad = true -> Py.all_chars Py.isspace tail = true ->
  Py.lstrip body = body -> Py.rstrip body = body ->
  Py.strip (pad +:+ body +:+ tail) = body.
Proof.
  intros Hpad Htail Hl Hr. unfold Py.strip.
  rewrite <- append_assoc, rstrip_append by exact Htail.
  destruct body as [|c body].
  - rewrite append_empty_r, rstrip_spaces by exact Hpad. reflexivity.
  - rewrite rstrip_keeps_front by (rewrite Hr; discriminate).
    now rewrite Hr, lstrip_append.
Qed.

End Text.

(** ** What the patterns have matched *)

Section PatternsInverted.
Import ReleaseReadiness.
Local Arguments String.append !_ _ / : simpl nomatch.

(** What [[0-9]*] read is a run of digits. *)
Lemma star_digits_inv {R} n s g (k : string -> option string -> option R) v :
  Re.matches n (Re.Star (Re.Range "0" "9")) s g k = Some v ->
  exists ds rest,
    s = ds +:+ rest /\ Py.all_chars Py.is_digit ds = true /\ k rest g = Some v.
Proof.
  revert v. induction s as [|c s IH]; intros v.
  - cbn [Re.matches String.length]. intros H. now exists "", "".
  - cbn [Re.matches String.length] in *.
    change (Py.between (Py.code "0") (Py.code "9") c) with (Py.is_digit c).
    destruct (Py.is_digit c) eqn:Hc.
    + assert (Nat.ltb (String.length s) (S (String.length s)) = true) as ->
        by (apply Nat.ltb_lt; lia).
      match goal with
      | |- match ?inner with Some _ => _ | None => _ end = _ -> _ =>
          destruct inner as [res|] eqn:E
      end.
      * intros [= <-]. destruct (IH res eq_refl) as (ds & rest & -> & Hds & Hk).
        exists (String c ds), rest. cbn [String.append Py.all_chars].
        now rewrite Hc, Hds.
      * intros H. now exists "", (String c s).
    + intros H. now exists "", (String c s).
Qed.

Lemma search_from_percentage_short n s :
  String.length s < n -> Re.search_from n percentage_re s = None.
Proof.
  induction s as [|c s IH]; intros H; cbn [Re.search_from];
    unfold Re.match_here, percentage_re; rewrite matches_Seq, matches_Bol;
    (replace (Nat.eqb _ n) with false by (symmetry; apply Nat.eqb_neq; lia)).
  - reflexivity.
  - apply IH. cbn [String.length] in H. lia.
Qed.

Lemma search_percentage_re_inv line m :
  Re.search percentage_re line = Some m ->
  exists number rest,
    line = number +:+ "% documentation coverage" +:+ rest
    /\ Py.all_chars Py.is_digit number = true
    /\ number <> EmptyString
    /\ m = Re.MkMatch (number +:+ "% documentation coverage") (Some number).
Proof.
  unfold Re.search. intros H.
  assert (Re.match_here (String.length line) percentage_re line = Some m) as E.
  { destruct line as [|c line]; cbn [Re.search_from] in H.
    - now destruct (Re.match_here _ _ _).
    - destruct (Re.match_here _ _ _); [exact H|].
      rewrite search_from_percentage_short in H; [discriminate|].
      cbn [String.length]. lia. }
  clear H. unfold Re.match_here, percentage_re, Re.Plus in E.
  rewrite matches_Seq, matches_Bol, Nat.eqb_refl in E.
  rewrite matches_Seq, matches_Group, matches_Seq in E.
  destruct line as [|d line]; [discriminate|].
  rewrite matches_Range in E.
  change (Py.between (Py.code "0") (Py.code "9") d) with (Py.is_digit d) in E.
  destruct (Py.is_digit d) eqn:Hd; [|discriminate].
  apply star_digits_inv in E as (ds & tail & -> & Hds & E).
  rewrite matches_Lit in E.
  destruct (Py.after_prefix _ tail) as [rest|] eqn:P; [|discriminate].
  apply after_prefix_Some in P as ->. injection E as <-.
  exists (String d ds), rest.
  split; [reflexivity|]. split; [cbn [Py.all_chars]; now rewrite Hd, Hds|].
  split; [discriminate|]. f_equal.
  - match goal with
    | |- Re.consumed ?l rest = _ =>
        replace l with ((String d ds +:+ "% documentation coverage") +:+ rest)
          by (rewrite append_assoc; reflexivity)
    end.
    apply consumed_append.
  - f_equal.
    match goal with
    | |- Re.consumed ?l ?t = _ =>
        change (Re.consumed (String d ds +:+ t) t = String d ds)
    end.
    apply consumed_append.
Qed.

(** A literal pattern is found exactly in the texts that hold it. *)
Lemma search_from_Lit_found n lit a b :
  Re.search_from n (Re.Lit lit) (a +:+ lit +:+ b) <> None.
Proof.
  induction a as [|c a IH]; cbn [String.append].
  - assert (Re.match_here n (Re.Lit lit) (lit +:+ b) <> None) as E.
    { unfold Re.match_here. rewrite matches_Lit, after_prefix_append. discriminate. }
    destruct (lit +:+ b); cbn [Re.search_from];
      destruct (Re.match_here _ _ _); congruence.
  - cbn [Re.search_from]. destruct (Re.match_here _ _ _); [discriminate | exact IH].
Qed.

Lemma search_from_Lit_inv n lit s m :
  Re.search_from n (Re.Lit lit) s = Some m ->
  exists a b, s = a +:+ lit +:+ b.
Proof.
  assert (forall t, Re.match_here n (Re.Lit lit) t <> None ->
                    exists b, t = lit +:+ b) as Here.
  { intros t. unfold Re.match_here. rewrite matches_Lit.
    destruct (Py.after_prefix lit t) as [b|] eqn:P; [|congruence].
    intros _. exists b. now apply after_prefix_Some. }
  induction s as [|c s IH]; cbn [Re.search_from].
  - destruct (Re.match_here _ _ _) eqn:E; [|discriminate].
    intros _. destruct (Here "") as [b Hb]; [congruence|]. now exists "", b.
  - destruct (Re.match_here _ _ _) eqn:E.
    + intros _. destruct (Here (String c s)) as [b Hb]; [congruence|].
      now exists "", b.
    + intros H. destruct (IH H) as (a & b & ->). now exists (String c a), b.
Qed.

Lemma match_here_path_re n s :
  Py.all_chars Py.not_newline s = true ->
  Re.match_here n path_re s
  = match Py.after_prefix "JacquardSDK/" s with
    | Some _ => Some (Re.MkMatch s None)
    | None => None
    end.
Proof.
  intros Hs. unfold Re.match_here, path_re. rewrite matches_Seq, matches_Lit.
  destruct (Py.after_prefix "JacquardSDK/" s) as [rest|] eqn:P; [|reflexivity].
  apply after_prefix_Some in P. rewrite P in Hs.
  rewrite all_chars_append in Hs. apply andb_true_iff in Hs as [_ Hrest].
  erewrite star_dot_all; [reflexivity | exact Hrest |].
  now rewrite consumed_all.
Qed.

Lemma search_from_path_re n s :
  Py.all_chars Py.not_newline s = true ->
  Re.search_from n path_re s
  = match from_first "JacquardSDK/" s with
    | Some t => Some (Re.MkMatch t None)
    | None => None
    end.
Proof.
  induction s as [|c s IH]; intros Hs.
  - reflexivity.
  - cbn [Re.search_from from_first]. rewrite (match_here_path_re n _ Hs).
    destruct (Py.after_prefix "JacquardSDK/" (String c s)); [reflexivity|].
    cbn [Py.all_chars] in Hs. apply andb_true_iff in Hs as [_ Hs]. now apply IH.
Qed.

Lemma from_first_suffix lit s t :
  from_first lit s = Some t ->
  exists before rest, s = before +:+ t /\ t = lit +:+ rest.
Proof.
  induction s as [|c s IH]; cbn [from_first].
  - destruct (Py.after_prefix lit "") as [rest|] eqn:P; [|discriminate].
    intros [= <-]. exists "", rest. split; [reflexivity|].
    now apply after_prefix_Some.
  - destruct (Py.after_prefix lit (String c s)) as [rest|] eqn:P.
    + intros [= <-]. exists "", rest. split; [reflexivity|].
      now apply after_prefix_Some.
    + intros H. destruct (IH H) as (before & rest & -> & ->).
      exists (String c before), rest. split; reflexivity.
Qed.

Lemma from_first_found lit before rest :
  from_first lit (before +:+ lit +:+ rest) <> None.
Proof.
  induction before as [|c before IH]; cbn [String.append].
  - pose proof (after_prefix_append lit rest) as H.
    destruct (lit +:+ rest); cbn [from_first]; now rewrite H.
  - cbn [from_first]. now destruct (Py.after_prefix _ (String c _)).
Qed.

(** [.*] first tries to read on, then to stop. *)
Lemma star_dot_step {R} n c s g (k : string -> option string -> option R) :
  (Py.code c =? 10)%N = false ->
  Re.matches n (Re.Star Re.Dot) (String c s) g k
  = match Re.matches n (Re.Star Re.Dot) s g k with
    | Some v => Some v
    | None => k (String c s) g
    end.
Proof.
  intros Hc. cbn [Re.matches String.length]. rewrite Hc.
  assert (Nat.ltb (String.length s) (S (String.length s)) = true) as ->
    by (apply Nat.ltb_lt; lia).
  reflexivity.
Qed.

(** [.*] stops at the end of the text and at a line feed. *)
Lemma star_dot_stop {R} n s g (k : string -> option string -> option R) :
  s = EmptyString \/ (exists t, s = Py.nl +:+ t) ->
  Re.matches n (Re.Star Re.Dot) s g k = k s g.
Proof. intros [->|[t ->]]; reflexivity. Qed.

Lemma star_dot_then_xcresult {R} n body tail g
    (k : string -> option string -> option R) v :
  Py.all_chars Py.not_newline body = true ->
  tail = EmptyString \/ (exists t, tail = Py.nl +:+ t) ->
  k tail g = Some v ->
  Re.matches n (Re.Seq (Re.Star Re.Dot) (Re.Lit ".xcresult"))
    (body +:+ ".xcresult" +:+ tail) g k = Some v.
Proof.
  intros Hbody Htail Hk. rewrite matches_Seq.
  induction body as [|c body IH].
  - cbn [String.append]. rewrite !star_dot_step by reflexivity.
    rewrite (star_dot_stop n tail) by exact Htail.
    rewrite !matches_Lit.
    assert (Py.after_prefix ".xcresult" tail = None) as ->
      by (destruct Htail as [->|[t ->]]; reflexivity).
    cbn [Py.after_prefix Ascii.eqb Bool.eqb]. exact Hk.
  - cbn [Py.all_chars] in Hbody. apply andb_true_iff in Hbody as [Hc Hbody].
    unfold Py.not_newline in Hc. apply negb_true_iff in Hc.
    change (String c body +:+ ".xcresult" +:+ tail)
      with (String c (body +:+ ".xcresult" +:+ tail)).
    rewrite (star_dot_step n c) by exact Hc.
    now rewrite (IH Hbody).
Qed.

Lemma search_from_skips_no_slash n pre s :
  Py.all_chars not_slash pre = true ->
  Re.search_from n xcresult_re (pre +:+ String "/" s)
  = Re.search_from n xcresult_re (String "/" s).
Proof.
  induction pre as [|c pre IH]; intros H; [reflexivity|].
  cbn [Py.all_chars] in H. apply andb_true_iff in H as [Hc Hpre].
  cbn [String.append]. rewrite <- (IH Hpre).
  change (Re.search_from n xcresult_re (String c (pre +:+ String "/" s)))
    with (match Re.match_here n xcresult_re (String c (pre +:+ String "/" s)) with
          | Some m => Some m
          | None => Re.search_from n xcresult_re (pre +:+ String "/" s)
          end).
  unfold Re.match_here at 1, xcresult_re at 1.
  rewrite matches_Seq, matches_Lit. cbn [Py.after_prefix].
  assert (Ascii.eqb "/" c = false) as ->; [|reflexivity].
  apply Ascii.eqb_neq. intros <-. discriminate Hc.
Qed.

Lemma search_from_here n r s m :
  Re.match_here n r s = Some m -> Re.search_from n r s = Some m.
Proof. intros H. destruct s; cbn [Re.search_from]; now rewrite H. Qed.

End PatternsInverted.

(** ** More on runs *)

(** Normalise the states of a run that was evaluated forward. *)
Ltac at_root_view env s :=
  unfold at_root, printed;
  cbn [calls release_ready cwd console files];
  change (root_dir env _) with (root_dir env s);
  change (after_root env _) with (after_root env s).

Section RunsForward.
Import Json ReleaseReadiness.

Lemma swift_format_lines_app err lines1 lines2 acc s :
  swift_format_lines err (lines1 ++ lines2) acc s
  = (do b <- swift_format_lines err lines1 acc;
     swift_format_lines err lines2 b) s.
Proof.
  revert acc s. induction lines1 as [|line rest IH]; intros acc s.
  - reflexivity.
  - cbn [app swift_format_lines].
    destruct (Re.search ignore_re line); [apply IH|].
    destruct (Re.search path_re line); [|reflexivity].
    unfold bind at 1 3. unfold print, print_flush. apply IH.
Qed.

Lemma report_bad_files_run env bad s :
  report_bad_files env bad s
  = Ok tt (MkState
             (release_ready s && match bad with [] => true | _ => false end)
             (cwd s) (console s +:+ bad_files_listing env bad) (files s)
             (calls s)).
Proof.
  revert s. induction bad as [|file rest IH]; intros s.
  - cbn [report_bad_files bad_files_listing]. unfold ret.
    rewrite andb_true_r, append_empty_r. now destruct s.
  - cbn [report_bad_files bad_files_listing].
    unfold bind, print, print_flush, set_not_ready, printed. rewrite IH.
    cbn [release_ready cwd console files calls andb].
    now rewrite andb_false_r, !append_assoc.
Qed.

Lemma scan_files_app files1 files2 bad :
  scan_files (files1 ++ files2) bad
  = (try b <- scan_files files1 bad; scan_files files2 b).
Proof.
  revert bad. induction files1 as [|file rest IH]; intros bad; [reflexivity|].
  cbn [app scan_files].
  destruct (Obj.item file "path") as [[| | | |p| |]|]; cbn [rbind]; try reflexivity.
  destruct (Re.search path_re p) as [m|]; [|reflexivity].
  destruct (untestable _); [apply IH|].
  destruct (Obj.item file "lineCoverage") as [c|]; cbn [rbind]; [|reflexivity].
  destruct (Obj.lt_float c minimum_code_coverage) as [[|]|]; cbn [rbind];
    [apply IH | apply IH | reflexivity].
Qed.

Lemma scan_files_readable file rest bad :
  (readable_entry file = true ->
   exists bad1, scan_files (file :: rest) bad = scan_files rest bad1)
  /\ (readable_entry file = false ->
      exists e, scan_files (file :: rest) bad = Exc e).
Proof.
  unfold readable_entry. cbn [scan_files].
  destruct (Obj.item file "path") as [[| | | |p| |]|]; cbn [rbind];
    try (split; [discriminate | eauto]).
  destruct (Re.search path_re p) as [m|]; [|split; [discriminate | eauto]].
  destruct (untestable _); cbn [orb]; [split; [eauto | discriminate]|].
  destruct (Obj.item file "lineCoverage") as [c|]; cbn [rbind];
    [|split; [discriminate | eauto]].
  destruct (Obj.lt_float c minimum_code_coverage) as [[|]|]; cbn [rbind];
    split; (discriminate || eauto).
Qed.

Lemma run_checks_is_sequence env s :
  run_checks env s = sequence (checks env) s.
Proof.
  unfold run_checks, checks, sequence, bind, ret.
  repeat match goal with
    | |- context [match ?m ?t with Ok _ _ => _ | Raise _ _ => _ end] =>
        destruct (m t) as [[] ?|? ?]
    end; reflexivity.
Qed.

Lemma int_below_threshold n :
  Obj.int_lt_float n minimum_code_coverage = (n <=? 0)%Z.
Proof.
  unfold Obj.int_lt_float.
  assert (Prim2SF minimum_code_coverage
          = S754_finite false 7205759403792794 (-53)) as ->
    by (vm_compute; reflexivity).
  cbn [Z.leb Z.compare Z.opp]. 
  change (0 <=? -53)%Z with false. cbv iota.
  apply eq_true_iff_eq. rewrite Z.ltb_lt, Z.leb_le.
  change (2 ^ 53)%Z with 9007199254740992%Z. lia.
Qed.

(** A query of the stamper: run [cmd], assert on its status, give back
    its output without the trailing whitespace. *)
Lemma query_run env cmd msg s :
  (do r <- exec_cmd env cmd;
   do _ <- assert (returncode r =? 0)%Z msg;
   ret (Py.rstrip (std_out r))) s
  = let r := popen env (calls s) cmd in
    let s' := MkState (release_ready s) (cwd s) (console s) (files s)
                (calls s ++ [(cmd, r)]) in
    if (returncode r =? 0)%Z then Ok (Py.rstrip (std_out r)) s'
    else Raise (AssertionError msg) s'.
Proof.
  unfold bind, exec_cmd, assert, ret, raise. cbv zeta.
  now destruct (returncode _ =? 0)%Z.
Qed.

End RunsForward.

(** ** Runs in steady surroundings *)

Section SteadyRuns.
Import Json ReleaseReadiness.
Variable env : Env.
Variable tools : string -> CmdResult.
Variable dirs : string -> bool.
(** The surroundings answer the same whatever was asked before. *)
Hypothesis steady_popen : forall log cmd, popen env log cmd = tools cmd.
Hypothesis steady_isdir : forall log path, isdir env log path = dirs path.
Hypothesis absolute : String.prefix "/" (Steady.named_root tools) = true.

Lemma resolve_root dir : resolve dir (Steady.named_root tools) = Steady.named_root tools.
Proof. unfold resolve. now rewrite absolute. Qed.

Lemma root_dir_steady s : root_dir env s = Steady.named_root tools.
Proof. unfold root_dir, root_answer. now rewrite steady_popen. Qed.

Lemma root_found_steady s : root_found env s = Steady.root_ok tools dirs.
Proof.
  unfold root_found, Steady.root_ok, root_dir, root_answer, after_root.
  rewrite steady_popen, steady_isdir.
  fold (Steady.named_root tools). rewrite resolve_root.
  destruct (Steady.named_root tools) eqn:E; [discriminate absolute|].
  reflexivity.
Qed.















End SteadyRuns.

Section StamperForward.
Import UpdateBuildHash.

(** The stamper when its four subprocesses exit with status 0. *)
Lemma stamper_closed (env : Env) (s : State) :
  let r1 := popen env (calls s) which_git_cmd in
  let git := Py.rstrip (std_out r1) in
  let log1 := (calls s ++ [(which_git_cmd, r1)])%list in
  let r2 := popen env log1 (git +:+ " rev-parse --short HEAD") in
  let log2 := (log1 ++ [(git +:+ " rev-parse --short HEAD", r2)])%list in
  let r3 := popen env log2 (git +:+ " show -s --format=%ci HEAD") in
  let asked := MkState (release_ready s) (cwd s) (console s) (files s)
                 (log2 ++ [(git +:+ " show -s --format=%ci HEAD", r3)]) in
  let path := resolve (resolve (cwd s) (root_dir env asked)) build_hash_path in
  returncode r1 = 0%Z -> returncode r2 = 0%Z -> returncode r3 = 0%Z ->
  root_found env asked = true ->
  writable env (after_root env asked) path = true ->
  main env s
  = Ok tt (MkState (release_ready s) (resolve (cwd s) (root_dir env asked))
             (console s)
             (<[path := build_hash_text (Py.rstrip (std_out r2))
                          (Py.rstrip (std_out r3))]> (files s))
             (after_root env asked)).
Proof.
  intros r1 git log1 r2 log2 r3 asked path H1 H2 H3 Hroot Hw.
  apply Z.eqb_eq in H1, H2, H3. unfold main.
  erewrite bind_step.
  2:{ unfold which_git. rewrite query_run. cbv zeta. fold r1. rewrite H1.
      reflexivity. }
  fold git. fold log1. erewrite bind_step.
  2:{ unfold git_sha. rewrite query_run. cbv zeta. cbn [calls]. fold r2.
      rewrite H2. reflexivity. }
  cbn [release_ready cwd console files]. fold log2. erewrite bind_step.
  2:{ unfold git_date. rewrite query_run. cbv zeta. cbn [calls]. fold r3.
      rewrite H3. reflexivity. }
  cbn [release_ready cwd console files]. fold asked.
  erewrite bind_step by (apply cd_to_git_root_found; exact Hroot).
  unfold open_w, write, assert, bind, ret, at_root.
  cbn [release_ready cwd console files calls].
  change (writable env _ _) with (writable env (after_root env asked) path).
  rewrite Hw. cbn [release_ready cwd console files calls].
  change (resolve (resolve _ _) build_hash_path) with path.
  now rewrite lookup_insert_eq, insert_insert_eq.
Qed.

Lemma stamper_steady env tools dirs s :
  (forall log cmd, popen env log cmd = tools cmd) ->
  (forall log path, isdir env log path = dirs path) ->
  (forall log path, writable env log path = true) ->
  String.prefix "/" (Steady.named_root tools) = true ->
  let git := Py.rstrip (std_out (tools which_git_cmd)) in
  let sha := tools (git +:+ " rev-parse --short HEAD") in
  let date := tools (git +:+ " show -s --format=%ci HEAD") in
  returncode (tools which_git_cmd) = 0%Z ->
  returncode sha = 0%Z -> returncode date = 0%Z ->
  Steady.root_ok tools dirs = true ->
  exists s',
    main env s = Ok tt s'
    /\ cwd s' = Steady.named_root tools
    /\ files s'
       = <[Steady.named_root tools +:+ "/" +:+ build_hash_path
           := build_hash_text (Py.rstrip (std_out sha))
                (Py.rstrip (std_out date))]> (files s).
Proof.
  intros Hpopen Hisdir Hwritable Habs git sha date H1 H2 H3 Hroot.
  pose proof (stamper_closed env s) as E. cbv zeta in E.
  rewrite (root_found_steady env tools dirs Hpopen Hisdir Habs) in E.
  rewrite (root_dir_steady env tools Hpopen) in E.
  rewrite !Hpopen, Hwritable in E.
  specialize (E H1 H2 H3 Hroot eq_refl).
  eexists. split; [exact E|]. cbn [cwd files].
  rewrite (resolve_root tools Habs). auto.
Qed.

End StamperForward.

(** ** The release-readiness checker, check by check *)

Section FirstChecks.
Import Json ReleaseReadiness.



(** X2.  With the repository root found, [check_pre_commit] always
    returns, having run the script once from the root and touched no
    file.  On status 0 it prints [ok] and leaves the flag; on any other
    status it clears the flag and prints [pre_commit.sh failed] followed
    by the standard output of the script; its standard error is not
    shown. *)
Theorem pre_commit_outcome (env : Env) (s : State) :
  root_found env s = true ->
  let r := popen env (after_root env s) pre_commit_cmd in
  exists s',
    check_pre_commit env s = Ok tt s'
    /\ files s' = files s
    /\ cwd s' = resolve (cwd s) (root_dir env s)
    /\ calls s' = (after_root env s ++ [(pre_commit_cmd, r)])%list
    /\ (returncode r = 0%Z ->
        release_ready s' = release_ready s
        /\ console s' = console s +:+ "Pre_commit check: " +:+ "ok" +:+ Py.nl)
    /\ (returncode r <> 0%Z ->
        release_ready s' = false
        /\ console s'
           = console s +:+ "Pre_commit check: " +:+ "pre_commit.sh failed"
             +:+ Py.nl +:+ std_out r +:+ Py.nl).
Proof.
  intros Hroot r. unfold check_pre_commit.
  erewrite bind_step by reflexivity.
  erewrite bind_step by (apply cd_to_git_root_found; exact Hroot).
  erewrite bind_step by reflexivity.
  at_root_view env s. change (popen env _ pre_commit_cmd) with r.
  destruct (returncode r =? 0)%Z eqn:E; cbn [negb].
  - unfold print, print_flush, printed.
    eexists. split; [reflexivity|]. cbn [files cwd calls release_ready console].
    repeat (split; [reflexivity|]). split.
    + intros _. split; [reflexivity | now rewrite !append_assoc].
    + intros N. now apply Z.eqb_eq in E.
  - unfold print, print_flush, set_not_ready, printed, bind.
    eexists. split; [reflexivity|]. cbn [files cwd calls release_ready console].
    repeat (split; [reflexivity|]). split.
    + intros N. apply Z.eqb_neq in E. contradiction.
    + intros _. split; [reflexivity | now rewrite !append_assoc].
Qed.

(** X2 on the failing sample, whose script complains about a license
    header. *)
Lemma pre_commit_outcome_witness :
  exists s',
    check_pre_commit (Sample.table_env Sample.failing_table) Sample.start = Ok tt s'
    /\ release_ready s' = false
    /\ console s'
       = "Pre_commit check: pre_commit.sh failed" +:+ Py.nl
         +:+ "license header missing" +:+ Py.nl +:+ Py.nl.
Proof.
  destruct (pre_commit_outcome (Sample.table_env Sample.failing_table)
              Sample.start eq_refl) as (s' & E & _ & _ & _ & _ & P).
  exists s'. destruct P as [R C]; [vm_compute; discriminate|].
  rewrite R, C. split; [exact E | split; [reflexivity | vm_compute; reflexivity]].
Defined.

(** X3.  When a line of the linter's standard error neither names the
    ignored rule nor holds a [JacquardSDK/] path, [check_swift_format]
    stops there on an assertion whose message shows the whole standard
    error.  The bullets of the offending lines before it are already
    printed, but the flag is as it was: it is only cleared after the
    loop. *)
Theorem unexpected_lint_line_aborts (env : Env) (s : State)
    (before after : list string) (line : string) :
  root_found env s = true ->
  let r := popen env (after_root env s) swift_format_cmd in
  Py.splitlines (std_err r) = (before ++ line :: after)%list ->
  forallb (fun l => Gate.ignored l || Gate.has_path l) before = true ->
  Re.search ignore_re line = None ->
  Re.search path_re line = None ->
  exists s',
    check_swift_format env s
    = Raise (AssertionError
               ("Unexpected swift-format output: " +:+ Py.repr (std_err r))) s'
    /\ release_ready s' = release_ready s
    /\ files s' = files s
    /\ console s'
       = console s +:+ "Checking swift-format lint: "
         +:+ Gate.listing (Gate.offending before).
Proof.
  intros Hroot r Hsplit Hbefore Hi Hp.
  assert (Forall (fun l => Gate.ignored l = true
                           \/ Re.search path_re l <> None) before) as Hall.
  { apply List.Forall_forall. intros l Hl.
    apply (proj1 (forallb_forall _ _) Hbefore) in Hl.
    apply orb_true_iff in Hl as [Hl|Hl]; [now left | right].
    unfold Gate.has_path in Hl. now destruct (Re.search path_re l). }
  unfold check_swift_format.
  erewrite bind_step by reflexivity.
  erewrite bind_step by (apply cd_to_git_root_found; exact Hroot).
  erewrite bind_step by reflexivity.
  at_root_view env s. change (popen env _ swift_format_cmd) with r.
  destruct (negb (String.eqb (std_err r) "")) eqn:E.
  - rewrite Hsplit. eexists. split.
    + apply bind_abort. rewrite swift_format_lines_app.
      erewrite bind_step by (apply swift_format_lines_run; exact Hall).
      cbn [swift_format_lines]. rewrite Hi, Hp. reflexivity.
    + unfold printed. cbn [release_ready files console].
      repeat (split; [reflexivity|]). now rewrite append_assoc.
  - apply negb_false_iff, String.eqb_eq in E. rewrite E in Hsplit.
    now destruct before.
Qed.

(** X3 on a linter that reports one warning and then fails to open a
    directory. *)
Lemma unexpected_lint_line_aborts_witness :
  let err := "JacquardSDK/Classes/API/Tag.swift:20:3: warning: [Indentation] unindent"
             +:+ Py.nl +:+ "error: unable to open Classes" +:+ Py.nl in
  let env := Sample.table_env
               [ (git_root_cmd, Sample.ok_result (Sample.root +:+ Py.nl));
                 (swift_format_cmd, MkResult 1 EmptyString err) ] in
  exists msg s',
    check_swift_format env Sample.start = Raise (AssertionError msg) s'
    /\ release_ready s' = true
    /\ console s'
       = "Checking swift-format lint:  * JacquardSDK/Classes/API/Tag.swift:20:3: warning: [Indentation] unindent"
         +:+ Py.nl.
Proof.
  intros err env.
  destruct (unexpected_lint_line_aborts env Sample.start
              ["JacquardSDK/Classes/API/Tag.swift:20:3: warning: [Indentation] unindent"]
              [] "error: unable to open Classes" eq_refl)
    as (s' & E & R & _ & C); [vm_compute; reflexivity ..|].
  eexists. exists s'. rewrite R, C.
  split; [exact E | split; [reflexivity | vm_compute; reflexivity]].
Defined.

(** X4.  The ignore pattern is searched in the whole line: a line is
    ignored exactly when [NoBlockComments] occurs somewhere in it, in
    the name of a file as well as in the name of the rule; such a line
    is passed over by the loop of [check_swift_format] without print and
    without verdict. *)
Theorem ignore_pattern_matches_anywhere (line : string) :
  (Re.search ignore_re line <> None
   <-> exists a b, line = a +:+ "NoBlockComments" +:+ b)
  /\ (Re.search ignore_re line <> None ->
      forall err rest acc,
        swift_format_lines err (line :: rest) acc
        = swift_format_lines err rest acc).
Proof.
  split; [split|].
  - unfold Re.search, ignore_re.
    destruct (Re.search_from _ _ line) as [m|] eqn:E; [|congruence].
    intros _. exact (search_from_Lit_inv _ _ _ _ E).
  - intros (a & b & ->). apply search_from_Lit_found.
  - intros H err rest acc. cbn [swift_format_lines].
    now destruct (Re.search ignore_re line).
Qed.

(** X4 on an indentation warning in a file whose name holds the rule's
    name. *)
Lemma ignore_pattern_matches_anywhere_witness :
  Re.search ignore_re
    "JacquardSDK/Classes/NoBlockCommentsTests.swift:3:1: warning: [Indentation] unindent"
  <> None.
Proof.
  apply (proj1 (ignore_pattern_matches_anywhere _)).
  exists "JacquardSDK/Classes/",
         "Tests.swift:3:1: warning: [Indentation] unindent".
  reflexivity.
Defined.

End FirstChecks.

Section PathPattern.
Import Json ReleaseReadiness.
Local Arguments String.append !_ _ / : simpl nomatch.

(** X5.  On a text without line feed, the path pattern of the linter
    loop and of the coverage loop gives the text from the first
    occurrence of [JacquardSDK/] to the end: the match is a suffix of
    the text, it starts with [JacquardSDK/], and there is one as soon as
    [JacquardSDK/] occurs.  So a path is compared with the allow-list
    from its first [JacquardSDK/] on. *)
Theorem path_pattern_from_first_occurrence (line : string) :
  Py.all_chars Py.not_newline line = true ->
  Re.search path_re line
  = match from_first "JacquardSDK/" line with
    | Some t => Some (Re.MkMatch t None)
    | None => None
    end
  /\ (forall m,
        Re.search path_re line = Some m ->
        exists before rest,
          line = before +:+ Re.group0 m
          /\ Re.group0 m = "JacquardSDK/" +:+ rest)
  /\ (forall before rest,
        line = before +:+ "JacquardSDK/" +:+ rest ->
        Re.search path_re line <> None).
Proof.
  intros Hline.
  assert (Re.search path_re line
          = match from_first "JacquardSDK/" line with
            | Some t => Some (Re.MkMatch t None)
            | None => None
            end) as E by now apply search_from_path_re.
  refine (conj E (conj _ _)).
  - intros m Hm. rewrite E in Hm.
    destruct (from_first "JacquardSDK/" line) as [t|] eqn:F; [|discriminate].
    injection Hm as <-. now apply from_first_suffix.
  - intros before rest ->. rewrite E.
    pose proof (from_first_found "JacquardSDK/" before rest) as F.
    now destruct (from_first _ _).
Qed.

(** X5 on a report path under a directory that is itself named
    [JacquardSDK]: the match starts at the directory, and is not on the
    allow-list. *)
Lemma path_pattern_from_first_occurrence_witness :
  Re.search path_re
    "/Users/dev/JacquardSDK/JacquardSDK/Protobuf/jacquard.pb.swift"
  = Some (Re.MkMatch "JacquardSDK/JacquardSDK/Protobuf/jacquard.pb.swift" None)
  /\ untestable "JacquardSDK/JacquardSDK/Protobuf/jacquard.pb.swift" = false.
Proof.
  destruct (path_pattern_from_first_occurrence
              "/Users/dev/JacquardSDK/JacquardSDK/Protobuf/jacquard.pb.swift")
    as (E & _); [vm_compute; reflexivity|].
  split; [rewrite E|]; vm_compute; reflexivity.
Defined.

End PathPattern.

Section PodAndDocumentation.
Import Json ReleaseReadiness.

(** X6.  With the repository root found, [pod_install] stops on
    [OSError] without running the installer when the root has no
    [Example] directory.  Otherwise it runs the installer once, in
    [Example]: on status 0 it prints [ok] and returns, on any other
    status it stops on an assertion whose message shows the standard
    error.  It never changes the flag or a file. *)
Theorem pod_install_outcome (env : Env) (s : State) :
  root_found env s = true ->
  let dir := resolve (resolve (cwd s) (root_dir env s)) "Example" in
  let r := popen env (after_root env s) pod_install_cmd in
  (isdir env (after_root env s) dir = false ->
   exists s',
     pod_install env s = Raise OSError s'
     /\ calls s' = after_root env s
     /\ release_ready s' = release_ready s /\ files s' = files s)
  /\ (isdir env (after_root env s) dir = true ->
      exists s',
        pod_install env s
        = (if (returncode r =? 0)%Z then Ok tt s'
           else Raise (AssertionError
                         ("Failed to pod install " +:+ Py.repr (std_err r))) s')
        /\ calls s' = (after_root env s ++ [(pod_install_cmd, r)])%list
        /\ cwd s' = dir
        /\ release_ready s' = release_ready s /\ files s' = files s
        /\ console s'
           = console s +:+ "Pod update: "
             +:+ (if (returncode r =? 0)%Z then "ok" +:+ Py.nl else "")).
Proof.
  intros Hroot dir r. unfold pod_install. split; intros Hdir.
  - erewrite bind_step by reflexivity.
    erewrite bind_step by (apply cd_to_git_root_found; exact Hroot).
    erewrite bind_abort.
    2:{ unfold chdir. at_root_view env s. cbn [String.eqb negb andb].
        fold dir. rewrite Hdir. reflexivity. }
    eexists. split; [reflexivity|]. now cbn [calls release_ready files].
  - erewrite bind_step by reflexivity.
    erewrite bind_step by (apply cd_to_git_root_found; exact Hroot).
    erewrite bind_step.
    2:{ unfold chdir. at_root_view env s. cbn [String.eqb negb andb].
        fold dir. rewrite Hdir. reflexivity. }
    erewrite bind_step by reflexivity.
    cbn [calls]. change (popen env _ pod_install_cmd) with r.
    destruct (returncode r =? 0)%Z; cbn [assert].
    + unfold print, print_flush, printed, bind, ret.
      eexists. split; [reflexivity|].
      cbn [calls cwd release_ready files console].
      repeat (split; [reflexivity|]). now rewrite !append_assoc.
    + unfold raise, bind. eexists. split; [reflexivity|].
      cbn [calls cwd release_ready files console].
      repeat (split; [reflexivity|]). now rewrite append_empty_r.
Qed.

(** X6 on a repository whose [Example] directory has no Podfile. *)
Lemma pod_install_outcome_witness :
  let env := Sample.table_env
               [ (git_root_cmd, Sample.ok_result (Sample.root +:+ Py.nl));
                 (pod_install_cmd, MkResult 1 EmptyString "no Podfile") ] in
  exists s',
    pod_install env Sample.start
    = Raise (AssertionError "Failed to pod install 'no Podfile'") s'
    /\ cwd s' = Sample.root +:+ "/Example"
    /\ console s' = "Pod update: ".
Proof.
  intros env.
  destruct (pod_install_outcome env Sample.start eq_refl) as [_ H].
  destruct (H eq_refl) as (s' & E & _ & D & _ & _ & C).
  exists s'. rewrite D, C. split; [exact E | split; vm_compute; reflexivity].
Defined.

(** X7.  With the repository root found, [check_documentation_percentage]
    stops on an assertion, with nothing printed after its heading and
    the flag as it was, in two cases: when jazzy exits with a status
    other than 0, whatever it printed, with a message that shows the
    status and the standard error; and when jazzy exits with status 0
    and no line of its output matches the percentage pattern, with a
    message that shows the whole output. *)
Theorem documentation_check_aborts (env : Env) (s : State) :
  root_found env s = true ->
  let r := popen env (after_root env s) jazzy_cmd in
  let asked := MkState (release_ready s) (resolve (cwd s) (root_dir env s))
                 (console s +:+ "Documentation coverage: ") (files s)
                 (after_root env s ++ [(jazzy_cmd, r)]) in
  (returncode r <> 0%Z ->
   check_documentation_percentage env s
   = Raise (AssertionError
              ("ERROR: jazzy returned non-zero exit code ("
               +:+ Py.repr_int (returncode r) +:+ ")" +:+ Py.nl
               +:+ Py.repr (std_err r))) asked)
  /\ (returncode r = 0%Z ->
      Forall (fun l => Re.search percentage_re l = None)
        (Py.splitlines (std_out r)) ->
      check_documentation_percentage env s
      = Raise (AssertionError
                 ("ERROR: Documentation percentage could not be found in jazzy output: "
                  +:+ Py.repr (std_out r))) asked).
Proof.
  intros Hroot r asked. split.
  - intros H%Z.eqb_neq. unfold check_documentation_percentage.
    erewrite bind_step by reflexivity.
    erewrite bind_step by (apply cd_to_git_root_found; exact Hroot).
    erewrite bind_step by reflexivity.
    at_root_view env s. change (popen env _ jazzy_cmd) with r.
    rewrite H. reflexivity.
  - intros H Hnone.
    pose proof (check_documentation_percentage_run env s Hroot H) as E.
    cbv zeta in E. rewrite E, documentation_lines_eq.
    unfold r in Hnone. now rewrite (first_percentage_none _ Hnone).
Qed.

(** X7 on a repository without [jazzy.yaml]. *)
Lemma documentation_check_aborts_witness :
  let env := Sample.table_env
               [ (git_root_cmd, Sample.ok_result (Sample.root +:+ Py.nl));
                 (jazzy_cmd, MkResult 1 EmptyString "jazzy.yaml not found") ] in
  exists s',
    check_documentation_percentage env Sample.start
    = Raise (AssertionError
               ("ERROR: jazzy returned non-zero exit code (1)" +:+ Py.nl
                +:+ "'jazzy.yaml not found'")) s'
    /\ release_ready s' = true.
Proof.
  intros env.
  destruct (documentation_check_aborts env Sample.start eq_refl) as [H _].
  exists (final (check_documentation_percentage env Sample.start)).
  split; [|vm_compute; reflexivity].
  rewrite H by (vm_compute; discriminate). vm_compute. reflexivity.
Defined.

(** X8.  The percentage pattern matches a line exactly when the line
    starts with one or more digits directly followed by
    [% documentation coverage]; the percentage it gives is the whole run
    of digits, as text.  A line that is empty or starts with anything
    but a digit does not match. *)
Theorem percentage_pattern_matches (line : string) (m : Re.rmatch) :
  (Re.search percentage_re line = Some m
   <-> exists number rest,
         line = number +:+ "% documentation coverage" +:+ rest
         /\ Py.all_chars Py.is_digit number = true
         /\ number <> EmptyString
         /\ m = Re.MkMatch (number +:+ "% documentation coverage") (Some number))
  /\ (forall c rest,
        line = String c rest -> Py.is_digit c = false ->
        Re.search percentage_re line = None)
  /\ (line = EmptyString -> Re.search percentage_re line = None).
Proof.
  split; [split|split].
  - apply search_percentage_re_inv.
  - intros (number & rest & -> & Hd & Hne & ->). now apply search_percentage_re.
  - intros c rest -> Hc.
    destruct (Re.search percentage_re (String c rest)) as [m'|] eqn:E; [|reflexivity].
    apply search_percentage_re_inv in E as (number & tail & L & Hd & Hne & _).
    destruct number as [|d number]; [contradiction|].
    injection L as <- _. cbn [Py.all_chars] in Hd.
    rewrite Hc in Hd. discriminate.
  - intros ->. reflexivity.
Qed.

(** X8 on the line of a complete documentation, and on the same line
    indented by one space. *)
Lemma percentage_pattern_matches_witness :
  Re.search percentage_re "100% documentation coverage"
  = Some (Re.MkMatch "100% documentation coverage" (Some "100"))
  /\ Re.search percentage_re " 100% documentation coverage" = None.
Proof.
  split.
  - apply (proj1 (percentage_pattern_matches _ _)).
    exists "100", "". repeat split; (reflexivity || discriminate).
  - destruct (percentage_pattern_matches " 100% documentation coverage"
                (Re.MkMatch "" None)) as (_ & H & _).
    exact (H " "%char _ eq_refl eq_refl).
Defined.

(** X9.  With the repository root found and an [Example] directory in
    it, [check_code_coverage] stops on an assertion before it asks for
    any report in two cases: when the build exits with a status other
    than 0, with a message that shows its standard error; and when the
    build exits with status 0 but prints no path of a result bundle, as
    when it prints nothing.  The flag and the files are as they were. *)
Theorem coverage_build_failures (env : Env) (s : State) :
  root_found env s = true ->
  isdir env (after_root env s)
    (resolve (resolve (cwd s) (root_dir env s)) "Example") = true ->
  let r := popen env (after_root env s) xcodebuild_cmd in
  let built := MkState (release_ready s)
                 (resolve (resolve (cwd s) (root_dir env s)) "Example")
                 (console s +:+ "Code coverage: ") (files s)
                 (after_root env s ++ [(xcodebuild_cmd, r)]) in
  (returncode r <> 0%Z ->
   check_code_coverage env s
   = Raise (AssertionError ("xcodebuild failed: " +:+ Py.repr (std_err r)))
       built)
  /\ (returncode r = 0%Z ->
      Re.search xcresult_re (std_out r) = None ->
      check_code_coverage env s
      = Raise (AssertionError
                 "ERROR: Couldn't find .xcresult archive path in xcodebuild output")
          built)
  /\ (std_out r = EmptyString -> Re.search xcresult_re (std_out r) = None).
Proof.
  intros Hroot Hdir r built.
  assert (check_code_coverage env s
          = (do _ <- assert (returncode r =? 0)%Z
                      ("xcodebuild failed: " +:+ Py.repr (std_err r));
             match Re.search xcresult_re (std_out r) with
             | Some m =>
                 let xcresult := Re.group0 m in
                 do r' <- exec_cmd env (xccov_cmd xcresult);
                 do bad_files <- lift (coverage_bad_files (std_out r'));
                 if (0 <? List.length bad_files)%nat
                 then
                   do _ <- print ("Minimum code coverage of "
                                  +:+ float_repr env minimum_code_coverage
                                  +:+ " not met by the following files:");
                   report_bad_files env bad_files
                 else ret tt
             | None =>
                 raise (AssertionError
                          "ERROR: Couldn't find .xcresult archive path in xcodebuild output")
             end) built) as ->.
  { unfold check_code_coverage.
    erewrite bind_step by reflexivity.
    erewrite bind_step by (apply cd_to_git_root_found; exact Hroot).
    erewrite bind_step.
    2:{ unfold chdir. at_root_view env s. cbn [String.eqb negb andb].
        rewrite Hdir. reflexivity. }
    erewrite bind_step by reflexivity. reflexivity. }
  refine (conj _ (conj _ _)).
  - intros H%Z.eqb_neq. unfold bind. now rewrite H.
  - intros H%Z.eqb_eq X. unfold bind. now rewrite H, X.
  - intros ->. reflexivity.
Qed.

(** X9 on a build whose tests fail. *)
Lemma coverage_build_failures_witness :
  let env := Sample.table_env
               [ (git_root_cmd, Sample.ok_result (Sample.root +:+ Py.nl));
                 (xcodebuild_cmd, MkResult 65 EmptyString "Testing failed") ] in
  exists s',
    check_code_coverage env Sample.start
    = Raise (AssertionError "xcodebuild failed: 'Testing failed'") s'
    /\ map fst (calls s') = [git_root_cmd; xcodebuild_cmd].
Proof.
  intros env.
  destruct (coverage_build_failures env Sample.start eq_refl eq_refl) as [H _].
  exists (final (check_code_coverage env Sample.start)).
  split; [|vm_compute; reflexivity].
  rewrite H by (vm_compute; discriminate). vm_compute. reflexivity.
Defined.

End PodAndDocumentation.

Section BundlePattern.
Import Json ReleaseReadiness.
Local Arguments String.append !_ _ / : simpl nomatch.

(** X10.  In the output of the build, the result bundle is the text from
    the first slash to the [.xcresult] that ends its line, when the text
    before that slash holds no slash.  A bundle path of printable
    characters without quote or backslash is handed to xccov between
    single quotes, as it is. *)
Theorem xcresult_bundle_found (pre body tail : string) :
  Py.all_chars not_slash pre = true ->
  Py.all_chars Py.not_newline body = true ->
  tail = EmptyString \/ (exists t, tail = Py.nl +:+ t) ->
  let bundle := "/" +:+ body +:+ ".xcresult" in
  Re.search xcresult_re (pre +:+ bundle +:+ tail)
  = Some (Re.MkMatch bundle None)
  /\ (Py.all_chars Py.shown_as_is bundle = true ->
      xccov_cmd bundle
      = "xcrun xccov view --report --files-for-target JacquardSDK.framework --json '"
        +:+ bundle +:+ "'").
Proof.
  intros Hpre Hbody Htail bundle. split.
  - unfold Re.search. generalize (String.length (pre +:+ bundle +:+ tail)).
    intros n.
    change (pre +:+ bundle +:+ tail)
      with (pre +:+ String "/" ((body +:+ ".xcresult") +:+ tail)).
    rewrite (search_from_skips_no_slash n pre _ Hpre).
    apply search_from_here.
    unfold Re.match_here, xcresult_re. rewrite matches_Seq, matches_Lit.
    cbn [Py.after_prefix Ascii.eqb Bool.eqb].
    set (k := fun rest g =>
                Some (Re.MkMatch
                        (Re.consumed
                           (String "/" ((body +:+ ".xcresult") +:+ tail)) rest)
                        g)).
    rewrite append_assoc.
    erewrite star_dot_then_xcresult;
      [reflexivity | exact Hbody | exact Htail |].
    unfold k. f_equal. f_equal.
    change (String "/" ((body +:+ ".xcresult") +:+ tail))
      with (bundle +:+ tail).
    apply consumed_append.
  - intros Hplain. unfold xccov_cmd. rewrite (repr_plain bundle Hplain).
    reflexivity.
Qed.

(** X10 on the indented bundle path of the samples, followed by another
    line. *)
Lemma xcresult_bundle_found_witness :
  Re.search xcresult_re
    ("    " +:+ Sample.xcresult_path +:+ Py.nl +:+ "** TEST SUCCEEDED **" +:+ Py.nl)
  = Some (Re.MkMatch Sample.xcresult_path None).
Proof.
  destruct (xcresult_bundle_found "    "
              "Users/dev/Library/Developer/Xcode/DerivedData/Logs/Test/Run-JacquardSDK"
              (Py.nl +:+ "** TEST SUCCEEDED **" +:+ Py.nl))
    as [E _]; [reflexivity | reflexivity | right; eexists; reflexivity |].
  exact E.
Defined.

End BundlePattern.

Section CoverageAndRun.
Import Json ReleaseReadiness.



(** X12.  The loop of [check_code_coverage] over the files of the report
    returns a list exactly when every entry is readable: it has a text
    [path] that holds [JacquardSDK/] and, unless it is exempt, a
    [lineCoverage] that compares with a number.  The loop over a list in
    two parts is the loop over the first part followed by the loop over
    the second part with the list built so far.  The list only grows,
    by at most one entry for each file. *)
Theorem scan_files_returns_iff_readable (files : list value)
    (bad : list (string * value)) :
  ((exists bad', scan_files files bad = Val bad')
   <-> forallb readable_entry files = true)
  /\ (forall files1 files2,
        files = (files1 ++ files2)%list ->
        scan_files files bad
        = (try b <- scan_files files1 bad; scan_files files2 b))
  /\ (forall bad', scan_files files bad = Val bad' ->
        exists more, bad' = (bad ++ more)%list
                     /\ List.length more <= List.length files).
Proof.
  refine (conj _ (conj _ _)).
  - revert bad. induction files as [|file rest IH]; intros bad.
    + cbn. split; eauto.
    + cbn [forallb]. destruct (scan_files_readable file rest bad) as [Hy Hn].
      destruct (readable_entry file); cbn [andb].
      * destruct (Hy eq_refl) as [bad1 ->]. apply IH.
      * destruct (Hn eq_refl) as [e ->]. split; [intros [? ?] |]; discriminate.
  - intros files1 files2 ->. apply scan_files_app.
  - intros bad' H. apply scan_files_Val in H as [-> _]. eexists.
    split; [reflexivity|].
    induction files as [|file rest IH]; cbn [flat_map List.length]; [lia|].
    rewrite length_app.
    assert (List.length (Gate.failing_entry file) <= 1); [|lia].
    unfold Gate.failing_entry.
    destruct (Gate.sdk_path file); [|cbn; lia].
    destruct (Obj.item file "lineCoverage"); [|cbn; lia].
    destruct (_ && _); cbn; lia.
Qed.

(** X12 on an entry without [path]. *)
Lemma scan_files_returns_iff_readable_witness :
  let nameless := JDict [("lineCoverage", JFloat 0.5%float)] in
  forallb readable_entry [nameless] = false
  /\ ~ (exists bad, scan_files [nameless] [] = Val bad).
Proof.
  intros nameless. split; [reflexivity|].
  intros H.
  apply (proj1 (scan_files_returns_iff_readable [nameless] [])) in H.
  discriminate H.
Defined.

(** X13.  A [lineCoverage] written as an integer is compared as the
    number it is: an entry that is not exempt is added to the
    failing-files list exactly when the integer is 0 or less, so a
    coverage of [1] passes and a coverage of [0] fails; the integer is
    printed as it was written. *)
Theorem integer_coverage (file : value) (path : string) (n : Z) :
  Gate.sdk_path file = Some path ->
  untestable path = false ->
  Obj.item file "lineCoverage" = Val (JInt n) ->
  (forall rest bad,
      scan_files (file :: rest) bad
      = scan_files rest
          (if (n <=? 0)%Z then bad ++ [(path, JInt n)] else bad)%list)
  /\ (forall env, str_coverage env (JInt n) = Py.repr_int n).
Proof.
  intros Hpath Hexempt Hc. split; [|reflexivity].
  intros rest bad. cbn [scan_files].
  unfold Gate.sdk_path in Hpath.
  destruct (Obj.item file "path") as [[| | | |p| |]|]; try discriminate.
  cbn [rbind].
  destruct (Re.search path_re p) as [m|]; [|discriminate].
  injection Hpath as <-. rewrite Hexempt, Hc. cbn [rbind Obj.lt_float].
  rewrite int_below_threshold. now destruct (n <=? 0)%Z.
Qed.

(** X13 on a fully covered file and on a file without coverage. *)
Lemma integer_coverage_witness :
  let covered := JDict [("path", JStr (Sample.root +:+ "/JacquardSDK/Classes/API/Gesture.swift"));
                        ("lineCoverage", JInt 1)] in
  let bare := JDict [("path", JStr (Sample.root +:+ "/JacquardSDK/Classes/API/Gesture.swift"));
                     ("lineCoverage", JInt 0)] in
  loads (Sample.entry (Sample.root +:+ "/JacquardSDK/Classes/API/Gesture.swift") "1")
  = Some covered
  /\ scan_files [covered; bare] []
     = Val [("JacquardSDK/Classes/API/Gesture.swift", JInt 0)].
Proof.
  intros covered bare. split; [vm_compute; reflexivity|].
  destruct (integer_coverage covered "JacquardSDK/Classes/API/Gesture.swift" 1)
    as [H1 _]; [vm_compute; reflexivity ..|].
  destruct (integer_coverage bare "JacquardSDK/Classes/API/Gesture.swift" 0)
    as [H0 _]; [vm_compute; reflexivity ..|].
  rewrite H1, H0. reflexivity.
Defined.

(** X14.  Once the build has printed a result bundle and the report has
    been read into a failing-files list, [check_code_coverage] returns
    and touches no file.  With an empty list it leaves the flag and
    prints nothing after its heading, not even a line end.  Otherwise it
    clears the flag and prints the line that names the threshold, then
    one bullet for each failing file, in the order of the report, with
    its path and its coverage. *)
Theorem coverage_check_output (env : Env) (s : State) (out : string)
    (bad : list (string * value)) :
  coverage_report env s = Some out ->
  coverage_bad_files out = Val bad ->
  exists s',
    check_code_coverage env s = Ok tt s'
    /\ files s' = files s
    /\ (bad = [] ->
        release_ready s' = release_ready s
        /\ console s' = console s +:+ "Code coverage: ")
    /\ (bad <> [] ->
        release_ready s' = false
        /\ console s'
           = console s +:+ "Code coverage: "
             +:+ "Minimum code coverage of "
             +:+ float_repr env minimum_code_coverage
             +:+ " not met by the following files:" +:+ Py.nl
             +:+ bad_files_listing env bad).
Proof.
  intros Hrep Hbad.
  destruct (check_code_coverage_run env s out Hrep) as (s1 & R & F & C & ->).
  rewrite Hbad. cbn [lift]. unfold bind at 1. unfold ret at 1.
  destruct bad as [|b bs].
  - cbn [List.length Nat.ltb Nat.leb]. unfold ret. exists s1.
    split; [reflexivity|]. split; [exact F|]. split; [auto | intros N; contradiction].
  - cbn [List.length Nat.ltb Nat.leb].
    unfold bind, print, print_flush. rewrite report_bad_files_run.
    eexists. split; [reflexivity|]. unfold printed.
    cbn [release_ready cwd console files calls].
    split; [exact F|]. split; [discriminate|]. intros _.
    split; [apply andb_false_r|]. rewrite C. now rewrite !append_assoc.
Qed.

(** X14 on the failing sample, with one file below the threshold. *)
Lemma coverage_check_output_witness :
  exists s',
    check_code_coverage (Sample.table_env Sample.failing_table) Sample.start
    = Ok tt s'
    /\ release_ready s' = false
    /\ console s'
       = "Code coverage: Minimum code coverage of 0.8 not met by the following files:"
         +:+ Py.nl
         +:+ " * JacquardSDK/Classes/API/Firmware.swift : 0.79999" +:+ Py.nl.
Proof.
  destruct (coverage_check_output (Sample.table_env Sample.failing_table)
              Sample.start Sample.low_report
              [("JacquardSDK/Classes/API/Firmware.swift", JFloat 0.79999%float)])
    as (s' & E & _ & _ & P); [vm_compute; reflexivity ..|].
  exists s'. destruct P as [R C]; [discriminate|]. rewrite R, C.
  split; [exact E | split; [reflexivity | vm_compute; reflexivity]].
Defined.

(** X15.  With the repository root found, [check_todo_count] always
    returns, whatever the two pipelines exit with.  It runs them in
    order, changes neither the flag nor a file, and prints the first
    command line followed by both counts, each without the whitespace
    around it.  A pattern of printable characters without quote or
    backslash stands between single quotes in both command lines. *)
Theorem todo_count_outcome (env : Env) (pattern : string) (s : State) :
  root_found env s = true ->
  let c1 := todo_without_bug_cmd pattern in
  let r1 := popen env (after_root env s) c1 in
  let c2 := todo_with_bug_cmd pattern in
  let r2 := popen env (after_root env s ++ [(c1, r1)]) c2 in
  exists s',
    check_todo_count env pattern s = Ok tt s'
    /\ release_ready s' = release_ready s
    /\ files s' = files s
    /\ calls s' = (after_root env s ++ [(c1, r1); (c2, r2)])%list
    /\ console s'
       = console s +:+ "TODO count (" +:+ Py.repr pattern +:+ "): "
         +:+ c1 +:+ Py.nl
         +:+ "without bug: " +:+ Py.strip (std_out r1)
         +:+ "; with bug: " +:+ Py.strip (std_out r2) +:+ Py.nl
    /\ (Py.all_chars Py.shown_as_is pattern = true ->
        c1 = "find . -name '" +:+ pattern
             +:+ "' -type f -print0|xargs -0 grep -i TODO|egrep -v 'b/'|wc -l"
        /\ c2 = "find . -name '" +:+ pattern
                +:+ "' -type f -print0|xargs -0 grep -i TODO|egrep 'b/'|wc -l")
    /\ (forall pad count,
          std_out r1 = pad +:+ count +:+ Py.nl ->
          Py.all_chars Py.isspace pad = true ->
          Py.lstrip count = count -> Py.rstrip count = count ->
          Py.strip (std_out r1) = count).
Proof.
  intros Hroot c1 r1 c2 r2. unfold check_todo_count.
  erewrite bind_step by reflexivity.
  erewrite bind_step by (apply cd_to_git_root_found; exact Hroot).
  erewrite bind_step by reflexivity.
  erewrite bind_step by reflexivity.
  erewrite bind_step by reflexivity.
  erewrite bind_step by reflexivity.
  unfold print, print_flush, printed, at_root.
  cbn [calls release_ready cwd console files].
  change (after_root env _) with (after_root env s). fold c1 c2.
  change (popen env (after_root env s) c1) with r1.
  rewrite <- app_assoc. cbn [app].
  change (popen env (after_root env s ++ [(c1, r1)]) c2) with r2.
  eexists. split; [reflexivity|]. cbn [calls release_ready cwd console files].
  repeat (split; [reflexivity|]).
  split; [now rewrite !append_assoc|]. split.
  - intros Hp. unfold c1, c2, todo_without_bug_cmd, todo_with_bug_cmd.
    rewrite (repr_plain pattern Hp). now rewrite !append_assoc.
  - intros pad count Hout Hpad Hl Hr. rewrite Hout.
    now apply strip_padded.
Qed.

(** X15 on the sample repository, for the Swift sources. *)
Lemma todo_count_outcome_witness :
  exists s',
    check_todo_count (Sample.table_env Sample.ready_table) "*.swift" Sample.start
    = Ok tt s'
    /\ release_ready s' = true
    /\ console s'
       = "TODO count ('*.swift'): find . -name '*.swift' -type f -print0|xargs -0 grep -i TODO|egrep -v 'b/'|wc -l"
         +:+ Py.nl +:+ "without bug: 12; with bug: 3" +:+ Py.nl.
Proof.
  destruct (todo_count_outcome (Sample.table_env Sample.ready_table) "*.swift"
              Sample.start eq_refl) as (s' & E & R & _ & _ & C & _).
  exists s'. rewrite R, C.
  split; [exact E | split; [reflexivity | vm_compute; reflexivity]].
Defined.

(** X16.  A run of the checker that reaches its last line has run these
    seventeen commands, in this order, and touched no file: each of the
    seven checks first asks for the repository root, and the report is
    asked for the result bundle found in the output of the build. *)
Theorem commands_in_order (env : Env) (s : State) (status : Z) (s' : State) :
  main env s = Ok status s' ->
  exists build bundle,
    In (xcodebuild_cmd, build) (calls s')
    /\ Re.search xcresult_re (std_out build) = Some bundle
    /\ map fst (calls s')
       = (map fst (calls s)
          ++ [ git_root_cmd; pre_commit_cmd;
               git_root_cmd; swift_format_cmd;
               git_root_cmd; pod_install_cmd;
               git_root_cmd; jazzy_cmd;
               git_root_cmd; xcodebuild_cmd; xccov_cmd (Re.group0 bundle);
               git_root_cmd; todo_without_bug_cmd "*.swift";
               todo_with_bug_cmd "*.swift";
               git_root_cmd; todo_without_bug_cmd "*.md";
               todo_with_bug_cmd "*.md" ])%list
    /\ files s' = files s.
Proof.
  intros H. apply main_Ok in H as (s1 & R & Hc & _ & Hf & _).
  apply run_checks_Ok in R
    as (g1 & r1 & g2 & r2 & g3 & r3 & g4 & r4 & g5 & r5 & m & r6 & g6 & t1
        & t2 & g7 & t3 & t4 & X & C & F & _).
  exists r5, m. rewrite Hc, Hf, C, F. split; [|split; [exact X|split]].
  - apply in_or_app. right. cbn. auto 12.
  - now rewrite map_app.
  - reflexivity.
Qed.

(** X16 on the sample repository in which every gate passes. *)
Lemma commands_in_order_witness :
  exists s' bundle,
    main (Sample.table_env Sample.ready_table) Sample.start = Ok 0%Z s'
    /\ map fst (calls s')
       = [ git_root_cmd; pre_commit_cmd;
           git_root_cmd; swift_format_cmd;
           git_root_cmd; pod_install_cmd;
           git_root_cmd; jazzy_cmd;
           git_root_cmd; xcodebuild_cmd; xccov_cmd (Re.group0 bundle);
           git_root_cmd; todo_without_bug_cmd "*.swift";
           todo_with_bug_cmd "*.swift";
           git_root_cmd; todo_without_bug_cmd "*.md";
           todo_with_bug_cmd "*.md" ]
    /\ files s' = ∅.
Proof.
  set (s' := final (main (Sample.table_env Sample.ready_table) Sample.start)).
  assert (main (Sample.table_env Sample.ready_table) Sample.start = Ok 0%Z s')
    as E by (vm_compute; reflexivity).
  destruct (commands_in_order _ _ _ _ E) as (build & bundle & _ & _ & C & F).
  exists s', bundle. split; [exact E | split; [exact C | exact F]].
Defined.

(** X17.  When a check raises, the script ends there with that
    exception, in the state the check left: no later check runs, no
    summary line is printed, and the exit status is 1. *)
Theorem failed_check_ends_run (env : Env) (before after : list (M unit))
    (c : M unit) (s s1 s2 : State) (e : exn) :
  checks env = (before ++ c :: after)%list ->
  sequence before s = Ok tt s1 ->
  c s1 = Raise e s2 ->
  main env s = Raise e s2 /\ exit_status (main env s) = 1%Z.
Proof.
  intros Hsplit Hbefore Hc.
  assert (main env s = Raise e s2) as ->; [|now split].
  unfold main. apply bind_abort.
  rewrite run_checks_is_sequence, Hsplit, sequence_app.
  erewrite bind_step by exact Hbefore.
  cbn [sequence]. now apply bind_abort.
Qed.

(** X17 on a repository whose third check, the pod installation,
    fails. *)
Lemma failed_check_ends_run_witness :
  let env := Sample.table_env
               [ (git_root_cmd, Sample.ok_result (Sample.root +:+ Py.nl));
                 (pre_commit_cmd, Sample.ok_result EmptyString);
                 (swift_format_cmd, Sample.ok_result EmptyString);
                 (pod_install_cmd, MkResult 1 EmptyString "no Podfile") ] in
  exists s',
    main env Sample.start
    = Raise (AssertionError "Failed to pod install 'no Podfile'") s'
    /\ console s'
       = "Pre_commit check: ok" +:+ Py.nl
         +:+ "Checking swift-format lint: ok" +:+ Py.nl +:+ "Pod update: "
    /\ exit_status (main env Sample.start) = 1%Z.
Proof.
  intros env.
  set (s1 := final (sequence [check_pre_commit env; check_swift_format env]
                      Sample.start)).
  set (s2 := final (pod_install env s1)).
  destruct (failed_check_ends_run env
              [check_pre_commit env; check_swift_format env]
              (skipn 3 (checks env)) (pod_install env) Sample.start s1 s2
              (AssertionError "Failed to pod install 'no Podfile'"))
    as [E X]; [reflexivity | vm_compute; reflexivity ..|].
  exists s2. split; [exact E | split; [vm_compute; reflexivity | exact X]].
Defined.

(** X18.  Each of the seven checks asks for the repository root before
    anything else: where that query exits with a status other than 0,
    every check stops on the assertion with the query as its only
    subprocess, and with the flag, the files and the working directory
    as they were. *)
Theorem every_check_needs_root (env : Env) (s : State) :
  returncode (root_answer env s) <> 0%Z ->
  Forall (fun c : M unit =>
            exists msg s',
              c s = Raise (AssertionError msg) s'
              /\ calls s' = after_root env s
              /\ release_ready s' = release_ready s
              /\ files s' = files s
              /\ cwd s' = cwd s)
    (checks env).
Proof.
  intros H.
  assert (forall text (k : unit -> M unit),
             exists msg s',
               (do _ <- print_flush text; do u <- cd_to_git_root env; k u) s
               = Raise (AssertionError msg) s'
               /\ calls s' = after_root env s
               /\ release_ready s' = release_ready s
               /\ files s' = files s
               /\ cwd s' = cwd s) as Hcheck.
  { intros text k.
    destruct (cd_to_git_root_lost env (printed text s) H) as (msg & E).
    exists msg. eexists. split.
    - erewrite bind_step by reflexivity. apply bind_abort. exact E.
    - now cbn. }
  unfold checks.
  repeat (constructor; [apply Hcheck|]). constructor.
Qed.

(** X18 outside any repository. *)
Lemma every_check_needs_root_witness :
  Forall (fun c : M unit =>
            exists msg s',
              c Sample.start = Raise (AssertionError msg) s'
              /\ map fst (calls s') = [git_root_cmd])
    (checks (Sample.table_env Sample.no_repository_table)).
Proof.
  assert (returncode (root_answer (Sample.table_env Sample.no_repository_table)
                        Sample.start) <> 0%Z) as H by (vm_compute; discriminate).
  eapply List.Forall_impl; [|exact (every_check_needs_root _ _ H)].
  intros c (msg & s' & E & C & _). exists msg, s'. split; [exact E|].
  rewrite C. reflexivity.
Defined.

(** X19.  The exit status of the checker is 0 or 1.  It is 0 exactly
    when the script runs to its last line with the flag still true.
    When all checks return, the script prints one summary line, chosen
    by the flag, and hands 0 or 1 to the system accordingly; when a
    check raises, the script raises the same with nothing printed
    after. *)
Theorem exit_status_and_summary (env : Env) (s : State) :
  (exit_status (main env s) = 0%Z \/ exit_status (main env s) = 1%Z)
  /\ (exit_status (main env s) = 0%Z
      <-> exists s', main env s = Ok 0%Z s' /\ release_ready s' = true)
  /\ (forall s1,
        run_checks env s = Ok tt s1 ->
        main env s
        = Ok (if release_ready s1 then 0 else 1)%Z
            (printed
               ((if release_ready s1
                 then "Congratulations, the repository is release ready!"
                 else "The repository is not release ready. See errors above.")
                +:+ Py.nl) s1))
  /\ (forall e s1, run_checks env s = Raise e s1 -> main env s = Raise e s1).
Proof.
  assert (forall s1, run_checks env s = Ok tt s1 ->
            main env s
            = Ok (if release_ready s1 then 0 else 1)%Z
                (printed
                   ((if release_ready s1
                     then "Congratulations, the repository is release ready!"
                     else "The repository is not release ready. See errors above.")
                    +:+ Py.nl) s1)) as Hok.
  { intros s1 H. unfold main. erewrite bind_step by exact H.
    unfold bind, get_release_ready, print, print_flush, ret.
    now destruct (release_ready s1). }
  assert (forall e s1, run_checks env s = Raise e s1 -> main env s = Raise e s1)
    as Hraise.
  { intros e s1 H. unfold main. now apply bind_abort. }
  refine (conj _ (conj _ (conj Hok Hraise))).
  - destruct (run_checks env s) as [[] s1|e s1] eqn:R.
    + rewrite (Hok s1 eq_refl). cbn. destruct (release_ready s1); auto.
    + rewrite (Hraise e s1 eq_refl). now right.
  - destruct (run_checks env s) as [[] s1|e s1] eqn:R.
    + rewrite (Hok s1 eq_refl). cbn [exit_status].
      destruct (release_ready s1) eqn:F.
      * split; [|reflexivity]. intros _. eexists. split; [reflexivity | exact F].
      * split; [discriminate|]. intros (s' & [= ] & _).
    + rewrite (Hraise e s1 eq_refl). cbn [exit_status].
      split; [discriminate|]. intros (s' & [= ] & _).
Qed.

(** X19 on the two sample repositories. *)
Lemma exit_status_and_summary_witness :
  exit_status (main (Sample.table_env Sample.ready_table) Sample.start) = 0%Z
  /\ exists s',
       main (Sample.table_env Sample.failing_table) Sample.start = Ok 1%Z s'
       /\ release_ready s' = false.
Proof.
  split.
  - destruct (exit_status_and_summary (Sample.table_env Sample.ready_table)
                Sample.start) as (_ & [_ H] & _).
    apply H.
    exists (final (main (Sample.table_env Sample.ready_table) Sample.start)).
    split; vm_compute; reflexivity.
  - destruct (exit_status_and_summary (Sample.table_env Sample.failing_table)
                Sample.start) as (_ & _ & H & _).
    eexists. split.
    + apply (H (final (run_checks (Sample.table_env Sample.failing_table)
                         Sample.start))).
      vm_compute. reflexivity.
    + vm_compute. reflexivity.
Defined.



End CoverageAndRun.

(** ** The build stamper, step by step *)

Section StamperRuns.
Import UpdateBuildHash.

(** X20.  The build stamper, from the answers of its four subprocesses.
    It asks [xcrun] for git, asks the git it was given for the short
    hash and for the commit date, and asks plain [git] for the
    repository root.  When all four exit with status 0, the root is a
    directory and the build-hash file can be opened, the stamper ends in
    the root with that file holding the stamp text of the hash and the
    date, each without its trailing whitespace, whatever the file held
    before; no other file is touched and nothing is printed. *)
Theorem stamper_run (env : Env) (s : State) :
  let r1 := popen env (calls s) which_git_cmd in
  let git := Py.rstrip (std_out r1) in
  let log1 := (calls s ++ [(which_git_cmd, r1)])%list in
  let r2 := popen env log1 (git +:+ " rev-parse --short HEAD") in
  let log2 := (log1 ++ [(git +:+ " rev-parse --short HEAD", r2)])%list in
  let r3 := popen env log2 (git +:+ " show -s --format=%ci HEAD") in
  let asked := MkState (release_ready s) (cwd s) (console s) (files s)
                 (log2 ++ [(git +:+ " show -s --format=%ci HEAD", r3)]) in
  let path := resolve (resolve (cwd s) (root_dir env asked)) build_hash_path in
  returncode r1 = 0%Z -> returncode r2 = 0%Z -> returncode r3 = 0%Z ->
  root_found env asked = true ->
  writable env (after_root env asked) path = true ->
  main env s
  = Ok tt (MkState (release_ready s) (resolve (cwd s) (root_dir env asked))
             (console s)
             (<[path := build_hash_text (Py.rstrip (std_out r2))
                          (Py.rstrip (std_out r3))]> (files s))
             (after_root env asked))
  /\ (forall sha, std_out r2 = sha +:+ Py.nl -> Py.rstrip sha = sha ->
        Py.rstrip (std_out r2) = sha)
  /\ (forall date, std_out r3 = date +:+ Py.nl -> Py.rstrip date = date ->
        Py.rstrip (std_out r3) = date).
Proof.
  intros r1 git log1 r2 log2 r3 asked path H1 H2 H3 Hroot Hw.
  refine (conj _ (conj _ _)).
  - exact (stamper_closed env s H1 H2 H3 Hroot Hw).
  - intros sha -> Hs. now apply rstrip_newline.
  - intros date -> Hd. now apply rstrip_newline.
Qed.

(** X20 on the sample repository with an old build-hash file and a
    second file. *)
Lemma stamper_run_witness :
  let env := Sample.table_env
               (Sample.stamp_table "abc1234" "2021-01-01 00:00:00 +0000") in
  let old := <[Sample.root +:+ "/Example/JacquardSDK/BuildHash.json" := "old"]>
               (<[Sample.root +:+ "/README.md" := "readme"]> ∅) in
  exists s',
    main env (ReleaseReadiness.initial (Sample.root +:+ "/Scripts") old)
    = Ok tt s'
    /\ files s' !! (Sample.root +:+ "/Example/JacquardSDK/BuildHash.json")
       = Some (build_hash_text "abc1234" "2021-01-01 00:00:00 +0000")
    /\ files s' !! (Sample.root +:+ "/README.md") = Some "readme"
    /\ console s' = EmptyString.
Proof.
  intros env old.
  destruct (stamper_run env
              (ReleaseReadiness.initial (Sample.root +:+ "/Scripts") old))
    as (E & _); [vm_compute; reflexivity ..|].
  eexists. split; [exact E|]. cbn [files console].
  split; [|split; [|reflexivity]].
  - vm_compute. reflexivity.
  - vm_compute. reflexivity.
Defined.

(** X21.  The failures of the build stamper.  When [xcrun] does not find
    git, when git cannot give the hash, or when git cannot give the
    date, the stamper stops on the assertion of that step with its own
    message and runs no later command.  When the build-hash file cannot
    be opened for writing, it stops on [OSError] after its four
    commands.  In each case every file is as it was. *)
Theorem stamper_failures (env : Env) (s : State) :
  let r1 := popen env (calls s) which_git_cmd in
  let git := Py.rstrip (std_out r1) in
  let log1 := (calls s ++ [(which_git_cmd, r1)])%list in
  let r2 := popen env log1 (git +:+ " rev-parse --short HEAD") in
  let log2 := (log1 ++ [(git +:+ " rev-parse --short HEAD", r2)])%list in
  let r3 := popen env log2 (git +:+ " show -s --format=%ci HEAD") in
  let log3 := (log2 ++ [(git +:+ " show -s --format=%ci HEAD", r3)])%list in
  let after log := MkState (release_ready s) (cwd s) (console s) (files s) log in
  (returncode r1 <> 0%Z ->
   main env s = Raise (AssertionError "Couldn't find git") (after log1))
  /\ (returncode r1 = 0%Z -> returncode r2 <> 0%Z ->
      main env s = Raise (AssertionError "Getting git sha failed") (after log2))
  /\ (returncode r1 = 0%Z -> returncode r2 = 0%Z -> returncode r3 <> 0%Z ->
      main env s
      = Raise (AssertionError "Getting git commit datetime failed") (after log3))
  /\ (returncode r1 = 0%Z -> returncode r2 = 0%Z -> returncode r3 = 0%Z ->
      root_found env (after log3) = true ->
      writable env (after_root env (after log3))
        (resolve (resolve (cwd s) (root_dir env (after log3))) build_hash_path)
      = false ->
      main env s = Raise OSError (at_root env (after log3))).
Proof.
  intros r1 git log1 r2 log2 r3 log3 after.
  assert (which_git env s
          = if (returncode r1 =? 0)%Z then Ok git (after log1)
            else Raise (AssertionError "Couldn't find git") (after log1)) as E1.
  { unfold which_git. now rewrite query_run. }
  assert (git_sha env git (after log1)
          = if (returncode r2 =? 0)%Z
            then Ok (Py.rstrip (std_out r2)) (after log2)
            else Raise (AssertionError "Getting git sha failed") (after log2))
    as E2.
  { unfold git_sha. now rewrite query_run. }
  assert (git_date env git (after log2)
          = if (returncode r3 =? 0)%Z
            then Ok (Py.rstrip (std_out r3)) (after log3)
            else Raise (AssertionError "Getting git commit datetime failed")
                   (after log3)) as E3.
  { unfold git_date. now rewrite query_run. }
  refine (conj _ (conj _ (conj _ _))).
  - intros H%Z.eqb_neq. rewrite H in E1. unfold main. now apply bind_abort.
  - intros H1%Z.eqb_eq H%Z.eqb_neq. rewrite H1 in E1. rewrite H in E2.
    unfold main. erewrite bind_step by exact E1. now apply bind_abort.
  - intros H1%Z.eqb_eq H2%Z.eqb_eq H%Z.eqb_neq.
    rewrite H1 in E1. rewrite H2 in E2. rewrite H in E3.
    unfold main. erewrite bind_step by exact E1.
    erewrite bind_step by exact E2. now apply bind_abort.
  - intros H1%Z.eqb_eq H2%Z.eqb_eq H3%Z.eqb_eq Hroot Hw.
    rewrite H1 in E1. rewrite H2 in E2. rewrite H3 in E3.
    unfold main. erewrite bind_step by exact E1.
    erewrite bind_step by exact E2. erewrite bind_step by exact E3.
    erewrite bind_step by (apply cd_to_git_root_found; exact Hroot).
    apply bind_abort. unfold open_w.
    change (writable env _ _)
      with (writable env (after_root env (after log3))
              (resolve (resolve (cwd s) (root_dir env (after log3)))
                 build_hash_path)).
    now rewrite Hw.
Qed.

(** X21 on a machine without git. *)
Lemma stamper_failures_witness :
  let env := Sample.table_env
               [ (which_git_cmd, MkResult 1 EmptyString "xcrun: error") ] in
  exists s',
    main env Sample.start = Raise (AssertionError "Couldn't find git") s'
    /\ map fst (calls s') = [which_git_cmd]
    /\ files s' = ∅.
Proof.
  intros env.
  destruct (stamper_failures env Sample.start) as (H & _).
  eexists. split; [apply H; vm_compute; discriminate|].
  split; reflexivity.
Defined.

(** X23.  Where the surroundings answer the same whatever was asked
    before, git names an absolute root that is a directory, and the
    three queries exit with status 0, the build stamper can be run again
    where it ended: the second run returns as well and leaves every file
    as the first run left it, the build-hash file holding the stamp of
    the hash and the date. *)
Theorem stamper_idempotent (env : Env) (tools : string -> CmdResult)
    (dirs : string -> bool) (s : State) :
  (forall log cmd, popen env log cmd = tools cmd) ->
  (forall log path, isdir env log path = dirs path) ->
  (forall log path, writable env log path = true) ->
  String.prefix "/" (Steady.named_root tools) = true ->
  let git := Py.rstrip (std_out (tools which_git_cmd)) in
  let sha := tools (git +:+ " rev-parse --short HEAD") in
  let date := tools (git +:+ " show -s --format=%ci HEAD") in
  returncode (tools which_git_cmd) = 0%Z ->
  returncode sha = 0%Z -> returncode date = 0%Z ->
  Steady.root_ok tools dirs = true ->
  exists s1 s2,
    main env s = Ok tt s1
    /\ main env s1 = Ok tt s2
    /\ files s1
       = <[Steady.named_root tools +:+ "/" +:+ build_hash_path
           := build_hash_text (Py.rstrip (std_out sha))
                (Py.rstrip (std_out date))]> (files s)
    /\ files s2 = files s1
    /\ cwd s2 = cwd s1.
Proof.
  intros Hpopen Hisdir Hwritable Habs git sha date H1 H2 H3 Hroot.
  destruct (stamper_steady env tools dirs s Hpopen Hisdir Hwritable Habs
              H1 H2 H3 Hroot) as (s1 & E1 & C1 & F1).
  destruct (stamper_steady env tools dirs s1 Hpopen Hisdir Hwritable Habs
              H1 H2 H3 Hroot) as (s2 & E2 & C2 & F2).
  exists s1, s2. split; [exact E1|]. split; [exact E2|].
  split; [exact F1|]. split; [|congruence].
  rewrite F2, F1. apply insert_insert_eq.
Qed.

(** X23 on the sample repository. *)
Lemma stamper_idempotent_witness :
  let env := Sample.table_env
               (Sample.stamp_table "abc1234" "2021-01-01 00:00:00 +0000") in
  exists s1 s2,
    main env Sample.start = Ok tt s1
    /\ main env s1 = Ok tt s2
    /\ files s2 = files s1
    /\ files s1 !! (Sample.root +:+ "/Example/JacquardSDK/BuildHash.json")
       = Some (build_hash_text "abc1234" "2021-01-01 00:00:00 +0000").
Proof.
  intros env.
  destruct (stamper_idempotent env
              (Sample.answers
                 (Sample.stamp_table "abc1234" "2021-01-01 00:00:00 +0000"))
              (fun _ => true) Sample.start)
    as (s1 & s2 & E1 & E2 & F1 & F2 & _); [reflexivity ..|].
  exists s1, s2. split; [exact E1|]. split; [exact E2|]. split; [exact F2|].
  rewrite F1. vm_compute. reflexivity.
Defined.

End StamperRuns.
